(** * Track-It! to JIRA migration: a shallow embedding of [Migration.py]

    The development follows the script function by function:
    - Python values that the script handles (optional strings, JSON);
    - [get_database_cursor]: the field mapper from a Track-It! row to
      the body of a JIRA issue;
    - the calls to the outside world ([requests], [os], [logging]) as
      operations of a small trace/exception monad;
    - [mainloop]: detection of already migrated work orders, migration,
      reconciliation of stuck work orders, and the due date sweep.

    Integers are [Z], strings are [string], Python's [None] is the [None]
    of an option type, dictionaries read from the configuration are
    [gmap]s. *)

From Stdlib Require Import ZArith Ascii String List Lia Bool.
From stdpp Require Import base tactics option list gmap sets strings pretty.

Local Open Scope Z_scope.
Set Warnings "-register-all".

(** ** Python strings *)

Module PyStr.

(** [a == b] on two [str] objects. *)
Definition eqb (a b : string) : bool := String.eqb a b.

(** [s.replace(old, new)] for one-character [old] and [new]: every
    occurrence is replaced, the other characters are kept. *)
Fixpoint replace_char (old new : ascii) (s : string) : string :=
  match s with
  | EmptyString => EmptyString
  | String c s' =>
      String (if Ascii.eqb c old then new else c) (replace_char old new s')
  end.

(** [s.replace(" ", "_")] *)
Definition replace_space (s : string) : string :=
  replace_char " "%char "_"%char s.

(** [len(s)] *)
Definition len (s : string) : Z := Z.of_nat (String.length s).

(** [s[0:n]]: the first [n] characters, fewer when [s] is shorter. *)
Definition prefix (n : nat) (s : string) : string := String.substring 0 n s.

(** [str(n)] for an [int]. *)
Definition of_int (n : Z) : string := pretty n.

End PyStr.

(** A value that is either [None] or a [str]: what [pymssql] hands back
    for a nullable character column. *)
Abbreviation pystr := (option string).

(** [v == s] where [v] may be [None] and [s] is a string literal. *)
Definition py_eq (v : pystr) (s : string) : bool :=
  match v with
  | Some x => PyStr.eqb x s
  | None => false
  end.

(** ** Rows of Track-It! and bodies of JIRA issues *)

(** One row of [cursor.fetchall()], in the column order of the query. *)
Record row := {
  workorder_number : Z;        (* row[0] *)
  priority : pystr;            (* row[1] *)
  request_date : pystr;        (* row[2] *)
  summary : pystr;             (* row[3] *)
  requester : pystr;           (* row[4] *)
  assignee_username : pystr;   (* row[5] *)
  due_date : pystr;            (* row[6] *)
  modify_date : pystr;         (* row[7] *)
  dept : pystr;                (* row[8] *)
  wo_type : pystr;             (* row[9] *)
  subtype : pystr;             (* row[10] *)
  category : pystr;            (* row[11] *)
  assigned_technician : pystr; (* row[12] *)
  description : pystr;         (* row[13] *)
  notes : pystr;               (* row[14] *)
  company : pystr              (* row[15] *)
}.

(** The dictionary [json_body["fields"]], one field per leaf. *)
Record json_body := {
  project_key : string;
  f_summary : pystr;
  f_description : pystr;
  customfield_10411 : Z;
  customfield_10420 : pystr;
  f_duedate : pystr;
  customfield_11000 : pystr;
  customfield_11701 : list pystr;
  customfield_11900 : list pystr;
  customfield_11800 : list pystr;
  customfield_10300_value : pystr;
  customfield_10300_id : string;
  issuetype_name : string;
  assignee_key : pystr;
  assignee_name : pystr;
  reporter_key : string;
  reporter_name : string;
  priority_name : pystr
}.

(** ** [get_database_cursor]: the field mapper *)

(** Lines 172-179. *)
Definition jira_issuetype_of (priority : pystr) (jira_key : string) : string :=
  if py_eq priority "Project" then "Project"
  else if py_eq priority "Ongoing Support" then "Service Management"
  else if py_eq priority "Change Request" && PyStr.eqb jira_key "CRQ"
       then "Change Request"
  else "Incident Management".

(** Lines 181-189, once per field:
    [if v is not None: if len(v) > 0: v = v.replace(" ", "_")]. *)
Definition underscore (v : pystr) : pystr :=
  match v with
  | Some s => if 0 <? PyStr.len s then Some (PyStr.replace_space s) else Some s
  | None => None
  end.

(** Lines 191-192. *)
Definition collapse_priority (priority : pystr) : pystr :=
  if py_eq priority "Ongoing Support" || py_eq priority "Change Request"
     || py_eq priority "Project"
  then Some "Routine" else priority.

(** Lines 193-198: [if v is None: v = ""]. *)
Definition none_to_empty (v : pystr) : pystr :=
  match v with
  | None => Some ""
  | Some s => Some s
  end.

(** The body of the [for row in cursor.fetchall()] loop.  The work order
    number is the integer key of the table, on which [int] is the
    identity. *)
Definition row_to_json_body (jira_key : string) (r : row) : json_body :=
  let jira_issuetype := jira_issuetype_of (priority r) jira_key in
  let subtype' := underscore (subtype r) in
  let category' := underscore (category r) in
  let company' := underscore (company r) in
  let priority' := collapse_priority (priority r) in
  let category'' := none_to_empty category' in
  let dept' := none_to_empty (dept r) in
  let description' := none_to_empty (description r) in
  {| project_key := jira_key;
     f_summary := summary r;
     f_description := description';
     customfield_10411 := workorder_number r;
     customfield_10420 := request_date r;
     f_duedate := due_date r;
     customfield_11000 := requester r;
     customfield_11701 := [dept'];
     customfield_11900 := [subtype'; category''];
     customfield_11800 := [company'];
     customfield_10300_value := wo_type r;
     customfield_10300_id := "10302";
     issuetype_name := jira_issuetype;
     assignee_key := assignee_username r;
     assignee_name := assignee_username r;
     reporter_key := "api";
     reporter_name := "api";
     priority_name := priority' |}.

(** The list that [get_database_cursor] returns for the fetched rows. *)
Definition map_rows (jira_key : string) (rows : list row) : list json_body :=
  map (row_to_json_body jira_key) rows.

(** ** JSON values and Python's dynamic operations on them *)

(** What [response.json()] and [json.load] return.  Numbers are the
    integers; an object is the list of its members. *)
Inductive json :=
| JNull
| JBool (b : bool)
| JNum (n : Z)
| JStr (s : string)
| JArr (l : list json)
| JObj (l : list (string * json)).

(** The exceptions that the script can meet.  [HTTPError] is the class
    of [urllib.error] that [mainloop] names in its [except] clause; its
    argument is what [str] of the exception gives.  [OtherError] stands
    for every other class (a connection error of [requests], an
    [OSError] of [open], a body that is not JSON, ...). *)
Inductive exn :=
| HTTPError (msg : string)
| KeyError (key : string)
| IndexError
| TypeError
| ValueError
| OutOfBoundsDatetime
| OtherError (msg : string).

Inductive outcome (A : Type) :=
| Returns (a : A)
| Raises (e : exn).
Arguments Returns {A} a.
Arguments Raises {A} e.

Module Outcome.

Definition bind {A B} (o : outcome A) (k : A -> outcome B) : outcome B :=
  match o with
  | Returns a => k a
  | Raises e => Raises e
  end.

(** A list comprehension whose element expression may raise: the first
    exception ends it. *)
Fixpoint traverse {A B} (f : A -> outcome B) (l : list A) : outcome (list B) :=
  match l with
  | [] => Returns []
  | x :: l' =>
      bind (f x) (fun y => bind (traverse f l') (fun ys => Returns (y :: ys)))
  end.

(** The same with an [if] clause: [f] gives [None] for an element that
    the condition leaves out. *)
Fixpoint traverse_if {A B} (f : A -> outcome (option B)) (l : list A)
  : outcome (list B) :=
  match l with
  | [] => Returns []
  | x :: l' =>
      bind (f x) (fun y =>
      bind (traverse_if f l') (fun ys =>
      Returns (match y with Some b => b :: ys | None => ys end)))
  end.

End Outcome.

Module Json.

Fixpoint assoc (k : string) (l : list (string * json)) : option json :=
  match l with
  | [] => None
  | (k', v) :: l' => if String.eqb k k' then Some v else assoc k l'
  end.

(** [j[k]] for a string [k]: only a dictionary can be indexed by a
    string; a missing key is a [KeyError]. *)
Definition get (k : string) (j : json) : outcome json :=
  match j with
  | JObj l => match assoc k l with
              | Some v => Returns v
              | None => Raises (KeyError k)
              end
  | _ => Raises TypeError
  end.

(** [j[0]] *)
Definition first (j : json) : outcome json :=
  match j with
  | JArr (x :: _) => Returns x
  | JArr [] => Raises IndexError
  | JStr (String c _) => Returns (JStr (String c EmptyString))
  | JStr EmptyString => Raises IndexError
  | JObj _ => Raises (KeyError "0")
  | _ => Raises TypeError
  end.

Fixpoint chars (s : string) : list json :=
  match s with
  | EmptyString => []
  | String c s' => JStr (String c EmptyString) :: chars s'
  end.

(** [for x in j]: the elements of a list, the keys of a dictionary, the
    characters of a string. *)
Definition iter (j : json) : outcome (list json) :=
  match j with
  | JArr l => Returns l
  | JObj l => Returns (map (fun kv => JStr (fst kv)) l)
  | JStr s => Returns (chars s)
  | _ => Raises TypeError
  end.

(** [dict(j)].  The JIRA search answers with an object; [dict] of a
    list of pairs is not modelled and counts as a type error. *)
Definition dict (j : json) : outcome json :=
  match j with
  | JObj l => Returns (JObj l)
  | _ => Raises TypeError
  end.

(** ["..." + j]: concatenation needs a [str] on the right. *)
Definition as_str (j : json) : outcome string :=
  match j with
  | JStr s => Returns s
  | _ => Raises TypeError
  end.

(** [j == s] for a string literal [s]. *)
Definition eq_str (j : json) (s : string) : bool :=
  match j with
  | JStr x => String.eqb x s
  | _ => false
  end.

End Json.

(** ** The outside world

    Every call that leaves the process is recorded, in program order, as
    an event carrying the request and what came back.  The answers are
    a parameter: a [World] maps the events so far and the new request
    to an answer, so that the same request may be answered differently
    at different times. *)

Inductive loglevel := INFO | WARNING | ERROR.

Inductive event :=
(** [cursor.execute(sql); cursor.fetchall()] *)
| EFetchAll (sql : string) (r : outcome (list row))
(** [requests.get(url, headers={"Authorization": auth, ...}).json()] *)
| EGet (url auth : string) (r : outcome json)
(** [requests.post(url, headers=..., data=json.dumps(data)).json()] *)
| EPost (url : string) (data : json_body) (auth : string) (r : outcome json)
(** [requests.get(url).json()] to the Track-It! login address *)
| ELogin (url : string) (r : outcome json)
(** [requests.post(url, headers=..., files={'file': open(filepath, 'rb')}).text] *)
| EPostFile (url filepath auth : string) (r : outcome string)
(** [os.path.isdir(path)] *)
| EIsDir (path : string) (b : bool)
(** [os.listdir(path)] *)
| EListDir (path : string) (r : outcome (list string))
(** the POST of [post_addnote_request_trackit]; [text] is ["FullText"] *)
| EAddNote (url : string) (trackit_key : json) (text : string) (r : outcome unit)
(** the POST of [post_close_request_trackit], with [response.json()] *)
| EClose (url : string) (trackit_key : json) (text : string) (r : outcome json)
(** [requests.put(url, data={"fields": {"duedate": duedate}}, headers=...)] *)
| EPut (url authorization duedate : string) (r : outcome unit)
| ELog (level : loglevel) (msg : string)
| EPrint (msg : string).

Definition history := list event.

Record World := {
  w_fetchall : history -> string -> outcome (list row);
  w_get : history -> string -> string -> outcome json;
  w_post : history -> string -> json_body -> string -> outcome json;
  w_login : history -> string -> outcome json;
  w_post_file : history -> string -> string -> string -> outcome string;
  w_isdir : history -> string -> bool;
  w_listdir : history -> string -> outcome (list string);
  w_addnote : history -> string -> json -> string -> outcome unit;
  w_close : history -> string -> json -> string -> outcome json;
  w_put : history -> string -> string -> string -> outcome unit;
  (** [datetime.now().strftime("%Y-%m-%d %H:%M:%S")] *)
  w_now : history -> string;
  (** Python's [repr] of a list or a dictionary, left abstract. *)
  py_repr : json -> string;
  (** [int(s)] for a string [s], left abstract. *)
  py_int_str : string -> outcome Z;
  (** [pd.to_datetime] on a string that is not an ISO calendar date
      within the range of [Timestamp], left abstract. *)
  pd_to_datetime_other : string -> outcome Z
}.

(** [str(j)] *)
Definition py_str (w : World) (j : json) : string :=
  match j with
  | JNull => "None"
  | JBool true => "True"
  | JBool false => "False"
  | JNum n => PyStr.of_int n
  | JStr s => s
  | _ => py_repr w j
  end.

(** ** The monad of the script: events and exceptions

    A computation reads the history at its start and yields the events
    that it appends to it, with its result or the exception that ended
    it. *)

Definition M (A : Type) : Type := history -> list event * outcome A.

Definition ret {A} (a : A) : M A := fun _ => ([], Returns a).

Definition bind {A B} (m : M A) (k : A -> M B) : M B :=
  fun h =>
    match m h with
    | (d1, Returns a) => let '(d2, r) := k a (h ++ d1) in (d1 ++ d2, r)
    | (d1, Raises e) => (d1, Raises e)
    end.

Declare Scope py_scope.
Delimit Scope py_scope with py.
Notation "x <- m ;; k" := (bind m (fun x => k))
  (at level 100, m at next level, right associativity) : py_scope.
Notation "m ;; k" := (bind m (fun _ => k))
  (at level 100, right associativity) : py_scope.
Local Open Scope py_scope.

(** A pure expression that may raise. *)
Definition lift {A} (o : outcome A) : M A := fun _ => ([], o).

(** A call to the world: the answer is computed from the history, and
    the event records the request with its answer. *)
Definition call {A} (ev : outcome A -> event) (answer : history -> outcome A)
  : M A :=
  fun h => let r := answer h in ([ev r], r).

(** An effect without an answer. *)
Definition emit (e : event) : M unit := fun _ => ([e], Returns tt).

(** [try: m  except HTTPError: handler(str(sys.exc_info()[1]))]: every
    other exception passes through. *)
Definition try_except_HTTPError {A} (m : M A) (handler : string -> M A) : M A :=
  fun h =>
    match m h with
    | (d1, Raises (HTTPError msg)) =>
        let '(d2, r) := handler msg (h ++ d1) in (d1 ++ d2, r)
    | res => res
    end.

(** [for x in l: body(x)] *)
Fixpoint for_each {A} (body : A -> M unit) (l : list A) : M unit :=
  match l with
  | [] => ret tt
  | x :: l' => body x ;; for_each body l'
  end.

Definition logging (level : loglevel) (msg : string) : M unit :=
  emit (ELog level msg).

Definition print (msg : string) : M unit := emit (EPrint msg).

(** ** Calendar dates, [pd.to_datetime] and [BDay]

    A [Timestamp] at midnight is the number of days since 1970-01-01 in
    the proleptic Gregorian calendar. *)

Module Date.

Definition days_from_civil (y m d : Z) : Z :=
  let y' := if m <=? 2 then y - 1 else y in
  let era := y' / 400 in
  let yoe := y' - era * 400 in
  let mp := if 2 <? m then m - 3 else m + 9 in
  let doy := (153 * mp + 2) / 5 + d - 1 in
  let doe := yoe * 365 + yoe / 4 - yoe / 100 + doy in
  era * 146097 + doe - 719468.

Definition civil_from_days (z : Z) : Z * Z * Z :=
  let z' := z + 719468 in
  let era := z' / 146097 in
  let doe := z' - era * 146097 in
  let yoe := (doe - doe / 1460 + doe / 36524 - doe / 146096) / 365 in
  let doy := doe - (365 * yoe + yoe / 4 - yoe / 100) in
  let mp := (5 * doy + 2) / 153 in
  let d := doy - (153 * mp + 2) / 5 + 1 in
  let m := if mp <? 10 then mp + 3 else mp - 9 in
  let y := yoe + era * 400 in
  (if m <=? 2 then y + 1 else y, m, d).

(** [Timestamp.weekday()]: Monday is 0 and Sunday is 6; day 0 was a
    Thursday. *)
Definition weekday (z : Z) : Z := (z + 3) mod 7.

Definition is_leap (y : Z) : bool :=
  (y mod 4 =? 0) && (negb (y mod 100 =? 0) || (y mod 400 =? 0)).

Definition days_in_month (y m : Z) : Z :=
  if m =? 2 then (if is_leap y then 29 else 28)
  else if (m =? 4) || (m =? 6) || (m =? 9) || (m =? 11) then 30
  else 31.

(** The midnights that a [Timestamp] can hold: 1677-09-22 to 2262-04-11. *)
Definition min_day : Z := days_from_civil 1677 9 22.
Definition max_day : Z := days_from_civil 2262 4 11.
Definition in_range (z : Z) : bool := (min_day <=? z) && (z <=? max_day).

Definition digit (c : ascii) : option Z :=
  let n := Z.of_nat (nat_of_ascii c) in
  if (48 <=? n) && (n <=? 57) then Some (n - 48) else None.

Fixpoint digits (acc : Z) (l : list ascii) : option Z :=
  match l with
  | [] => Some acc
  | c :: l' => match digit c with
               | Some d => digits (10 * acc + d) l'
               | None => None
               end
  end.

(** A string of the shape [YYYY-MM-DD] that names a day of the calendar. *)
Definition parse_iso (s : string) : option Z :=
  match list_ascii_of_string s with
  | [y1; y2; y3; y4; d1; m1; m2; d2; a1; a2] =>
      if Ascii.eqb d1 "-" && Ascii.eqb d2 "-" then
        match digits 0 [y1; y2; y3; y4], digits 0 [m1; m2], digits 0 [a1; a2] with
        | Some y, Some m, Some d =>
            if (1 <=? m) && (m <=? 12) && (1 <=? d) && (d <=? days_in_month y m)
            then Some (days_from_civil y m d) else None
        | _, _, _ => None
        end
      else None
  | _ => None
  end.

(** [pd.to_datetime(s)] *)
Definition to_datetime (w : World) (s : string) : outcome Z :=
  match parse_iso s with
  | Some z => if in_range z then Returns z else Raises OutOfBoundsDatetime
  | None => pd_to_datetime_other w s
  end.

Definition pad2 (n : Z) : string :=
  if n <? 10 then "0" +:+ PyStr.of_int n else PyStr.of_int n.

(** [str(t)[0:10]] for a [Timestamp] [t]: years have four digits
    throughout the range. *)
Definition to_str10 (z : Z) : string :=
  let '(y, m, d) := civil_from_days z in
  PyStr.of_int y +:+ "-" +:+ pad2 m +:+ "-" +:+ pad2 d.

(** [BusinessDay._adjust_ndays] of pandas. *)
Definition adjust_ndays (n wday weeks : Z) : Z :=
  let n := if (n <=? 0) && (4 <? wday) then n + 1 else n in
  let n := n - 5 * weeks in
  if (n =? 0) && (4 <? wday) then 4 - wday
  else if 4 <? wday then (7 - wday) + (n - 1)
  else if wday + n <=? 4 then n
  else n + 2.

(** The day that [other + BDay(n)] lands on, before the range check. *)
Definition bday_shift (other n : Z) : Z :=
  let wday := weekday other in
  let weeks := n / 5 in
  let days := adjust_ndays n wday weeks in
  other + (7 * weeks + days).

(** [other + BDay(n)] *)
Definition add_bday (other n : Z) : outcome Z :=
  let result := bday_shift other n in
  if in_range result then Returns result else Raises OutOfBoundsDatetime.

(** *** Business days as the specification words them *)

Definition is_business_day (z : Z) : bool := weekday z <? 5.

(** The first business day after [z]: a weekend has two days. *)
Definition next_business_day (z : Z) : Z :=
  if is_business_day (z + 1) then z + 1
  else if is_business_day (z + 2) then z + 2
  else z + 3.

Definition prev_business_day (z : Z) : Z :=
  if is_business_day (z - 1) then z - 1
  else if is_business_day (z - 2) then z - 2
  else z - 3.

(** [z] advanced by [n] business days.  A positive [n] counts business
    days after [z], a negative one before [z]; an offset of 0 leaves a
    business day where it is and moves a weekend day to the Monday. *)
Definition advance_business_days (z n : Z) : Z :=
  if 0 <? n then Nat.iter (Z.to_nat n) next_business_day z
  else if n <? 0 then Nat.iter (Z.to_nat (- n)) prev_business_day z
  else if is_business_day z then z else next_business_day z.

End Date.

(** ** The functions of the script *)

Section Script.

Variable w : World.

(** [datetime.now().strftime("%Y-%m-%d %H:%M:%S")] *)
Definition now : M string := fun h => ([], Returns (w_now w h)).

(** [os.path.isdir(path)] does not raise. *)
Definition isdir (path : string) : M bool :=
  fun h => let b := w_isdir w h path in ([EIsDir path b], Returns b).

(** [os.listdir(path)] *)
Definition listdir (path : string) : M (list string) :=
  call (EListDir path) (fun h => w_listdir w h path).

(** [int(j)] *)
Definition py_int (j : json) : outcome Z :=
  match j with
  | JNum n => Returns n
  | JBool b => Returns (if b then 1 else 0)
  | JStr s => py_int_str w s
  | _ => Raises TypeError
  end.

(** [post_request] *)
Definition post_request (jira_rest_call : string) (data : json_body)
    (jira_authorization : string) : M json :=
  call (EPost jira_rest_call data jira_authorization)
       (fun h => w_post w h jira_rest_call data jira_authorization).

(** [get_request] *)
Definition get_request (jira_rest_call jira_authorization : string) : M json :=
  call (EGet jira_rest_call jira_authorization)
       (fun h => w_get w h jira_rest_call jira_authorization).

Definition login_url (trackit_api_username track_it_full_hostname : string)
  : string :=
  "http://" +:+ track_it_full_hostname +:+
  "/TrackitWebAPI/api/Login?username=" +:+ trackit_api_username +:+ "&pwd=".

(** [create_trackit_key] *)
Definition create_trackit_key (trackit_api_username track_it_full_hostname : string)
  : M json :=
  let url := login_url trackit_api_username track_it_full_hostname in
  j <- call (ELogin url) (fun h => w_login w h url) ;;
  data <- lift (Json.get "data" j) ;;
  lift (Json.get "apiKey" data).

Definition close_url (track_it_full_hostname : string) (workorder_id : Z)
  : string :=
  "http://" +:+ track_it_full_hostname +:+
  "/TrackitWebAPI/api/workorder/Close/" +:+ PyStr.of_int workorder_id.

(** The text of both the note and the resolution; the line break is
    the character 10. *)
Definition moved_text (jira_link : string) : string :=
  "This workorder has been moved to " +:+
  String (ascii_of_nat 10) EmptyString +:+ jira_link +:+ "".

(** [post_close_request_trackit] *)
Definition post_close_request_trackit (trackit_key : json) (workorder_id : Z)
    (jira_link track_it_full_hostname : string) : M unit :=
  let url := close_url track_it_full_hostname workorder_id in
  let text := moved_text jira_link in
  response <- call (EClose url trackit_key text)
                   (fun h => w_close w h url trackit_key text) ;;
  success <- lift (Json.get "success" response) ;;
  if Json.eq_str success "false" then
    data <- lift (Json.get "data" response) ;;
    message <- lift (Json.get "Message" data) ;;
    message <- lift (Json.as_str message) ;;
    logging WARNING ("TrackIt workorder " +:+ PyStr.of_int workorder_id +:+
                     " failed to close because: " +:+ message)
  else
    data <- lift (Json.get "data" response) ;;
    message <- lift (Json.get "message" data) ;;
    logging INFO (py_str w message).

Definition addnote_url (track_it_full_hostname : string) (workorder_id : Z)
  : string :=
  "http://" +:+ track_it_full_hostname +:+
  "/TrackitWebAPI/api/workorder/AddNote/" +:+ PyStr.of_int workorder_id.

(** [post_addnote_request_trackit]: the response is not looked at. *)
Definition post_addnote_request_trackit (trackit_key : json) (workorder_id : Z)
    (jira_link track_it_full_hostname : string) : M unit :=
  let url := addnote_url track_it_full_hostname workorder_id in
  let text := moved_text jira_link in
  call (EAddNote url trackit_key text)
       (fun h => w_addnote w h url trackit_key text).

(** [get_database_cursor] *)
Definition get_database_cursor (sql jira_key : string) : M (list json_body) :=
  rows <- call (EFetchAll sql) (fun h => w_fetchall w h sql) ;;
  ret (map_rows jira_key rows).

(** [post_file_request]: opening the file and the POST are one event. *)
Definition post_file_request (jira_rest_call filepath jira_authorization : string)
  : M string :=
  call (EPostFile jira_rest_call filepath jira_authorization)
       (fun h => w_post_file w h jira_rest_call filepath jira_authorization).

Definition trackit_dir_of (attachment_folder : string) (trackit_id : Z) : string :=
  attachment_folder +:+ "\" +:+ PyStr.of_int trackit_id.

(** [import_attachments]: the dictionary of the uploaded names, or
    [None] when there is no directory for the work order. *)
Definition import_attachments (trackit_id : Z)
    (jira_rest_call jira_authorization attachment_folder : string)
  : M (option (Z * list string)) :=
  let trackit_dir := trackit_dir_of attachment_folder trackit_id in
  found <- isdir trackit_dir ;;
  if (found : bool) then
    files <- listdir trackit_dir ;;
    for_each (fun file =>
                let filepath := trackit_dir +:+ "\" +:+ file in
                _ <- post_file_request jira_rest_call filepath jira_authorization ;;
                ret tt) files ;;
    files' <- listdir trackit_dir ;;
    ret (Some (trackit_id, files'))
  else ret None.

(** *** The migration-state detector (lines 347-356) *)

(** One element of the comprehension of [trackit_ids_jira]: the [if]
    clause is evaluated first. *)
Definition trackit_id_of_issue (issue : json) : outcome (option Z) :=
  Outcome.bind (Json.get "fields" issue) (fun fields =>
  Outcome.bind (Json.get "customfield_10411" fields) (fun v =>
  if negb (String.eqb (py_str w v) "None") then
    Outcome.bind (Json.get "fields" issue) (fun fields =>
    Outcome.bind (Json.get "customfield_10411" fields) (fun v =>
    Outcome.bind (py_int v) (fun n => Returns (Some n))))
  else Returns None)).

(** [[x for x in trackit_ids_trackit if x in trackit_ids_jira]] *)
Definition invalid_ids_of (trackit_ids_trackit trackit_ids_jira : list Z)
  : list Z :=
  filter (fun x => x ∈ trackit_ids_jira) trackit_ids_trackit.

(** [[x for x in database_full_output
      if int(x["fields"]["customfield_10411"]) not in invalid_ids]] *)
Definition valid_of (database_full_output : list json_body)
    (invalid_ids : list Z) : list json_body :=
  filter (fun x => customfield_10411 x ∉ invalid_ids) database_full_output.

(** *** [mainloop] *)

Section Mainloop.

(** The arguments of [mainloop]; the database connection is part of
    the world.  [config] is the global dictionary of the module, which
    the due date sweep reads. *)
Variables (trackit_api_username jira_rest_call_post
           jira_rest_call_get_trackit_id jira_authorization jira_key
           track_it_full_hostname jira_server_address sql
           attachment_folder : string).
Variable duedate_map : gmap string Z.
Variable config : gmap string json.

Definition browse_link (issue_key : string) : string :=
  "http://" +:+ jira_server_address +:+ "/browse/" +:+ issue_key.

Definition attachment_link (issue_key : string) : string :=
  "http://" +:+ jira_server_address +:+ "/rest/api/2/issue/" +:+ issue_key
  +:+ "/attachments".

(** The body of the loop over [database_full_output_valid]
    (lines 363-396).  [continue] ends the body. *)
Definition migrate_one (data : json_body) : M unit :=
  let id := customfield_10411 data in
  print ("Moving workorders to Jira:" +:+ PyStr.of_int id) ;;
  logging INFO ("Moving workorders to Jira:" +:+ PyStr.of_int id) ;;
  trackit_key <- create_trackit_key trackit_api_username track_it_full_hostname ;;
  posted <- try_except_HTTPError
              (response <- post_request jira_rest_call_post data jira_authorization ;;
               ret (Some response))
              (fun msg =>
                 logging ERROR (msg +:+ ": " +:+ PyStr.of_int id) ;;
                 ret None) ;;
  match posted with
  | None => ret tt
  | Some response =>
      key <- lift (Json.get "key" response) ;;
      let jira_link := browse_link (py_str w key) in
      let jira_attachment_link := attachment_link (py_str w key) in
      print jira_attachment_link ;;
      logging INFO ("Successfully migrated to Jira at: " +:+ jira_attachment_link) ;;
      _ <- import_attachments id jira_attachment_link jira_authorization
                              attachment_folder ;;
      post_addnote_request_trackit trackit_key id jira_link track_it_full_hostname ;;
      post_close_request_trackit trackit_key id jira_link track_it_full_hostname
  end.

Definition jira_trackit_id_url (keys : Z) : string :=
  "http://" +:+ jira_server_address +:+
  "/rest/api/2/search?jql=%22TrackIT%20%23%22%3D" +:+ PyStr.of_int keys.

(** The body of the loop over [invalid_ids] (lines 402-415). *)
Definition reconcile_one (keys : Z) : M unit :=
  trackit_key <- create_trackit_key trackit_api_username track_it_full_hostname ;;
  found <- get_request (jira_trackit_id_url keys) jira_authorization ;;
  issues <- lift (Json.get "issues" found) ;;
  issue <- lift (Json.first issues) ;;
  key <- lift (Json.get "key" issue) ;;
  key <- lift (Json.as_str key) ;;
  let jira_link := "http://" +:+ jira_server_address +:+ "/browse/" +:+ key in
  post_addnote_request_trackit trackit_key keys jira_link track_it_full_hostname ;;
  post_close_request_trackit trackit_key keys jira_link track_it_full_hostname.

(** [str(invalid_ids)]: the list as Python prints it. *)
Definition str_of_ids (ids : list Z) : string :=
  py_repr w (JArr (map JNum ids)).

Definition get_empty_duedates_url : string :=
  "http://" +:+ jira_server_address +:+
  "/rest/api/2/search?jql=project%20%3D%20" +:+ jira_key +:+
  "%20AND%20duedate%20is%20EMPTY%20AND%20type%20%20%3D%20%22Incident%20Management%22".

(** [j[0:10]] on the [created] field: a string is cut; a list, which
    Python would cut as well, is not a shape of that field and counts
    as a type error. *)
Definition slice10 (j : json) : outcome string :=
  match j with
  | JStr s => Returns (PyStr.prefix 10 s)
  | _ => Raises TypeError
  end.

(** One element of [srq_ids_empty]: key, priority name, creation day. *)
Definition srq_of_ticket (ticket : json) : outcome (json * json * Z) :=
  Outcome.bind (Json.get "key" ticket) (fun key =>
  Outcome.bind (Json.get "fields" ticket) (fun fields =>
  Outcome.bind (Json.get "priority" fields) (fun prio =>
  Outcome.bind (Json.get "name" prio) (fun name =>
  Outcome.bind (Json.get "fields" ticket) (fun fields =>
  Outcome.bind (Json.get "created" fields) (fun created =>
  Outcome.bind (slice10 created) (fun day =>
  Outcome.bind (Date.to_datetime w day) (fun t =>
  Returns (key, name, t))))))))).

(** [d[k]] on a dictionary of the configuration. *)
Definition dict_get {V} (d : gmap string V) (k : string) : outcome V :=
  match d !! k with
  | Some v => Returns v
  | None => Raises (KeyError k)
  end.

(** Line 430: [str(value[2] + BDay(duedate_map[str(value[1])]))[0:10]] *)
Definition duedate_of (value : json * json * Z) : outcome string :=
  let '(_, name, created) := value in
  Outcome.bind (dict_get duedate_map (py_str w name)) (fun n =>
  Outcome.bind (Date.add_bday created n) (fun t =>
  Returns (Date.to_str10 t))).

Definition issue_url (server : string) (issue_key : string) : string :=
  "http://" +:+ server +:+ "/rest/api/2/issue/" +:+ issue_key.

(** The body of the loop over [srq_ids_empty] (lines 430-436). *)
Definition update_duedate (value : json * json * Z) : M unit :=
  duedate <- lift (duedate_of value) ;;
  let authorization := "Basic YXBpOlBhc3N3b3Jk" in
  server <- lift (dict_get config "jira_server_address") ;;
  server <- lift (Json.as_str server) ;;
  let url := issue_url server (py_str w (fst (fst value))) in
  call (EPut url authorization duedate)
       (fun h => w_put w h url authorization duedate).

(** The due date sweep (lines 419-436). *)
Definition duedate_sweep : M unit :=
  duedates_response <- get_request get_empty_duedates_url jira_authorization ;;
  issues <- lift (Json.get "issues" duedates_response) ;;
  tickets <- lift (Json.iter issues) ;;
  srq_ids_empty <- lift (Outcome.traverse srq_of_ticket tickets) ;;
  for_each update_duedate srq_ids_empty.

(** The ids that JIRA already holds (lines 349-353). *)
Definition fetch_trackit_ids_jira : M (list Z) :=
  answer <- get_request jira_rest_call_get_trackit_id jira_authorization ;;
  trackit_ids_jira_dict <- lift (Json.dict answer) ;;
  issues <- lift (Json.get "issues" trackit_ids_jira_dict) ;;
  issues <- lift (Json.iter issues) ;;
  lift (Outcome.traverse_if trackit_id_of_issue issues).

Definition mainloop : M unit :=
  database_full_output <- get_database_cursor sql jira_key ;;
  stamp <- now ;;
  print (stamp +:+ " Amount of open workorders: " +:+
         PyStr.of_int (Z.of_nat (length database_full_output))) ;;
  let trackit_ids_trackit := map customfield_10411 database_full_output in
  trackit_ids_jira <- fetch_trackit_ids_jira ;;
  let invalid_ids := invalid_ids_of trackit_ids_trackit trackit_ids_jira in
  let database_full_output_valid := valid_of database_full_output invalid_ids in
  (if 0 <? Z.of_nat (length database_full_output_valid)
   then for_each migrate_one database_full_output_valid
   else ret tt) ;;
  (if 0 <? Z.of_nat (length invalid_ids)
   then print ("Updating previously locked workorders: " +:+ str_of_ids invalid_ids) ;;
        for_each reconcile_one invalid_ids
   else ret tt) ;;
  duedate_sweep.

End Mainloop.

End Script.

(** ** Vocabulary of the properties *)

(** *** The field mapper *)

Definition collapsed_priorities : list pystr :=
  [Some "Ongoing Support"; Some "Change Request"; Some "Project"].

(** [t] is [s] with every space replaced by an underscore and every
    other character kept. *)
Definition spaces_to_underscores (s t : string) : Prop :=
  String.length t = String.length s /\
  forall (i : nat) (c : ascii),
    String.get i s = Some c ->
    String.get i t = Some (if Ascii.eqb c " " then "_"%char else c).

(** A value that is empty or absent. *)
Definition empty_or_absent (v : pystr) : Prop := v = None \/ v = Some "".

(** The defaults as the specification words them: an empty or absent
    category, department or description gives the empty string, an
    empty or absent subtype or company gives an absent value. *)
Definition defaults_as_worded : Prop :=
  forall (jira_key : string) (r : row),
    let b := row_to_json_body jira_key r in
    (empty_or_absent (category r) -> customfield_11900 b !! 1%nat = Some (Some "")) /\
    (empty_or_absent (dept r) -> customfield_11701 b = [Some ""]) /\
    (empty_or_absent (description r) -> f_description b = Some "") /\
    (empty_or_absent (subtype r) -> customfield_11900 b !! 0%nat = Some None) /\
    (empty_or_absent (company r) -> customfield_11800 b = [None]).

(** *** Steps between business days *)

(** The distance to the next business day, by the day of the week. *)
Definition step_next (wd : Z) : Z :=
  if wd =? 4 then 3 else if wd =? 5 then 2 else 1.

(** The distance to the previous business day. *)
Definition step_prev (wd : Z) : Z :=
  if wd =? 0 then 3 else if wd =? 6 then 2 else 1.

(** What [BDay(n)] adds to a day that falls on the weekday [wd]. *)
Definition delta (wd n : Z) : Z :=
  7 * (n / 5) + Date.adjust_ndays n wd (n / 5).

(** *** Events of a run *)

#[global] Instance json_body_eq_dec : EqDecision json_body.
Proof. solve_decision. Defined.

Module Trace.

Definition is_close (ev : event) : bool :=
  match ev with EClose _ _ _ _ => true | _ => false end.

Definition not_close (ev : event) : bool := negb (is_close ev).

Definition is_addnote (ev : event) : bool :=
  match ev with EAddNote _ _ _ _ => true | _ => false end.

Definition is_upload (ev : event) : bool :=
  match ev with EPostFile _ _ _ _ => true | _ => false end.

Definition is_isdir (ev : event) : bool :=
  match ev with EIsDir _ _ => true | _ => false end.

Definition is_post (ev : event) : bool :=
  match ev with EPost _ _ _ _ => true | _ => false end.

Definition is_put (ev : event) : bool :=
  match ev with EPut _ _ _ _ => true | _ => false end.

Definition is_log (ev : event) : bool :=
  match ev with ELog _ _ => true | _ => false end.

(** An effect on the legacy record or its attachments. *)
Definition is_record_effect (ev : event) : bool :=
  is_close ev || is_addnote ev || is_upload ev.

Definition not_post (ev : event) : bool := negb (is_post ev).

Definition not_isdir (ev : event) : bool := negb (is_isdir ev).

(** Neither a submission nor an effect on the legacy record. *)
Definition plain (ev : event) : bool :=
  negb (is_post ev) && negb (is_record_effect ev) && negb (is_isdir ev).

(** Among the events of the steps for the work order [x], a submission
    carries [x] and a close request goes to the address of [x]. *)
Definition own (track_it_full_hostname : string) (x : json_body) (ev : event)
  : bool :=
  match ev with
  | EPost _ data _ _ => bool_decide (data = x)
  | EClose url _ _ _ =>
      bool_decide (url = close_url track_it_full_hostname (customfield_10411 x))
  | _ => true
  end.

(** Among the events of the reconciliation of the id [keys] there is no
    submission, and a close request goes to the address of [keys]. *)
Definition own_stuck (track_it_full_hostname : string) (keys : Z) (ev : event)
  : bool :=
  match ev with
  | EPost _ _ _ _ => false
  | EClose url _ _ _ =>
      bool_decide (url = close_url track_it_full_hostname keys)
  | _ => true
  end.

(** Neither a submission nor a close request. *)
Definition neither (ev : event) : bool := negb (is_post ev) && negb (is_close ev).

(** [ev] is the close request for the work order [id]. *)
Definition closes (track_it_full_hostname : string) (id : Z) (ev : event) : Prop :=
  exists key text r, ev = EClose (close_url track_it_full_hostname id) key text r.

(** [ev] is the note request for the work order [id]. *)
Definition annotates (track_it_full_hostname : string) (id : Z) (ev : event) : Prop :=
  exists key text r, ev = EAddNote (addnote_url track_it_full_hostname id) key text r.

(** The answer to a submission does not name a created issue: the POST
    raised, or the body that came back has no ["key"]. *)
Definition submission_failed (r : outcome json) : bool :=
  match r with
  | Raises _ => true
  | Returns j => match Json.get "key" j with
                 | Returns _ => false
                 | Raises _ => true
                 end
  end.

(** [ev] is a submission for the work order [id] that JIRA answered
    with the key of the created issue. *)
Definition created (id : Z) (ev : event) : Prop :=
  exists url data auth r,
    ev = EPost url data auth r /\ customfield_10411 data = id /\
    submission_failed r = false.

(** [ev] is the search for the issue of the work order [id], answered
    with a first issue that has a key. *)
Definition found (jira_server_address : string) (id : Z) (ev : event) : Prop :=
  exists auth j issues issue k,
    ev = EGet (jira_trackit_id_url jira_server_address id) auth (Returns j) /\
    Json.get "issues" j = Returns issues /\
    Json.first issues = Returns issue /\
    Json.get "key" issue = Returns (JStr k).

(** The ids of the work orders submitted in a run, in order. *)
Definition posted_ids (evs : list event) : list Z :=
  omap (fun ev => match ev with
                  | EPost _ data _ _ => Some (customfield_10411 data)
                  | _ => None
                  end) evs.

(** The log entries of a run, in order. *)
Definition logs (evs : list event) : list (loglevel * string) :=
  omap (fun ev => match ev with
                  | ELog level msg => Some (level, msg)
                  | _ => None
                  end) evs.

(** The due date updates of a run: address, authorization, due date. *)
Definition put_requests (evs : list event) : list (string * string * string) :=
  omap (fun ev => match ev with
                  | EPut url authorization duedate _ =>
                      Some (url, authorization, duedate)
                  | _ => None
                  end) evs.

(** Among the events [d], a work order whose submission did not name a
    created issue is not closed. *)
Definition failed_never_closed (track_it_full_hostname : string)
    (d : list event) : Prop :=
  forall url data auth res,
    EPost url data auth res ∈ d -> submission_failed res = true ->
    forall ev : event,
      ev ∈ d -> ~ closes track_it_full_hostname (customfield_10411 data) ev.

(** Every event that [m] appends, from whatever history, satisfies [p]. *)
Definition emits_only {A} (p : event -> bool) (m : M A) : Prop :=
  forall h, Forall (fun ev => p ev = true) (fst (m h)).

(** Every close request among the events [d], which follow the events
    [ctx], comes after a submission that created the issue of its work
    order, or after a search that found it. *)
Fixpoint closes_justified (track_it_full_hostname jira_server_address : string)
    (ctx d : list event) : Prop :=
  match d with
  | [] => True
  | ev :: d' =>
      (forall id, closes track_it_full_hostname id ev ->
                  exists ev' : event, ev' ∈ ctx /\
                              (created id ev' \/ found jira_server_address id ev')) /\
      closes_justified track_it_full_hostname jira_server_address (ctx ++ [ev]) d'
  end.

End Trace.

(** Attachments as the specification words them: whenever the
    attachment step of a work order is reached, the note request for
    that work order is made. *)
Definition attachments_never_block : Prop :=
  forall (w : World)
         (trackit_api_username jira_rest_call_post jira_authorization
          track_it_full_hostname jira_server_address attachment_folder : string)
         (data : json_body) (h : history),
    let d := fst (migrate_one w trackit_api_username jira_rest_call_post
                    jira_authorization track_it_full_hostname
                    jira_server_address attachment_folder data h) in
    (exists ev : event, ev ∈ d /\ Trace.is_isdir ev = true) ->
    exists ev : event, ev ∈ d /\
               Trace.annotates track_it_full_hostname (customfield_10411 data) ev.

(** The due date sweep as the specification words it: an issue whose
    priority has no entry in the mapping is skipped with a log entry, and
    the sweep goes on with the issues after it. *)
Definition sweep_skips_unmapped : Prop :=
  forall (w : World) (duedate_map : gmap string Z) (config : gmap string json)
         (value : json * json * Z) (rest : list (json * json * Z)) (h : history),
    duedate_map !! py_str w (snd (fst value)) = None ->
    exists level msg,
      for_each (update_duedate w duedate_map config) (value :: rest) h =
      (let '(d, r) := for_each (update_duedate w duedate_map config) rest
                               (h ++ [ELog level msg]) in
       (ELog level msg :: d, r)).

(** The entries of [srq_ids_empty] for the answer [r] of the search
    (lines 425-427). *)
Definition srq_ids_empty_of (w : World) (r : outcome json)
  : outcome (list (json * json * Z)) :=
  Outcome.bind r (fun duedates_response =>
  Outcome.bind (Json.get "issues" duedates_response) (fun issues =>
  Outcome.bind (Json.iter issues) (fun tickets =>
  Outcome.traverse (srq_of_ticket w) tickets))).

(** The update that the sweep sends for one entry: address and due
    date, or the exception that the entry meets before the request. *)
Definition duedate_request (w : World) (duedate_map : gmap string Z)
    (config : gmap string json) (value : json * json * Z)
  : outcome (string * string) :=
  Outcome.bind (duedate_of w duedate_map value) (fun duedate =>
  Outcome.bind (dict_get config "jira_server_address") (fun server =>
  Outcome.bind (Json.as_str server) (fun server =>
  Returns (issue_url server (py_str w (fst (fst value))), duedate)))).

(** *** Sample data *)

Module Sample.

Definition work_order (id : Z) (prio : string) : row :=
  {| workorder_number := id; priority := Some prio; request_date := Some "2024-01-05";
     summary := Some "printer jam"; requester := Some "J. Doe";
     assignee_username := Some "mtam"; due_date := None; modify_date := None;
     dept := Some "Human Resources"; wo_type := Some "Hardware";
     subtype := Some ""; category := Some "Laser Printer";
     assigned_technician := Some "Maxim Tam"; description := None;
     notes := None; company := None |}.

Definition login_answer : json := JObj [("data", JObj [("apiKey", JStr "k1")])].

Definition close_answer : json :=
  JObj [("success", JStr "true");
        ("data", JObj [("message", JStr "Work Order updated successfully")])].

Definition created_answer : json := JObj [("key", JStr "SUP-101")].

(** What JIRA sends back when it refuses an issue. *)
Definition refused_answer : json :=
  JObj [("errorMessages", JArr []);
        ("errors", JObj [("priority", JStr "Priority name is not valid")])].

Definition ticket (key prio created : string) : json :=
  JObj [("key", JStr key);
        ("fields", JObj [("priority", JObj [("name", JStr prio)]);
                         ("created", JStr created)])].

(** A world that answers every request the same way, whatever came
    before: [rows] from the database, [search] to every GET, [posted] to
    every submission, [files] in every attachment directory when
    [has_dir], and [uploaded] to every upload. *)
Definition steady (rows : list row) (search : json) (posted : outcome json)
    (has_dir : bool) (files : list string) (uploaded : outcome string) : World :=
  {| w_fetchall := fun _ _ => Returns rows;
     w_get := fun _ _ _ => Returns search;
     w_post := fun _ _ _ _ => posted;
     w_login := fun _ _ => Returns login_answer;
     w_post_file := fun _ _ _ _ => uploaded;
     w_isdir := fun _ _ => has_dir;
     w_listdir := fun _ _ => Returns files;
     w_addnote := fun _ _ _ _ => Returns tt;
     w_close := fun _ _ _ _ => Returns close_answer;
     w_put := fun _ _ _ _ => Returns tt;
     w_now := fun _ => "2024-01-05 10:00:00";
     py_repr := fun _ => "[...]";
     py_int_str := fun _ => Raises ValueError;
     pd_to_datetime_other := fun _ => Raises ValueError |}.

Definition duedate_map : gmap string Z := {[ "High" := 1 ]}.

Definition config : gmap string json :=
  {[ "jira_server_address" := JStr "jira.example.org" ]}.

(** A search answer with two issues: the priority of the first has no
    entry in [duedate_map], the priority of the second has one. *)
Definition two_tickets : json :=
  JObj [("issues",
         JArr [ticket "SUP-1" "Unknown" "2024-01-05T09:30:00.000+0000";
               ticket "SUP-2" "High" "2024-01-05T11:00:00.000+0000"])].

Definition quiet : World :=
  steady [] two_tickets (Returns created_answer) false [] (Returns "").

(** A search answer with two issues of a known priority. *)
Definition mapped_tickets : json :=
  JObj [("issues",
         JArr [ticket "SUP-1" "High" "2024-01-05T09:30:00.000+0000";
               ticket "SUP-2" "High" "2024-01-06T11:00:00.000+0000"])].

Definition sweeping : World :=
  steady [] mapped_tickets (Returns created_answer) false [] (Returns "").

(** Two open work orders, none of them known to JIRA, which refuses
    every submission with an error body. *)
Definition refusing : World :=
  steady [work_order 52204 "High"; work_order 52205 "High"]
         (JObj [("issues", JArr [])]) (Returns refused_answer)
         false [] (Returns "").

(** The same, with submissions that raise [HTTPError]. *)
Definition http_failing : World :=
  steady [work_order 52204 "High"; work_order 52205 "High"]
         (JObj [("issues", JArr [])])
         (Raises (HTTPError "HTTP Error 400: Bad Request"))
         false [] (Returns "").

(** One open work order with an attachment whose upload raises. *)
Definition upload_failing : World :=
  steady [work_order 52204 "High"] (JObj [("issues", JArr [])])
         (Returns created_answer) true ["screenshot.png"]
         (Raises (OtherError "ConnectionError")).

(** One open work order that JIRA does not know and accepts. *)
Definition migrating : World :=
  steady [work_order 52204 "High"] (JObj [("issues", JArr [])])
         (Returns created_answer) false [] (Returns "").

(** The same with an attachment directory that holds one file; the
    upload is answered with an error page. *)
Definition upload_refused : World :=
  steady [work_order 52204 "High"] (JObj [("issues", JArr [])])
         (Returns created_answer) true ["screenshot.png"]
         (Returns "<html>403 Forbidden</html>").

(** [migrate_one] with the arguments that the samples use. *)
Definition migrate (w : World) (data : json_body) : list event * outcome unit :=
  migrate_one w "mtam" "http://jira.example.org/rest/api/2/issue/"
    "Basic abc" "trackit.example.org" "jira.example.org" "C:\attachments"
    data [].

(** [mainloop] with the arguments that the samples use. *)
Definition run (w : World) : list event * outcome unit :=
  mainloop w "mtam" "http://jira.example.org/rest/api/2/issue/"
    "http://jira.example.org/rest/api/2/search?jql=project%20%3D%20%22SUP%22&fields=customfield_10411&maxResults=1000"
    "Basic abc" "SUP" "trackit.example.org" "jira.example.org"
    "SELECT wo_num FROM tasks" "C:\attachments" duedate_map config [].

End Sample.


(** ** Further vocabulary *)

(** [" " in s] *)
Fixpoint contains_space (s : string) : bool :=
  match s with
  | EmptyString => false
  | String c s' => Ascii.eqb c " " || contains_space s'
  end.

(** The four issue types that the mapper knows. *)
Definition issue_types : list string :=
  ["Project"; "Service Management"; "Change Request"; "Incident Management"].

(** The cross-reference that a JIRA issue carries: the value under
    ["fields"]["customfield_10411"]. *)
Definition cross_reference (issue v : json) : Prop :=
  exists fields,
    Json.get "fields" issue = Returns fields /\
    Json.get "customfield_10411" fields = Returns v.

(** A cross-reference that is a number, or [null]. *)
Definition reference_value (o : option Z) : json :=
  match o with
  | Some n => JNum n
  | None => JNull
  end.

(** The ids that [mainloop] reads out of the answer [j] of the inventory
    search (lines 349-353). *)
Definition trackit_ids_jira_of (w : World) (j : json) : outcome (list Z) :=
  Outcome.bind (Json.dict j) (fun trackit_ids_jira_dict =>
  Outcome.bind (Json.get "issues" trackit_ids_jira_dict) (fun issues =>
  Outcome.bind (Json.iter issues) (fun issues =>
  Outcome.traverse_if (trackit_id_of_issue w) issues))).

Module More.

(** The uploads of a run: address, file path, authorization. *)
Definition uploads (evs : list event) : list (string * string * string) :=
  omap (fun ev => match ev with
                  | EPostFile url filepath auth _ => Some (url, filepath, auth)
                  | _ => None
                  end) evs.

(** The directory listings of a run. *)
Definition listings (evs : list event) : list string :=
  omap (fun ev => match ev with
                  | EListDir path _ => Some path
                  | _ => None
                  end) evs.

Definition is_login (ev : event) : bool :=
  match ev with ELogin _ _ => true | _ => false end.

(** The answer to a login carries an API key. *)
Definition key_of_login (j key : json) : Prop :=
  exists data, Json.get "data" j = Returns data /\
               Json.get "apiKey" data = Returns key.

(** An event before the due date sweep: anything but an update. *)
Definition not_put (ev : event) : bool := negb (Trace.is_put ev).

(** An event of the due date sweep: its search or an update. *)
Definition of_sweep (ev : event) : bool :=
  match ev with
  | EGet _ _ _ | EPut _ _ _ _ => true
  | _ => false
  end.


(** An event of one work order that needs the API key of Track-It!, or
    that is made on its behalf towards JIRA. *)
Definition needs_login (ev : event) : bool :=
  Trace.is_post ev || Trace.is_addnote ev || Trace.is_close ev.

(** [ev'] is a login that returned an API key, and [ev], when it is a
    note or a close request, carries that key. *)
Definition logged_in (ev ev' : event) : Prop :=
  exists url j key,
    ev' = ELogin url (Returns j) /\ key_of_login j key /\
    (forall u k t r, ev = EAddNote u k t r -> k = key) /\
    (forall u k t r, ev = EClose u k t r -> k = key).

(** Every event of [d] that needs a login comes after one, [ctx] being
    the events before [d]. *)
Fixpoint after_login (ctx d : list event) : Prop :=
  match d with
  | [] => True
  | ev :: d' =>
      (needs_login ev = true ->
       exists ev' : event, ev' ∈ ctx /\ logged_in ev ev') /\
      after_login (ctx ++ [ev]) d'
  end.

(** The context holds a login that returned the API key [tk]. *)
Definition has_login (ctx : list event) (tk : json) : Prop :=
  exists url j, ELogin url (Returns j) ∈ ctx /\ key_of_login j tk.

(** The events of a due date sweep: nothing, or the search at [url]
    followed by updates only. *)
Definition sweep_events (url auth : string) (d : list event) : Prop :=
  d = [] \/
  exists r rest,
    d = EGet url auth r :: rest /\
    Forall (fun ev => Trace.is_put ev = true) rest.

(** The events [d] are events without a due date update, followed by
    the events of one sweep. *)
Definition sweep_comes_last (url auth : string) (d : list event) : Prop :=
  exists d1 d2,
    d = d1 ++ d2 /\
    Forall (fun ev => not_put ev = true) d1 /\
    sweep_events url auth d2.

(** *** Further sample data *)

(** A search answer with two issues; the second has no priority. *)
Definition unprioritised : json :=
  JObj [("issues",
         JArr [Sample.ticket "SUP-1" "High" "2024-01-05T09:30:00.000+0000";
               JObj [("key", JStr "SUP-2");
                     ("fields",
                      JObj [("priority", JNull);
                            ("created", JStr "2024-01-06T11:00:00.000+0000")])]])].

Definition unprioritising : World :=
  Sample.steady [] unprioritised (Returns Sample.created_answer) false []
                (Returns "").

(** [duedate_sweep] with the arguments that the samples use. *)
Definition sweep (w : World) : list event * outcome unit :=
  duedate_sweep w "Basic abc" "SUP" "jira.example.org"
    Sample.duedate_map Sample.config [].

End More.
(** * Properties *)

(** ** The field mapper *)

Lemma py_eq_true (v : pystr) (s : string) : py_eq v s = true <-> v = Some s.
Proof.
  destruct v as [x|]; simpl; [|split; discriminate].
  unfold PyStr.eqb. rewrite String.eqb_eq. split; congruence.
Qed.

Lemma py_eq_false (v : pystr) (s : string) : py_eq v s = false <-> v <> Some s.
Proof.
  rewrite <- py_eq_true. destruct (py_eq v s); split; congruence.
Qed.

(** C4: a priority among "Ongoing Support", "Change Request" and
    "Project" is sent to JIRA as "Routine"; every other priority is sent
    as it is. *)
Theorem priority_collapse (jira_key : string) (r : row) :
  (priority r ∈ collapsed_priorities ->
   priority_name (row_to_json_body jira_key r) = Some "Routine") /\
  (priority r ∉ collapsed_priorities ->
   priority_name (row_to_json_body jira_key r) = priority r).
Proof.
  unfold collapsed_priorities. simpl. unfold collapse_priority.
  split; intros H.
  - rewrite !elem_of_cons in H.
    destruct H as [->|[->|[->|H]]]; [reflexivity..|].
    by apply elem_of_nil in H.
  - rewrite !not_elem_of_cons in H. destruct H as (H1 & H2 & H3 & _).
    apply py_eq_false in H1, H2, H3. by rewrite H1, H2, H3.
Qed.

Lemma priority_collapse_witness :
  priority_name (row_to_json_body "SUP" (Sample.work_order 7 "Project")) = Some "Routine"
  /\ priority_name (row_to_json_body "SUP" (Sample.work_order 7 "High")) = Some "High".
Proof.
  split.
  - apply (priority_collapse "SUP" (Sample.work_order 7 "Project")).
    unfold collapsed_priorities. simpl. set_solver.
  - apply (priority_collapse "SUP" (Sample.work_order 7 "High")).
    unfold collapsed_priorities. simpl.
    rewrite !not_elem_of_cons. repeat split; try discriminate.
    apply not_elem_of_nil.
Defined.

(** C5: the issue type is "Project" for the priority "Project",
    "Service Management" for "Ongoing Support", "Change Request" for
    "Change Request" in the project "CRQ", and "Incident Management" in
    every other case. *)
Theorem issue_type_rules (jira_key : string) (r : row) :
  (priority r = Some "Project" ->
   issuetype_name (row_to_json_body jira_key r) = "Project") /\
  (priority r = Some "Ongoing Support" ->
   issuetype_name (row_to_json_body jira_key r) = "Service Management") /\
  (priority r = Some "Change Request" -> jira_key = "CRQ" ->
   issuetype_name (row_to_json_body jira_key r) = "Change Request") /\
  (priority r <> Some "Project" -> priority r <> Some "Ongoing Support" ->
   ~ (priority r = Some "Change Request" /\ jira_key = "CRQ") ->
   issuetype_name (row_to_json_body jira_key r) = "Incident Management").
Proof.
  simpl. unfold jira_issuetype_of. repeat split.
  - by intros ->.
  - by intros ->.
  - by intros -> ->.
  - intros H1 H2 H3.
    apply py_eq_false in H1, H2. rewrite H1, H2.
    destruct (py_eq (priority r) "Change Request") eqn:E; [|done].
    destruct (PyStr.eqb jira_key "CRQ") eqn:E'; [|done].
    exfalso. apply H3. split; [by apply py_eq_true|].
    by apply String.eqb_eq.
Qed.

Lemma issue_type_rules_witness :
  issuetype_name (row_to_json_body "SUP" (Sample.work_order 7 "Project")) = "Project"
  /\ issuetype_name (row_to_json_body "SUP" (Sample.work_order 7 "Ongoing Support"))
     = "Service Management"
  /\ issuetype_name (row_to_json_body "CRQ" (Sample.work_order 7 "Change Request"))
     = "Change Request"
  /\ issuetype_name (row_to_json_body "SUP" (Sample.work_order 7 "Change Request"))
     = "Incident Management".
Proof.
  split; [|split; [|split]].
  - by apply (issue_type_rules "SUP" (Sample.work_order 7 "Project")).
  - by apply (issue_type_rules "SUP" (Sample.work_order 7 "Ongoing Support")).
  - by apply (issue_type_rules "CRQ" (Sample.work_order 7 "Change Request")).
  - apply (issue_type_rules "SUP" (Sample.work_order 7 "Change Request"));
      [discriminate | discriminate | intros [_ H]; discriminate].
Defined.

Lemma replace_space_spec (s : string) :
  spaces_to_underscores s (PyStr.replace_space s).
Proof.
  unfold spaces_to_underscores, PyStr.replace_space. split.
  - induction s as [|c s IH]; simpl; [reflexivity | by rewrite IH].
  - induction s as [|c s IH]; intros i x; simpl; [discriminate|].
    destruct i as [|i]; simpl.
    + by intros [= ->].
    + apply IH.
Qed.

Lemma underscore_Some (s : string) :
  underscore (Some s) = Some (PyStr.replace_space s).
Proof.
  unfold underscore, PyStr.len. destruct s; reflexivity.
Qed.

(** C6, as the code has it: in subtype, category and company every
    space becomes an underscore and every other character is kept; an
    absent category, department or description becomes the empty
    string; an absent subtype or company stays absent; an empty string
    stays the empty string in all five.  The mapper is a total
    function: no value of a row makes it raise. *)
Theorem categorical_normalization (jira_key : string) (r : row) :
  let b := row_to_json_body jira_key r in
  (forall s, subtype r = Some s ->
     exists t, customfield_11900 b !! 0%nat = Some (Some t) /\
               spaces_to_underscores s t) /\
  (forall s, category r = Some s ->
     exists t, customfield_11900 b !! 1%nat = Some (Some t) /\
               spaces_to_underscores s t) /\
  (forall s, company r = Some s ->
     exists t, customfield_11800 b = [Some t] /\ spaces_to_underscores s t) /\
  (category r = None -> customfield_11900 b !! 1%nat = Some (Some "")) /\
  (dept r = None -> customfield_11701 b = [Some ""]) /\
  (description r = None -> f_description b = Some "") /\
  (subtype r = None -> customfield_11900 b !! 0%nat = Some None) /\
  (company r = None -> customfield_11800 b = [None]) /\
  (category r = Some "" -> customfield_11900 b !! 1%nat = Some (Some "")) /\
  (dept r = Some "" -> customfield_11701 b = [Some ""]) /\
  (description r = Some "" -> f_description b = Some "") /\
  (subtype r = Some "" -> customfield_11900 b !! 0%nat = Some (Some "")) /\
  (company r = Some "" -> customfield_11800 b = [Some ""]).
Proof.
  simpl. repeat apply conj; try (intros ->; reflexivity).
  - intros s ->. rewrite underscore_Some. eauto using replace_space_spec.
  - intros s ->. rewrite underscore_Some. eauto using replace_space_spec.
  - intros s ->. rewrite underscore_Some. eauto using replace_space_spec.
Qed.

Lemma categorical_normalization_witness :
  (exists t,
     customfield_11900 (row_to_json_body "SUP" (Sample.work_order 7 "High")) !! 1%nat
     = Some (Some t) /\ spaces_to_underscores "Laser Printer" t)
  /\ customfield_11800 (row_to_json_body "SUP" (Sample.work_order 7 "High")) = [None]
  /\ f_description (row_to_json_body "SUP" (Sample.work_order 7 "High")) = Some ""
  /\ customfield_11900 (row_to_json_body "SUP" (Sample.work_order 7 "High")) !! 0%nat
     = Some (Some "").
Proof.
  pose proof (categorical_normalization "SUP" (Sample.work_order 7 "High")) as H.
  cbv zeta in H.
  destruct H as (_ & Hcat & _ & _ & _ & Hdesc & _ & Hcomp & _ & _ & _ & Hsub & _).
  split; [|split; [|split]].
  - apply Hcat. reflexivity.
  - apply Hcomp. reflexivity.
  - apply Hdesc. reflexivity.
  - apply Hsub. reflexivity.
Defined.

(** C6 as worded fails: an empty subtype is sent as the empty string,
    not as an absent value. *)
Lemma empty_subtype_is_not_absent :
  subtype (Sample.work_order 7 "High") = Some "" /\
  customfield_11900 (row_to_json_body "SUP" (Sample.work_order 7 "High"))
  = [Some ""; Some "Laser_Printer"] /\
  ~ defaults_as_worded.
Proof.
  split; [reflexivity|]. split; [reflexivity|].
  intros H.
  destruct (H "SUP" (Sample.work_order 7 "High")) as (_ & _ & _ & Hsub & _).
  specialize (Hsub (or_intror eq_refl)). discriminate Hsub.
Qed.

(** ** The migration-state detector *)

Lemma elem_of_invalid_ids (C X : list Z) (x : Z) :
  x ∈ invalid_ids_of C X <-> x ∈ C /\ x ∈ X.
Proof. unfold invalid_ids_of. rewrite list_elem_of_filter. tauto. Qed.

Lemma elem_of_map (A B : Type) (f : A -> B) (l : list A) (y : B) :
  y ∈ map f l <-> exists x, y = f x /\ x ∈ l.
Proof.
  rewrite list_elem_of_In, in_map_iff. split.
  - intros (x & <- & Hx). exists x. by rewrite list_elem_of_In.
  - intros (x & -> & Hx). exists x. by rewrite <- list_elem_of_In.
Qed.

Lemma elem_of_valid_ids (out : list json_body) (X : list Z) (x : Z) :
  let C := map customfield_10411 out in
  x ∈ map customfield_10411 (valid_of out (invalid_ids_of C X))
  <-> x ∈ C /\ x ∉ X.
Proof.
  simpl. unfold valid_of. rewrite !elem_of_map. split.
  - intros (d & -> & Hd). apply list_elem_of_filter in Hd as [Hn Hd].
    split; [eauto|]. intros HX. apply Hn, elem_of_invalid_ids.
    split; [|done]. apply elem_of_map. eauto.
  - intros [(d & -> & Hd) HX]. exists d. split; [done|].
    apply list_elem_of_filter. split; [|done].
    rewrite elem_of_invalid_ids. tauto.
Qed.

(** C1: with C the ids of the candidate work orders and X the ids that
    JIRA already refers to, the work orders that [mainloop] migrates
    have the ids C \ X and the ids that it reconciles are C ∩ X; the two
    sets are disjoint and their union is C. *)
Theorem detector_partition (database_full_output : list json_body)
    (trackit_ids_jira : list Z) :
  let trackit_ids_trackit := map customfield_10411 database_full_output in
  let invalid_ids := invalid_ids_of trackit_ids_trackit trackit_ids_jira in
  let database_full_output_valid := valid_of database_full_output invalid_ids in
  let C : gset Z := list_to_set trackit_ids_trackit in
  let X : gset Z := list_to_set trackit_ids_jira in
  let pending : gset Z :=
    list_to_set (map customfield_10411 database_full_output_valid) in
  let stuck : gset Z := list_to_set invalid_ids in
  pending = C ∖ X /\ stuck = C ∩ X /\ pending ## stuck /\ pending ∪ stuck = C.
Proof.
  intros ids invalid valid C X pending stuck.
  assert (Hp : forall x, x ∈ pending <-> x ∈ C /\ x ∉ X).
  { intros x. unfold pending, C, X, valid, invalid, ids.
    rewrite !elem_of_list_to_set. apply elem_of_valid_ids. }
  assert (Hs : forall x, x ∈ stuck <-> x ∈ C /\ x ∈ X).
  { intros x. unfold stuck, C, X, invalid.
    rewrite !elem_of_list_to_set. apply elem_of_invalid_ids. }
  repeat apply conj.
  - apply set_eq. intros x. rewrite Hp, elem_of_difference. tauto.
  - apply set_eq. intros x. rewrite Hs, elem_of_intersection. tauto.
  - intros x. rewrite Hp, Hs. tauto.
  - apply set_eq. intros x. rewrite elem_of_union, Hp, Hs.
    destruct (decide (x ∈ X)); tauto.
Qed.

(** ** Business days *)

Ltac split_tests :=
  repeat (cbn [andb orb negb] in *;
          match goal with
          | |- context [?a <=? ?b] => destruct (Z.leb_spec a b)
          | |- context [?a <? ?b] => destruct (Z.ltb_spec a b)
          | |- context [?a =? ?b] => destruct (Z.eqb_spec a b)
          end);
  cbn [andb orb negb] in *.

Ltac euclid := Z.div_mod_to_equations; lia.

Module DateFacts.
Import Date.

Lemma weekday_range z : 0 <= weekday z < 7.
Proof. unfold weekday. apply Z.mod_pos_bound. lia. Qed.

Lemma weekday_add z k : weekday (z + k) = (weekday z + k) mod 7.
Proof. unfold weekday. euclid. Qed.

Lemma next_business_day_step z :
  next_business_day z = z + step_next (weekday z).
Proof.
  unfold next_business_day, is_business_day, step_next.
  rewrite !weekday_add. pose proof (weekday_range z) as Hw.
  generalize dependent (weekday z). intros wd Hw.
  split_tests; try lia; exfalso; euclid.
Qed.

Lemma prev_business_day_step z :
  prev_business_day z = z - step_prev (weekday z).
Proof.
  unfold prev_business_day, is_business_day, step_prev.
  replace (z - 1) with (z + -1) by lia.
  replace (z - 2) with (z + -2) by lia.
  rewrite !weekday_add. pose proof (weekday_range z) as Hw.
  generalize dependent (weekday z). intros wd Hw.
  split_tests; try lia; exfalso; euclid.
Qed.

Lemma bday_shift_delta z n : bday_shift z n = z + delta (weekday z) n.
Proof. reflexivity. Qed.

Lemma delta_zero wd :
  0 <= wd < 7 -> delta wd 0 = if wd <? 5 then 0 else step_next wd.
Proof.
  intros Hw. unfold delta, adjust_ndays, step_next.
  split_tests; euclid.
Qed.

Lemma delta_one wd : 0 <= wd < 7 -> delta wd 1 = step_next wd.
Proof.
  intros Hw. unfold delta, adjust_ndays, step_next.
  split_tests; euclid.
Qed.

Lemma delta_minus_one wd : 0 <= wd < 7 -> delta wd (-1) = - step_prev wd.
Proof.
  intros Hw. unfold delta, adjust_ndays, step_prev.
  split_tests; euclid.
Qed.

Lemma delta_succ wd n :
  0 <= wd < 7 -> 1 <= n ->
  delta wd (n + 1) = delta wd n + step_next ((wd + delta wd n) mod 7).
Proof.
  intros Hw Hn. unfold delta, adjust_ndays, step_next.
  split_tests; euclid.
Qed.

Lemma delta_pred wd n :
  0 <= wd < 7 -> n <= -1 ->
  delta wd (n - 1) = delta wd n - step_prev ((wd + delta wd n) mod 7).
Proof.
  intros Hw Hn. unfold delta, adjust_ndays, step_prev.
  split_tests; euclid.
Qed.

Lemma bday_shift_forward z (k : nat) :
  bday_shift z (Z.of_nat (S k)) = Nat.iter (S k) next_business_day z.
Proof.
  induction k as [|k IH].
  - simpl Nat.iter. rewrite next_business_day_step, bday_shift_delta.
    change (Z.of_nat 1) with 1. by rewrite delta_one by apply weekday_range.
  - replace (Z.of_nat (S (S k))) with (Z.of_nat (S k) + 1) by lia.
    change (Nat.iter (S (S k)) next_business_day z)
      with (next_business_day (Nat.iter (S k) next_business_day z)).
    rewrite <- IH, next_business_day_step, !bday_shift_delta, weekday_add.
    rewrite (delta_succ (weekday z)) by (apply weekday_range || lia). lia.
Qed.

Lemma bday_shift_backward z (k : nat) :
  bday_shift z (- Z.of_nat (S k)) = Nat.iter (S k) prev_business_day z.
Proof.
  induction k as [|k IH].
  - simpl Nat.iter. rewrite prev_business_day_step, bday_shift_delta.
    change (- Z.of_nat 1) with (-1).
    rewrite delta_minus_one by apply weekday_range. lia.
  - replace (- Z.of_nat (S (S k))) with (- Z.of_nat (S k) - 1) by lia.
    change (Nat.iter (S (S k)) prev_business_day z)
      with (prev_business_day (Nat.iter (S k) prev_business_day z)).
    rewrite <- IH, prev_business_day_step, !bday_shift_delta, weekday_add.
    rewrite (delta_pred (weekday z)) by (apply weekday_range || lia). lia.
Qed.

(** [BDay] of pandas counts business days. *)
Lemma bday_shift_advance z n : bday_shift z n = advance_business_days z n.
Proof.
  unfold advance_business_days.
  destruct (Z.ltb_spec 0 n) as [Hpos|Hle].
  - destruct (Z.to_nat n) as [|k] eqn:Hk; [lia|].
    rewrite <- bday_shift_forward. f_equal. lia.
  - destruct (Z.ltb_spec n 0) as [Hneg|Hge].
    + destruct (Z.to_nat (- n)) as [|k] eqn:Hk; [lia|].
      rewrite <- bday_shift_backward. f_equal. lia.
    + assert (n = 0) as -> by lia.
      rewrite bday_shift_delta, delta_zero by apply weekday_range.
      unfold is_business_day. rewrite next_business_day_step.
      destruct (weekday z <? 5); lia.
Qed.

End DateFacts.

(** ** The monad *)

Lemma bind_Returns {A B} (m : M A) (k : A -> M B) h d1 a d2 r :
  m h = (d1, Returns a) -> k a (h ++ d1) = (d2, r) ->
  bind m k h = (d1 ++ d2, r).
Proof. intros Hm Hk. unfold bind. by rewrite Hm, Hk. Qed.

Lemma bind_Raises {A B} (m : M A) (k : A -> M B) h d1 e :
  m h = (d1, Raises e) -> bind m k h = (d1, Raises e).
Proof. intros Hm. unfold bind. by rewrite Hm. Qed.

Lemma bind_lift_Returns {A B} (a : A) (k : A -> M B) h :
  bind (lift (Returns a)) k h = k a h.
Proof.
  unfold bind, lift. rewrite app_nil_r. by destruct (k a h).
Qed.

Lemma bind_lift_Raises {A B} (e : exn) (k : A -> M B) h :
  bind (lift (Raises e)) k h = ([], Raises e).
Proof. reflexivity. Qed.

Lemma bind_lift {A B} (o : outcome A) (k : A -> M B) h :
  bind (lift o) k h =
  match o with Returns a => k a h | Raises e => ([], Raises e) end.
Proof. destruct o; [apply bind_lift_Returns | reflexivity]. Qed.

Lemma for_each_app {A} (body : A -> M unit) (l1 l2 : list A) h :
  for_each body (l1 ++ l2) h =
  match for_each body l1 h with
  | (d1, Returns _) =>
      let '(d2, r) := for_each body l2 (h ++ d1) in (d1 ++ d2, r)
  | (d1, Raises e) => (d1, Raises e)
  end.
Proof.
  revert h. induction l1 as [|x l1 IH]; intros h; simpl.
  - unfold ret. rewrite app_nil_r. by destruct (for_each body l2 h).
  - unfold bind. destruct (body x h) as [d1 [[]|e]]; [|done].
    rewrite IH. destruct (for_each body l1 (h ++ d1)) as [d2 [[]|e]]; [|done].
    rewrite <- app_assoc.
    destruct (for_each body l2 (h ++ d1 ++ d2)) as [d3 r].
    by rewrite app_assoc.
Qed.

(** ** The due date sweep *)

Lemma update_duedate_mapped w dm cfg (key name : json) (created n : Z) server h :
  dm !! py_str w name = Some n ->
  Date.in_range (Date.advance_business_days created n) = true ->
  cfg !! "jira_server_address" = Some (JStr server) ->
  let duedate := Date.to_str10 (Date.advance_business_days created n) in
  let url := issue_url server (py_str w key) in
  update_duedate w dm cfg (key, name, created) h =
  ([EPut url "Basic YXBpOlBhc3N3b3Jk" duedate
         (w_put w h url "Basic YXBpOlBhc3N3b3Jk" duedate)],
   w_put w h url "Basic YXBpOlBhc3N3b3Jk" duedate).
Proof.
  intros Hn Hr Hc. simpl. unfold update_duedate, duedate_of, dict_get.
  rewrite Hn, Hc. simpl. unfold Date.add_bday.
  rewrite DateFacts.bday_shift_advance, Hr.
  cbn [Outcome.bind].
  repeat (rewrite bind_lift_Returns; cbn [Json.as_str fst]).
  reflexivity.
Qed.

(** C7: the due date of an issue of the sweep is its creation day
    advanced by the offset of its priority, counted in business days;
    this is the date that the update carries.  An issue created on
    Friday 2024-01-05 with the offset 1 is due on Monday 2024-01-08. *)
Theorem duedate_is_business_day_offset (w : World) :
  (forall (duedate_map : gmap string Z) (config : gmap string json)
          (key name : json) (created n : Z) (server : string) (h : history),
     duedate_map !! py_str w name = Some n ->
     Date.in_range (Date.advance_business_days created n) = true ->
     config !! "jira_server_address" = Some (JStr server) ->
     let duedate := Date.to_str10 (Date.advance_business_days created n) in
     duedate_of w duedate_map (key, name, created) = Returns duedate /\
     exists r,
       update_duedate w duedate_map config (key, name, created) h =
       ([EPut (issue_url server (py_str w key)) "Basic YXBpOlBhc3N3b3Jk"
              duedate r], r)) /\
  (let friday := Date.days_from_civil 2024 1 5 in
   let monday := Date.days_from_civil 2024 1 8 in
   srq_of_ticket w (Sample.ticket "SUP-101" "High" "2024-01-05T09:30:00.000+0000")
   = Returns (JStr "SUP-101", JStr "High", friday) /\
   Date.weekday friday = 4 /\
   Date.advance_business_days friday 1 = monday /\
   Date.weekday monday = 0 /\
   duedate_of w Sample.duedate_map (JStr "SUP-101", JStr "High", friday)
   = Returns "2024-01-08").
Proof.
  split.
  - intros dm cfg key name created n server h Hn Hr Hc. simpl. split.
    + unfold duedate_of, dict_get. rewrite Hn. simpl. unfold Date.add_bday.
      by rewrite DateFacts.bday_shift_advance, Hr.
    + eexists. by apply update_duedate_mapped.
  - repeat apply conj; vm_compute; reflexivity.
Qed.

Lemma duedate_is_business_day_offset_witness :
  duedate_of Sample.quiet Sample.duedate_map
    (JStr "SUP-2", JStr "High", Date.days_from_civil 2024 1 5)
  = Returns (Date.to_str10
               (Date.advance_business_days (Date.days_from_civil 2024 1 5) 1)).
Proof.
  apply (proj1 (duedate_is_business_day_offset Sample.quiet)
           Sample.duedate_map Sample.config (JStr "SUP-2") (JStr "High")
           (Date.days_from_civil 2024 1 5) 1 "jira.example.org" []);
    vm_compute; reflexivity.
Defined.

Lemma update_duedate_unmapped w dm cfg (value : json * json * Z) h :
  dm !! py_str w (snd (fst value)) = None ->
  update_duedate w dm cfg value h
  = ([], Raises (KeyError (py_str w (snd (fst value))))).
Proof.
  intros Hn. destruct value as [[key name] created]. simpl in *.
  unfold update_duedate, duedate_of, dict_get. by rewrite Hn.
Qed.

(** C8, as the code has it: an issue whose priority has no entry in
    the mapping ends the loop of the sweep with a [KeyError].  The
    issues before it have been handled; for that issue and for every
    issue after it no update is sent, and the loop logs nothing. *)
Theorem unmapped_priority_ends_sweep (w : World) (duedate_map : gmap string Z)
    (config : gmap string json) (before after : list (json * json * Z))
    (value : json * json * Z) (h : history) :
  duedate_map !! py_str w (snd (fst value)) = None ->
  for_each (update_duedate w duedate_map config) (before ++ value :: after) h =
  (let '(d, r) := for_each (update_duedate w duedate_map config) before h in
   (d, match r with
       | Returns _ => Raises (KeyError (py_str w (snd (fst value))))
       | Raises e => Raises e
       end)).
Proof.
  intros Hn. rewrite for_each_app.
  destruct (for_each _ before h) as [d [[]|e]]; [|done].
  simpl. unfold bind at 1.
  rewrite update_duedate_unmapped by done. by rewrite app_nil_r.
Qed.

Lemma unmapped_priority_ends_sweep_witness :
  for_each (update_duedate Sample.quiet Sample.duedate_map Sample.config)
    ([(JStr "SUP-2", JStr "High", Date.days_from_civil 2024 1 5)] ++
     (JStr "SUP-1", JStr "Unknown", Date.days_from_civil 2024 1 5) ::
     [(JStr "SUP-3", JStr "High", Date.days_from_civil 2024 1 5)]) [] =
  (let '(d, r) :=
     for_each (update_duedate Sample.quiet Sample.duedate_map Sample.config)
       [(JStr "SUP-2", JStr "High", Date.days_from_civil 2024 1 5)] [] in
   (d, match r with
       | Returns _ => Raises (KeyError "Unknown")
       | Raises e => Raises e
       end)).
Proof.
  apply (unmapped_priority_ends_sweep Sample.quiet Sample.duedate_map Sample.config
           [(JStr "SUP-2", JStr "High", Date.days_from_civil 2024 1 5)]
           [(JStr "SUP-3", JStr "High", Date.days_from_civil 2024 1 5)]
           (JStr "SUP-1", JStr "Unknown", Date.days_from_civil 2024 1 5) []).
  vm_compute. reflexivity.
Defined.

(** C8 as worded fails: in a sweep over two issues, the first with a
    priority that the mapping does not know, the sweep stops at the
    search; it sends no update for the second issue and logs nothing. *)
Lemma sweep_stops_at_unmapped_priority :
  duedate_sweep Sample.quiet "Basic abc" "SUP" "jira.example.org"
    Sample.duedate_map Sample.config [] =
  ([EGet (get_empty_duedates_url "SUP" "jira.example.org") "Basic abc"
         (Returns Sample.two_tickets)],
   Raises (KeyError "Unknown")) /\
  ~ sweep_skips_unmapped.
Proof.
  split; [vm_compute; reflexivity|].
  intros H.
  destruct (H Sample.quiet Sample.duedate_map Sample.config
              (JStr "SUP-1", JStr "Unknown", Date.days_from_civil 2024 1 5)
              [] [] eq_refl) as (level & msg & Heq).
  vm_compute in Heq. discriminate Heq.
Qed.

Lemma update_duedate_request w dm cfg (value : json * json * Z) h :
  update_duedate w dm cfg value h =
  match duedate_request w dm cfg value with
  | Returns (url, duedate) =>
      let r := w_put w h url "Basic YXBpOlBhc3N3b3Jk" duedate in
      ([EPut url "Basic YXBpOlBhc3N3b3Jk" duedate r], r)
  | Raises e => ([], Raises e)
  end.
Proof.
  unfold update_duedate, duedate_request.
  rewrite bind_lift. destruct (duedate_of w dm value) as [duedate|e]; [|done].
  cbn [Outcome.bind]. rewrite bind_lift.
  destruct (dict_get cfg "jira_server_address") as [server|e]; [|done].
  cbn [Outcome.bind]. rewrite bind_lift.
  destruct (Json.as_str server) as [server'|e]; [|done].
  reflexivity.
Qed.

Lemma duedate_sweep_run w auth key addr dm cfg h :
  let url := get_empty_duedates_url key addr in
  let r := w_get w h url auth in
  duedate_sweep w auth key addr dm cfg h =
  match srq_ids_empty_of w r with
  | Returns srq_ids_empty =>
      let '(d, res) := for_each (update_duedate w dm cfg) srq_ids_empty
                                (h ++ [EGet url auth r]) in
      (EGet url auth r :: d, res)
  | Raises e => ([EGet url auth r], Raises e)
  end.
Proof.
  simpl. unfold duedate_sweep, srq_ids_empty_of, get_request.
  unfold bind at 1. unfold call at 1.
  destruct (w_get w h _ auth) as [j|e]; [|done].
  cbn [Outcome.bind]. rewrite bind_lift.
  destruct (Json.get "issues" j) as [issues|e]; [|done].
  cbn [Outcome.bind]. rewrite bind_lift.
  destruct (Json.iter issues) as [tickets|e]; [|done].
  cbn [Outcome.bind]. rewrite bind_lift.
  destruct (Outcome.traverse (srq_of_ticket w) tickets) as [srq|e]; [|done].
  by destruct (for_each _ srq _).
Qed.






(** ** Submissions that fail *)

(** C3 at a failing input: JIRA answers the submission of work order
    52204 with an error body, which has no ["key"].  [mainloop] ends
    with [KeyError] at [response["key"]]: the failure is not logged with
    the id, and work order 52205 is not submitted in this run.  (No note,
    close or upload happens for 52204.) *)
Theorem refused_submission_ends_run :
  let run := Sample.run Sample.refusing in
  snd run = Raises (KeyError "key") /\
  Trace.posted_ids (fst run) = [52204] /\
  Trace.logs (fst run) = [(INFO, "Moving workorders to Jira:52204")] /\
  filter (fun ev => Trace.is_record_effect ev = true) (fst run) = [].
Proof. vm_compute. repeat split. Qed.

(** The path that [mainloop] does handle: a submission that raises
    [HTTPError] is logged with the id of the work order, and the loop
    goes on with the next work order. *)
Lemma http_error_is_logged_and_skipped :
  let run := Sample.run Sample.http_failing in
  snd run = Returns tt /\
  Trace.posted_ids (fst run) = [52204; 52205] /\
  Trace.logs (fst run) =
    [(INFO, "Moving workorders to Jira:52204");
     (ERROR, "HTTP Error 400: Bad Request: 52204");
     (INFO, "Moving workorders to Jira:52205");
     (ERROR, "HTTP Error 400: Bad Request: 52205")] /\
  filter (fun ev => Trace.is_record_effect ev = true) (fst run) = [].
Proof. vm_compute. repeat split. Qed.

(** ** Events of composed computations *)

Lemma fst_bind {A B} (m : M A) (k : A -> M B) h :
  fst (bind m k h) =
  match m h with
  | (d1, Returns a) => d1 ++ fst (k a (h ++ d1))
  | (d1, Raises _) => d1
  end.
Proof.
  unfold bind. destruct (m h) as [d1 [a|e]]; [|done].
  by destruct (k a (h ++ d1)).
Qed.

Lemma snd_bind {A B} (m : M A) (k : A -> M B) h :
  snd (bind m k h) =
  match m h with
  | (d1, Returns a) => snd (k a (h ++ d1))
  | (_, Raises e) => Raises e
  end.
Proof.
  unfold bind. destruct (m h) as [d1 [a|e]]; [|done].
  by destruct (k a (h ++ d1)).
Qed.

Lemma fst_bind_cases {A B} (m : M A) (k : A -> M B) h (P : list event -> Prop) :
  (forall d1 e, m h = (d1, Raises e) -> P d1) ->
  (forall d1 a, m h = (d1, Returns a) -> P (d1 ++ fst (k a (h ++ d1)))) ->
  P (fst (bind m k h)).
Proof.
  intros Hr Ha. rewrite fst_bind.
  destruct (m h) as [d1 [a|e]] eqn:E; eauto.
Qed.

(** One step through the first [bind] of the computation in the goal. *)
Ltac walk d a H :=
  match goal with
  | |- context [fst (bind ?m ?k ?h)] =>
      pattern (fst (bind m k h)); apply fst_bind_cases;
      [intros d a H | intros d a H]; cbv beta
  end.

(** What a primitive computation appended and returned. *)
Ltac run_inv H :=
  unfold print, logging, emit, call, lift, ret, now, isdir, listdir,
    post_request, get_request, post_file_request,
    post_addnote_request_trackit in H;
  inversion H; subst; clear H.

Section EmitsOnly.

Context (p : event -> bool).

Lemma eo_ret {A} (a : A) : Trace.emits_only p (ret a).
Proof. intros h. constructor. Qed.

Lemma eo_lift {A} (o : outcome A) : Trace.emits_only p (lift o).
Proof. intros h. constructor. Qed.

Lemma eo_now w : Trace.emits_only p (now w).
Proof. intros h. constructor. Qed.

Lemma eo_emit (e : event) : p e = true -> Trace.emits_only p (emit e).
Proof. intros He h. simpl. by repeat constructor. Qed.

Lemma eo_call {A} (ev : outcome A -> event) answer :
  (forall r, p (ev r) = true) -> Trace.emits_only p (call ev answer).
Proof. intros He h. simpl. by repeat constructor. Qed.

Lemma eo_isdir w path :
  (forall b, p (EIsDir path b) = true) -> Trace.emits_only p (isdir w path).
Proof. intros He h. simpl. by repeat constructor. Qed.

Lemma eo_bind {A B} (m : M A) (k : A -> M B) :
  Trace.emits_only p m -> (forall a, Trace.emits_only p (k a)) ->
  Trace.emits_only p (bind m k).
Proof.
  intros Hm Hk h. rewrite fst_bind. specialize (Hm h).
  destruct (m h) as [d1 [a|e]]; simpl in *; [|done].
  apply Forall_app. split; [done|]. apply Hk.
Qed.

Lemma eo_for_each {A} (body : A -> M unit) (l : list A) :
  (forall x, Trace.emits_only p (body x)) ->
  Trace.emits_only p (for_each body l).
Proof.
  intros Hb. induction l as [|x l IH]; simpl.
  - apply eo_ret.
  - apply eo_bind; [apply Hb | intros _; apply IH].
Qed.

Lemma eo_try {A} (m : M A) (handler : string -> M A) :
  Trace.emits_only p m -> (forall msg, Trace.emits_only p (handler msg)) ->
  Trace.emits_only p (try_except_HTTPError m handler).
Proof.
  intros Hm Hh h. unfold try_except_HTTPError. specialize (Hm h).
  destruct (m h) as [d1 [a|[msg| | | | | |]]]; simpl in *; try done.
  specialize (Hh msg (h ++ d1)).
  destruct (handler msg (h ++ d1)) as [d2 r]. simpl in *.
  apply Forall_app. by split.
Qed.

End EmitsOnly.

(** Decomposes a goal [emits_only p m] along the structure of [m]. *)
Ltac emits :=
  repeat first
    [ apply eo_ret | apply eo_lift | apply eo_now
    | apply eo_emit; reflexivity
    | apply eo_call; intros; reflexivity
    | apply eo_isdir; intros; reflexivity
    | apply eo_bind; [|intros ?]
    | apply eo_for_each; intros ?
    | apply eo_try; [|intros ?]
    | match goal with
      | |- Trace.emits_only _ (if ?b then _ else _) => destruct b
      | |- Trace.emits_only _ (match ?x with _ => _ end) => destruct x
      end ].

Lemma eo_create_trackit_key p w user host :
  (forall url r, p (ELogin url r) = true) ->
  Trace.emits_only p (create_trackit_key w user host).
Proof.
  intros Hp. unfold create_trackit_key.
  apply eo_bind; [by apply eo_call|]. intros j. emits.
Qed.

Lemma eo_import_attachments p w id url auth folder :
  (forall path b, p (EIsDir path b) = true) ->
  (forall path r, p (EListDir path r) = true) ->
  (forall u f a r, p (EPostFile u f a r) = true) ->
  Trace.emits_only p (import_attachments w id url auth folder).
Proof.
  intros H1 H2 H3. unfold import_attachments, listdir, post_file_request.
  apply eo_bind; [by apply eo_isdir|]. intros [|]; [|apply eo_ret].
  apply eo_bind; [by apply eo_call|]. intros files.
  apply eo_bind.
  - apply eo_for_each. intros file.
    apply eo_bind; [by apply eo_call|]. intros. apply eo_ret.
  - intros _. apply eo_bind; [by apply eo_call|]. intros. apply eo_ret.
Qed.

Lemma eo_post_close p w tk id link host :
  (forall key text r, p (EClose (close_url host id) key text r) = true) ->
  (forall level msg, p (ELog level msg) = true) ->
  Trace.emits_only p (post_close_request_trackit w tk id link host).
Proof.
  intros H1 H2. unfold post_close_request_trackit, logging.
  apply eo_bind; [by apply eo_call|]. intros response.
  apply eo_bind; [apply eo_lift|]. intros success.
  destruct (Json.eq_str success "false").
  - repeat (apply eo_bind; [apply eo_lift|]; intros ?). by apply eo_emit.
  - repeat (apply eo_bind; [apply eo_lift|]; intros ?). by apply eo_emit.
Qed.

(** ** Close requests and what justifies them *)

Lemma string_app_inv_head (p a b : string) : p +:+ a = p +:+ b -> a = b.
Proof.
  induction p as [|c p IH]; simpl; [done|]. intros [= H]. by apply IH.
Qed.

Lemma close_url_inj host id id' :
  close_url host id = close_url host id' -> id = id'.
Proof.
  unfold close_url, PyStr.of_int. intros H.
  do 3 apply string_app_inv_head in H. by apply (inj pretty) in H.
Qed.

Section Justified.

Context (host server : string).

Local Abbreviation cj := (Trace.closes_justified host server).

Lemma cj_app ctx d1 d2 :
  cj ctx (d1 ++ d2) <-> cj ctx d1 /\ cj (ctx ++ d1) d2.
Proof.
  revert ctx. induction d1 as [|ev d1 IH]; intros ctx; simpl.
  - rewrite app_nil_r. tauto.
  - rewrite IH, <- app_assoc. simpl. tauto.
Qed.

Lemma cj_mono ctx ctx' d :
  (forall ev, ev ∈ ctx -> ev ∈ ctx') -> cj ctx d -> cj ctx' d.
Proof.
  revert ctx ctx'. induction d as [|ev d IH]; intros ctx ctx' Hsub; simpl; [done|].
  intros [Hev Hd]. split.
  - intros id Hid. destruct (Hev id Hid) as (ev' & Hin & Hj). eauto.
  - apply (IH (ctx ++ [ev])); [|done].
    intros x. rewrite !elem_of_app. intros [?|?]; auto.
Qed.

Lemma cj_quiet ctx d : Forall (fun ev => Trace.not_close ev = true) d -> cj ctx d.
Proof.
  revert ctx. induction d as [|ev d IH]; intros ctx Hd; simpl; [done|].
  apply Forall_cons in Hd as [Hev Hd]. split; [|by apply IH].
  intros id (key & text & r & ->). discriminate Hev.
Qed.

Lemma cj_emits {A} (m : M A) ctx h :
  Trace.emits_only Trace.not_close m -> cj ctx (fst (m h)).
Proof. intros Hm. apply cj_quiet, Hm. Qed.

Lemma cj_bind {A B} (m : M A) (k : A -> M B) ctx h :
  cj ctx (fst (m h)) ->
  (forall d1 a, m h = (d1, Returns a) -> cj (ctx ++ d1) (fst (k a (h ++ d1)))) ->
  cj ctx (fst (bind m k h)).
Proof.
  intros Hm Hk. rewrite fst_bind.
  destruct (m h) as [d1 [a|e]] eqn:E; simpl in *; [|done].
  apply cj_app. split; [done|]. by apply Hk.
Qed.

Lemma cj_for_each {A} (body : A -> M unit) (l : list A) :
  (forall x ctx h, cj ctx (fst (body x h))) ->
  forall ctx h, cj ctx (fst (for_each body l h)).
Proof.
  intros Hb. induction l as [|x l IH]; intros ctx h; simpl; [done|].
  apply cj_bind; [apply Hb|]. intros d1 [] _. apply IH.
Qed.

Lemma cj_split d pre ev post id :
  cj [] d -> d = pre ++ ev :: post -> Trace.closes host id ev ->
  exists ev' : event,
    ev' ∈ pre /\ (Trace.created id ev' \/ Trace.found server id ev').
Proof.
  intros Hd -> Hid. apply cj_app in Hd as [_ [Hev _]]. by apply Hev.
Qed.

(** The close request of [post_close_request_trackit] is justified
    when the context holds a justification for its work order. *)
Lemma cj_post_close w tk id link ctx h :
  (exists ev' : event,
     ev' ∈ ctx /\ (Trace.created id ev' \/ Trace.found server id ev')) ->
  cj ctx (fst (post_close_request_trackit w tk id link host h)).
Proof.
  intros Hj. unfold post_close_request_trackit.
  apply cj_bind.
  - simpl. split; [|done].
    intros id' (key & text & r & Heq).
    assert (close_url host id = close_url host id') as Hurl by congruence.
    apply close_url_inj in Hurl as <-. done.
  - intros d1 response _. apply cj_emits.
    apply eo_bind; [apply eo_lift|]. intros success.
    unfold logging.
    destruct (Json.eq_str success "false");
      repeat (apply eo_bind; [apply eo_lift|]; intros ?); by apply eo_emit.
Qed.

End Justified.

(** ** The migration of one work order *)

Ltac emits_all :=
  unfold print, logging, post_request, get_request, listdir,
    post_file_request, post_addnote_request_trackit, get_database_cursor,
    fetch_trackit_ids_jira, duedate_sweep, update_duedate;
  emits.

(** The [try] block around [post_request] (lines 371-378). *)
Lemma try_post_run w url data auth (id : Z) h :
  try_except_HTTPError
    (bind (post_request w url data auth) (fun response => ret (Some response)))
    (fun msg => bind (logging ERROR (msg +:+ ": " +:+ PyStr.of_int id))
                     (fun _ => ret None)) h =
  match w_post w h url data auth with
  | Returns response =>
      ([EPost url data auth (Returns response)], Returns (Some response))
  | Raises (HTTPError msg) =>
      ([EPost url data auth (Raises (HTTPError msg));
        ELog ERROR (msg +:+ ": " +:+ PyStr.of_int id)], Returns None)
  | Raises e => ([EPost url data auth (Raises e)], Raises e)
  end.
Proof.
  unfold try_except_HTTPError, bind, post_request, call, logging, emit, ret.
  destruct (w_post w h url data auth) as [response|[]]; reflexivity.
Qed.

Lemma try_post_Some w url data auth (id : Z) h d response :
  try_except_HTTPError
    (bind (post_request w url data auth) (fun response => ret (Some response)))
    (fun msg => bind (logging ERROR (msg +:+ ": " +:+ PyStr.of_int id))
                     (fun _ => ret None)) h = (d, Returns (Some response)) ->
  d = [EPost url data auth (Returns response)].
Proof.
  rewrite try_post_run.
  destruct (w_post w h url data auth) as [resp|[]]; intros H; by inversion H.
Qed.

Lemma created_by_post url data auth response key :
  Json.get "key" response = Returns key ->
  Trace.created (customfield_10411 data) (EPost url data auth (Returns response)).
Proof.
  intros Hk. exists url, data, auth, (Returns response).
  repeat split. simpl. by rewrite Hk.
Qed.

Lemma cj_migrate_one w user url auth host server folder data ctx h :
  Trace.closes_justified host server ctx
    (fst (migrate_one w user url auth host server folder data h)).
Proof.
  unfold migrate_one.
  apply cj_bind; [apply cj_emits; emits_all|]. intros d1 [] _.
  apply cj_bind; [apply cj_emits; emits_all|]. intros d2 [] _.
  apply cj_bind; [by apply cj_emits, eo_create_trackit_key|]. intros d3 tk _.
  apply cj_bind; [apply cj_emits; emits_all|]. intros d4 posted H4.
  destruct posted as [response|]; [|done].
  apply try_post_Some in H4 as ->.
  apply cj_bind; [apply cj_emits; emits_all|]. intros d5 key H5. run_inv H5.
  apply cj_bind; [apply cj_emits; emits_all|]. intros d6 [] _.
  apply cj_bind; [apply cj_emits; emits_all|]. intros d7 [] _.
  apply cj_bind; [by apply cj_emits, eo_import_attachments|]. intros d8 att _.
  apply cj_bind; [apply cj_emits; emits_all|]. intros d9 [] _.
  apply cj_post_close.
  exists (EPost url data auth (Returns response)). split.
  - rewrite !elem_of_app, !elem_of_cons. intuition auto.
  - left. by eapply created_by_post.
Qed.

Lemma cj_reconcile_one w user auth host server keys ctx h :
  Trace.closes_justified host server ctx
    (fst (reconcile_one w user auth host server keys h)).
Proof.
  unfold reconcile_one.
  apply cj_bind; [by apply cj_emits, eo_create_trackit_key|]. intros d1 tk _.
  apply cj_bind; [apply cj_emits; emits_all|]. intros d2 found H2. run_inv H2.
  apply cj_bind; [apply cj_emits; emits_all|]. intros d3 issues H3. run_inv H3.
  apply cj_bind; [apply cj_emits; emits_all|]. intros d4 issue H4. run_inv H4.
  apply cj_bind; [apply cj_emits; emits_all|]. intros d5 key H5. run_inv H5.
  apply cj_bind; [apply cj_emits; emits_all|]. intros d6 key' H6. run_inv H6.
  apply cj_bind; [apply cj_emits; emits_all|]. intros d7 [] _.
  apply cj_post_close.
  exists (EGet (jira_trackit_id_url server keys) auth (Returns found)). split.
  - rewrite !elem_of_app, !elem_of_cons.
    match goal with H : _ = Returns found |- _ => rewrite H end. intuition auto.
  - right. exists auth, found, issues, issue, key'. repeat split; try done.
    destruct key; try discriminate. simpl in *. congruence.
Qed.

Lemma cj_mainloop w user post_url ids_url auth key host server sql folder dm cfg h :
  Trace.closes_justified host server []
    (fst (mainloop w user post_url ids_url auth key host server sql folder dm cfg h)).
Proof.
  unfold mainloop.
  apply cj_bind; [apply cj_emits; emits_all|]. intros d1 out _.
  apply cj_bind; [apply cj_emits; emits_all|]. intros d2 stamp _.
  apply cj_bind; [apply cj_emits; emits_all|]. intros d3 [] _.
  apply cj_bind; [apply cj_emits; emits_all|]. intros d4 ids _.
  cbv zeta.
  apply cj_bind.
  { destruct (0 <? _); [|done].
    apply cj_for_each. intros. apply cj_migrate_one. }
  intros d5 [] _.
  apply cj_bind.
  { destruct (0 <? _); [|done].
    apply cj_bind; [apply cj_emits; emits_all|]. intros.
    apply cj_for_each. intros. apply cj_reconcile_one. }
  intros d6 [] _.
  apply cj_emits. emits_all.
Qed.

Lemma Forall_plain_no_effect d :
  Forall (fun ev => Trace.plain ev = true) d ->
  Forall (fun ev => Trace.is_record_effect ev = false) d.
Proof.
  intros H. eapply Forall_impl; [exact H|]. clear H. intros ev. unfold Trace.plain.
  destruct (Trace.is_record_effect ev); [|done].
  by rewrite andb_false_r.
Qed.

Lemma Forall_plain_not_post d :
  Forall (fun ev => Trace.plain ev = true) d ->
  Forall (fun ev => Trace.not_post ev = true) d.
Proof.
  intros H. eapply Forall_impl; [exact H|]. clear H. intros ev. unfold Trace.plain, Trace.not_post.
  by destruct (Trace.is_post ev).
Qed.

Lemma Forall_plain_not_isdir d :
  Forall (fun ev => Trace.plain ev = true) d ->
  Forall (fun ev => Trace.not_isdir ev = true) d.
Proof.
  intros H. eapply Forall_impl; [exact H|]. clear H. intros ev. unfold Trace.plain, Trace.not_isdir.
  destruct (Trace.is_isdir ev); [|done]. by rewrite andb_false_r.
Qed.

Lemma not_post_elem d url data auth r :
  Forall (fun ev => Trace.not_post ev = true) d -> EPost url data auth r ∉ d.
Proof.
  intros Hd Hin. rewrite Forall_forall in Hd. by specialize (Hd _ Hin).
Qed.

Lemma not_isdir_elem d :
  Forall (fun ev => Trace.not_isdir ev = true) d ->
  ~ exists ev : event, ev ∈ d /\ Trace.is_isdir ev = true.
Proof.
  intros Hd (ev & Hin & Hev). rewrite Forall_forall in Hd.
  specialize (Hd _ Hin). unfold Trace.not_isdir in Hd. by rewrite Hev in Hd.
Qed.

(** The steps of [migrate_one] up to the submission. *)
Lemma plain_login w user host h d r :
  create_trackit_key w user host h = (d, r) ->
  Forall (fun ev => Trace.plain ev = true) d.
Proof.
  intros H.
  pose proof (eo_create_trackit_key Trace.plain w user host
                (fun _ _ => eq_refl) h) as Hp.
  by rewrite H in Hp.
Qed.

(** The steps of [migrate_one] after the key of the issue is known. *)
Lemma not_post_after_creation w auth host folder id tk link alink :
  Trace.emits_only Trace.not_post
    (bind (print alink) (fun _ =>
     bind (logging INFO ("Successfully migrated to Jira at: " +:+ alink)) (fun _ =>
     bind (import_attachments w id alink auth folder) (fun _ =>
     bind (post_addnote_request_trackit w tk id link host) (fun _ =>
     post_close_request_trackit w tk id link host))))).
Proof.
  apply eo_bind; [emits_all|]. intros _.
  apply eo_bind; [emits_all|]. intros _.
  apply eo_bind; [by apply eo_import_attachments|]. intros _.
  apply eo_bind; [emits_all|]. intros _.
  by apply eo_post_close.
Qed.

(** When the answer to the submission of a work order does not name a
    created issue, nothing is done to the legacy record or to its
    attachments: no note, no close, no upload. *)
Lemma failed_submission_no_effects w user url auth host server folder data h :
  let d := fst (migrate_one w user url auth host server folder data h) in
  forall u data' a res,
    EPost u data' a res ∈ d -> Trace.submission_failed res = true ->
    Forall (fun ev => Trace.is_record_effect ev = false) d.
Proof.
  unfold migrate_one.
  walk d1 a1 H1; [run_inv H1|]. run_inv H1.
  walk d2 a2 H2; [run_inv H2|]. run_inv H2.
  walk d3 tk H3.
  { intros. repeat (apply Forall_app; split); try by repeat constructor.
    eapply Forall_plain_no_effect, plain_login; eauto. }
  pose proof (plain_login _ _ _ _ _ _ H3) as Hd3.
  walk d4 posted H4; rewrite try_post_run in H4;
    destruct (w_post w _ url data auth) as [response|err] eqn:Hpost.
  - inversion H4.
  - intros. destruct err; inversion H4; subst;
      repeat (apply Forall_app; split); try (by repeat constructor);
      by apply Forall_plain_no_effect.
  - inversion H4; subst. clear H4.
    walk d5 key H5.
    + run_inv H5. intros. rewrite app_nil_r.
      repeat (apply Forall_app; split); try (by repeat constructor).
      by apply Forall_plain_no_effect.
    + run_inv H5. cbv zeta. intros u data' a res Hin Hfail. exfalso.
      match goal with
      | H : Json.get "key" response = Returns key |- _ => rename H into Hkey
      end.
      rewrite !elem_of_app, !elem_of_cons in Hin.
      destruct Hin as [Hin|[Hin|[Hin|[Hin|[Hin|Hin]]]]].
      * destruct Hin as [Hin|Hin]; [done|by apply elem_of_nil in Hin].
      * destruct Hin as [Hin|Hin]; [done|by apply elem_of_nil in Hin].
      * by apply (not_post_elem d3 u data' a res (Forall_plain_not_post _ Hd3)).
      * destruct Hin as [Hin|Hin]; [|by apply elem_of_nil in Hin].
        inversion Hin; subst. simpl in Hfail. by rewrite Hkey in Hfail.
      * by apply elem_of_nil in Hin.
      * revert Hin. apply not_post_elem, not_post_after_creation.
  - intros. destruct err; inversion H4; subst;
      repeat (apply Forall_app; split); try (by repeat constructor).
    by apply Forall_plain_no_effect.
Qed.

(** ** Attachments *)

Section Attachments.

Context (w : World).
Hypothesis uploads_answered :
  forall h u f a, exists t, w_post_file w h u f a = Returns t.
Hypothesis directories_listed :
  forall h p, exists l, w_listdir w h p = Returns l.

Lemma uploads_return url auth dir (files : list string) h :
  exists d,
    for_each (fun file =>
                bind (post_file_request w url (dir +:+ "\" +:+ file) auth)
                     (fun _ => ret tt)) files h = (d, Returns tt).
Proof.
  revert h. induction files as [|file files IH]; intros h; simpl.
  - by eexists.
  - destruct (uploads_answered h url (dir +:+ "\" +:+ file) auth) as [t Ht].
    destruct (IH (h ++ [EPostFile url (dir +:+ "\" +:+ file) auth (Returns t)]))
      as [d2 Hd2].
    eexists. eapply bind_Returns; [|exact Hd2].
    unfold bind, post_file_request, call, ret. by rewrite Ht.
Qed.

Lemma import_attachments_returns id url auth folder h :
  exists d v, import_attachments w id url auth folder h = (d, Returns v).
Proof.
  unfold import_attachments.
  set (dir := trackit_dir_of folder id).
  destruct (w_isdir w h dir) eqn:Hdir.
  - destruct (directories_listed (h ++ [EIsDir dir true]) dir) as [l Hl].
    destruct (uploads_return url auth dir l
                ((h ++ [EIsDir dir true]) ++ [EListDir dir (Returns l)]))
      as [d3 Hd3].
    destruct (directories_listed
                (((h ++ [EIsDir dir true]) ++ [EListDir dir (Returns l)]) ++ d3) dir)
      as [l' Hl'].
    eexists _, _.
    eapply bind_Returns; [unfold isdir; by rewrite Hdir|]. cbv beta iota.
    eapply bind_Returns; [unfold listdir, call; by rewrite Hl|].
    eapply bind_Returns; [exact Hd3|].
    eapply bind_Returns; [unfold listdir, call; by rewrite Hl'|].
    reflexivity.
  - eexists _, _.
    eapply bind_Returns; [unfold isdir; by rewrite Hdir|]. reflexivity.
Qed.

Lemma note_follows_attachments user url auth host server folder data h :
  let id := customfield_10411 data in
  let d := fst (migrate_one w user url auth host server folder data h) in
  (exists ev : event, ev ∈ d /\ Trace.is_isdir ev = true) ->
  exists key text r,
    EAddNote (addnote_url host id) key text r ∈ d /\
    (r = Returns tt -> exists r', EClose (close_url host id) key text r' ∈ d).
Proof.
  unfold migrate_one.
  walk d1 a1 H1; [run_inv H1|]. run_inv H1.
  walk d2 a2 H2; [run_inv H2|]. run_inv H2.
  walk d3 tk H3; pose proof (plain_login _ _ _ _ _ _ H3) as Hd3;
    apply Forall_plain_not_isdir in Hd3.
  { intros Hex. exfalso. revert Hex. apply not_isdir_elem.
    repeat (apply Forall_app; split); by repeat constructor. }
  walk d4 posted H4; rewrite try_post_run in H4;
    destruct (w_post w _ url data auth) as [response|err] eqn:Hpost;
    try (by inversion H4);
    try (intros Hex; exfalso; revert Hex; apply not_isdir_elem;
         destruct err; inversion H4; subst;
         repeat (apply Forall_app; split); by repeat constructor).
  inversion H4; subst. clear H4.
  walk d5 key H5; run_inv H5.
  { intros Hex; exfalso; revert Hex; apply not_isdir_elem.
    repeat (apply Forall_app; split); by repeat constructor. }
  cbv zeta.
  walk d6 a6 H6; [run_inv H6|]. run_inv H6.
  walk d7 a7 H7; [run_inv H7|]. run_inv H7.
  walk d8 att H8.
  { match type of H8 with
    | import_attachments _ ?i ?u ?a ?f ?hh = _ =>
        destruct (import_attachments_returns i u a f hh) as (d & v & Heq)
    end.
    congruence. }
  intros _.
  walk d9 a9 H9; run_inv H9.
  - eexists _, _, _. split.
    + rewrite !elem_of_app, !elem_of_cons. intuition auto.
    + intros Hr. congruence.
  - eexists _, _, _. split.
    + rewrite !elem_of_app, !elem_of_cons. intuition auto.
    + intros _. unfold post_close_request_trackit. rewrite fst_bind.
      unfold call at 1.
      match goal with
      | |- context [w_close w ?hh ?u ?k ?t] =>
          destruct (w_close w hh u k t) as [resp|e];
          [exists (Returns resp) | exists (Raises e)]
      end; rewrite !elem_of_app, !elem_of_cons; intuition auto.
Qed.

End Attachments.

(** C9, as the code has it: when every upload request is answered,
    whatever the answer says, and the attachment directory can be
    listed, [import_attachments] returns normally; a work order without
    a directory is no error and costs one look at the file system; and
    once the attachment step of a work order is reached, the note
    request is made and, when it returns, the close request as well. *)
Theorem attachment_answers_do_not_block (w : World)
    (trackit_api_username jira_rest_call_post jira_authorization
     track_it_full_hostname jira_server_address attachment_folder : string)
    (data : json_body) (h : history) :
  (forall h u f a, exists t, w_post_file w h u f a = Returns t) ->
  (forall h p, exists l, w_listdir w h p = Returns l) ->
  let id := customfield_10411 data in
  let d := fst (migrate_one w trackit_api_username jira_rest_call_post
                  jira_authorization track_it_full_hostname
                  jira_server_address attachment_folder data h) in
  (forall alink h',
     exists att v,
       import_attachments w id alink jira_authorization attachment_folder h'
       = (att, Returns v)) /\
  (forall alink h',
     w_isdir w h' (trackit_dir_of attachment_folder id) = false ->
     import_attachments w id alink jira_authorization attachment_folder h'
     = ([EIsDir (trackit_dir_of attachment_folder id) false], Returns None)) /\
  ((exists ev : event, ev ∈ d /\ Trace.is_isdir ev = true) ->
   exists key text r,
     EAddNote (addnote_url track_it_full_hostname id) key text r ∈ d /\
     (r = Returns tt ->
      exists r', EClose (close_url track_it_full_hostname id) key text r' ∈ d)).
Proof.
  intros Hup Hls id d. split; [|split].
  - intros alink h'. by apply import_attachments_returns.
  - intros alink h' Hdir. unfold import_attachments, bind, isdir.
    by rewrite Hdir.
  - by apply note_follows_attachments.
Qed.

Lemma attachment_answers_do_not_block_witness :
  exists key text r,
    EAddNote (addnote_url "trackit.example.org" 52204) key text r
    ∈ fst (Sample.migrate Sample.upload_refused
             (row_to_json_body "SUP" (Sample.work_order 52204 "High"))) /\
    (r = Returns tt ->
     exists r',
       EClose (close_url "trackit.example.org" 52204) key text r'
       ∈ fst (Sample.migrate Sample.upload_refused
                (row_to_json_body "SUP" (Sample.work_order 52204 "High")))).
Proof.
  apply (attachment_answers_do_not_block Sample.upload_refused "mtam"
           "http://jira.example.org/rest/api/2/issue/" "Basic abc"
           "trackit.example.org" "jira.example.org" "C:\attachments"
           (row_to_json_body "SUP" (Sample.work_order 52204 "High")) []).
  - intros h u f a. eexists. reflexivity.
  - intros h p. eexists. reflexivity.
  - exists (EIsDir "C:\attachments\52204" true). split; [|reflexivity].
    apply (list_elem_of_lookup_2 _ 6%nat). vm_compute. reflexivity.
Defined.

(** C9 as worded fails: an upload that raises ends [migrate_one] and
    the run; the attachment step was reached, but no note request and
    no close request is made for the work order. *)
Lemma raised_upload_blocks_note :
  let run := Sample.migrate Sample.upload_failing
               (row_to_json_body "SUP" (Sample.work_order 52204 "High")) in
  snd run = Raises (OtherError "ConnectionError") /\
  filter (fun ev => Trace.is_isdir ev = true) (fst run)
  = [EIsDir "C:\attachments\52204" true] /\
  filter (fun ev => Trace.is_addnote ev || Trace.is_close ev = true) (fst run) = [] /\
  snd (Sample.run Sample.upload_failing) = Raises (OtherError "ConnectionError") /\
  ~ attachments_never_block.
Proof.
  repeat apply conj; try (vm_compute; reflexivity).
  intros H.
  destruct (H Sample.upload_failing "mtam"
              "http://jira.example.org/rest/api/2/issue/" "Basic abc"
              "trackit.example.org" "jira.example.org" "C:\attachments"
              (row_to_json_body "SUP" (Sample.work_order 52204 "High")) [])
    as (ev & Hin & key & text & r & ->).
  - exists (EIsDir "C:\attachments\52204" true). split; [|reflexivity].
    apply (list_elem_of_lookup_2 _ 6%nat). vm_compute. reflexivity.
  - apply list_elem_of_In in Hin. vm_compute in Hin.
    intuition discriminate.
Qed.

(** ** Whose events are whose *)

Lemma eo_migrate_own w user url auth host server folder x :
  Trace.emits_only (Trace.own host x)
    (migrate_one w user url auth host server folder x).
Proof.
  unfold migrate_one.
  apply eo_bind; [emits_all|]. intros _.
  apply eo_bind; [emits_all|]. intros _.
  apply eo_bind; [by apply eo_create_trackit_key|]. intros tk.
  apply eo_bind.
  { apply eo_try.
    - apply eo_bind; [|intros; apply eo_ret].
      apply eo_call. intros r. simpl. by apply bool_decide_eq_true_2.
    - intros msg. emits_all. }
  intros [response|]; [|apply eo_ret].
  apply eo_bind; [emits_all|]. intros key.
  apply eo_bind; [emits_all|]. intros _.
  apply eo_bind; [emits_all|]. intros _.
  apply eo_bind; [by apply eo_import_attachments|]. intros _.
  apply eo_bind; [emits_all|]. intros _.
  apply eo_post_close; [|done].
  intros. simpl. by apply bool_decide_eq_true_2.
Qed.

Lemma eo_reconcile_own w user auth host server keys :
  Trace.emits_only (Trace.own_stuck host keys)
    (reconcile_one w user auth host server keys).
Proof.
  unfold reconcile_one.
  apply eo_bind; [by apply eo_create_trackit_key|]. intros tk.
  apply eo_bind; [emits_all|]. intros found.
  do 4 (apply eo_bind; [emits_all|]; intros ?).
  apply eo_bind; [emits_all|]. intros _.
  apply eo_post_close; [|done].
  intros. simpl. by apply bool_decide_eq_true_2.
Qed.

Lemma own_post host x d u data a r :
  Forall (fun ev => Trace.own host x ev = true) d ->
  EPost u data a r ∈ d -> data = x.
Proof.
  intros Hd Hin. rewrite Forall_forall in Hd. specialize (Hd _ Hin).
  simpl in Hd. by apply bool_decide_eq_true_1 in Hd.
Qed.

Lemma own_close host x d ev id :
  Forall (fun ev => Trace.own host x ev = true) d ->
  ev ∈ d -> Trace.closes host id ev -> id = customfield_10411 x.
Proof.
  intros Hd Hin (key & text & r & ->). rewrite Forall_forall in Hd.
  specialize (Hd _ Hin). simpl in Hd. apply bool_decide_eq_true_1 in Hd.
  by apply close_url_inj in Hd.
Qed.

Lemma own_stuck_post host keys d u data a r :
  Forall (fun ev => Trace.own_stuck host keys ev = true) d ->
  EPost u data a r ∉ d.
Proof.
  intros Hd Hin. rewrite Forall_forall in Hd. by specialize (Hd _ Hin).
Qed.

Lemma own_stuck_close host keys d ev id :
  Forall (fun ev => Trace.own_stuck host keys ev = true) d ->
  ev ∈ d -> Trace.closes host id ev -> id = keys.
Proof.
  intros Hd Hin (key & text & r & ->). rewrite Forall_forall in Hd.
  specialize (Hd _ Hin). simpl in Hd. apply bool_decide_eq_true_1 in Hd.
  by apply close_url_inj in Hd.
Qed.

Lemma neither_post d u data a r :
  Forall (fun ev => Trace.neither ev = true) d -> EPost u data a r ∉ d.
Proof.
  intros Hd Hin. rewrite Forall_forall in Hd. by specialize (Hd _ Hin).
Qed.

Lemma neither_close host d ev id :
  Forall (fun ev => Trace.neither ev = true) d ->
  ev ∈ d -> ~ Trace.closes host id ev.
Proof.
  intros Hd Hin (key & text & r & ->). rewrite Forall_forall in Hd.
  by specialize (Hd _ Hin).
Qed.

Section Loops.

Context (w : World) (user url auth host server folder : string).

Local Abbreviation migrate := (migrate_one w user url auth host server folder).
Local Abbreviation reconcile := (reconcile_one w user auth host server).

(** In the loop over the work orders to migrate, submissions carry
    work orders of the list and close requests go to their ids. *)
Lemma migrate_loop_events (l : list json_body) h :
  let d := fst (for_each migrate l h) in
  (forall u data a r, EPost u data a r ∈ d -> data ∈ l) /\
  (forall ev id, ev ∈ d -> Trace.closes host id ev ->
                 id ∈ map customfield_10411 l).
Proof.
  revert h. induction l as [|x l IH]; intros h; simpl.
  - split; intros; exfalso; eapply elem_of_nil; eauto.
  - rewrite fst_bind.
    pose proof (eo_migrate_own w user url auth host server folder x h) as Hx.
    destruct (migrate_one _ _ _ _ _ _ _ x h) as [d1 [[]|e]]; simpl in Hx.
    + destruct (IH (h ++ d1)) as [IHp IHc]. split.
      * intros u data a r Hin. apply elem_of_app in Hin as [Hin|Hin].
        -- apply (own_post _ _ _ _ _ _ _ Hx) in Hin as ->. left.
        -- right. eauto.
      * intros ev id Hin Hc. apply elem_of_app in Hin as [Hin|Hin].
        -- rewrite (own_close _ _ _ _ _ Hx Hin Hc). left.
        -- right. eauto.
    + split.
      * intros u data a r Hin.
        apply (own_post _ _ _ _ _ _ _ Hx) in Hin as ->. left.
      * intros ev id Hin Hc. rewrite (own_close _ _ _ _ _ Hx Hin Hc). left.
Qed.

(** In the loop over the stuck ids there is no submission, and close
    requests go to ids of the list. *)
Lemma reconcile_loop_events (l : list Z) h :
  let d := fst (for_each reconcile l h) in
  (forall u data a r, EPost u data a r ∉ d) /\
  (forall ev id, ev ∈ d -> Trace.closes host id ev -> id ∈ l).
Proof.
  revert h. induction l as [|k l IH]; intros h; simpl.
  - split; [intros; apply not_elem_of_nil|].
    intros; exfalso; eapply elem_of_nil; eauto.
  - rewrite fst_bind.
    pose proof (eo_reconcile_own w user auth host server k h) as Hk.
    destruct (reconcile_one _ _ _ _ _ k h) as [d1 [[]|e]]; simpl in Hk.
    + destruct (IH (h ++ d1)) as [IHp IHc]. split.
      * intros u data a r Hin. apply elem_of_app in Hin as [Hin|Hin].
        -- by apply (own_stuck_post _ _ _ _ _ _ _ Hk) in Hin.
        -- by apply IHp in Hin.
      * intros ev id Hin Hc. apply elem_of_app in Hin as [Hin|Hin].
        -- rewrite (own_stuck_close _ _ _ _ _ Hk Hin Hc). left.
        -- right. eauto.
    + split.
      * intros u data a r Hin. by apply (own_stuck_post _ _ _ _ _ _ _ Hk) in Hin.
      * intros ev id Hin Hc. rewrite (own_stuck_close _ _ _ _ _ Hk Hin Hc). left.
Qed.

(** With distinct ids, a work order whose submission failed is not
    closed anywhere in the loop. *)
Lemma migrate_loop_failed (l : list json_body) h :
  NoDup (map customfield_10411 l) ->
  let d := fst (for_each migrate l h) in
  forall u data a res,
    EPost u data a res ∈ d -> Trace.submission_failed res = true ->
    forall ev, ev ∈ d -> ~ Trace.closes host (customfield_10411 data) ev.
Proof.
  revert h. induction l as [|x l IH]; intros h Hnd; simpl.
  - intros u data a res Hin. by apply elem_of_nil in Hin.
  - simpl in Hnd. apply NoDup_cons in Hnd as [Hx Hnd].
    rewrite fst_bind.
    pose proof (eo_migrate_own w user url auth host server folder x h) as Hown.
    pose proof (failed_submission_no_effects w user url auth host server
                  folder x h) as Hfail.
    destruct (migrate_one _ _ _ _ _ _ _ x h) as [d1 [[]|e]];
      simpl in Hown, Hfail.
    + destruct (migrate_loop_events l (h ++ d1)) as [Hp Hc].
      specialize (IH (h ++ d1) Hnd). simpl in IH.
      intros u data a res Hin Hres ev Hev Hclose.
      apply elem_of_app in Hin as [Hin|Hin];
        apply elem_of_app in Hev as [Hev|Hev].
      * specialize (Hfail _ _ _ _ Hin Hres). rewrite Forall_forall in Hfail.
        specialize (Hfail _ Hev). destruct Hclose as (? & ? & ? & ->).
        discriminate Hfail.
      * apply (own_post _ _ _ _ _ _ _ Hown) in Hin as ->.
        apply Hx. eauto.
      * apply Hp in Hin.
        pose proof (own_close _ _ _ _ _ Hown Hev Hclose) as Heq.
        apply Hx. rewrite <- Heq. apply elem_of_map. eauto.
      * by eapply IH.
    + intros u data a res Hin Hres ev Hev Hclose.
      specialize (Hfail _ _ _ _ Hin Hres). rewrite Forall_forall in Hfail.
      specialize (Hfail _ Hev). destruct Hclose as (? & ? & ? & ->).
      discriminate Hfail.
Qed.

End Loops.

(** ** A failed submission in a whole run *)

Lemma for_each_if_nonempty {A} (body : A -> M unit) (l : list A) h :
  (if 0 <? Z.of_nat (length l) then for_each body l else ret tt) h
  = for_each body l h.
Proof. by destruct l. Qed.

Lemma NoDup_map_filter {A B} (f : A -> B) (P : A -> Prop)
    `{!forall x, Decision (P x)} (l : list A) :
  NoDup (map f l) -> NoDup (map f (filter P l)).
Proof.
  induction l as [|x l IH]; simpl; [done|].
  rewrite NoDup_cons. intros [Hx Hl].
  rewrite filter_cons. destruct (decide (P x)); [|by apply IH].
  simpl. apply NoDup_cons. split; [|by apply IH].
  intros Hin. apply Hx. apply elem_of_map in Hin as (y & -> & Hy).
  apply list_elem_of_filter in Hy as [_ Hy]. apply elem_of_map. eauto.
Qed.

Lemma map_rows_ids key rows :
  map customfield_10411 (map_rows key rows) = map workorder_number rows.
Proof. unfold map_rows. rewrite map_map. reflexivity. Qed.

Section WholeRun.

Context (host : string).

Local Abbreviation G := (Trace.failed_never_closed host).

Lemma G_neither d : Forall (fun ev => Trace.neither ev = true) d -> G d.
Proof.
  intros Hd u data a res Hin. by apply (neither_post _ _ _ _ _ Hd) in Hin.
Qed.

Lemma G_neither_app d1 d2 :
  Forall (fun ev => Trace.neither ev = true) d1 -> G d2 -> G (d1 ++ d2).
Proof.
  intros Hd1 Hd2 u data a res Hin Hres ev Hev Hclose.
  apply elem_of_app in Hin as [Hin|Hin];
    [by apply (neither_post _ _ _ _ _ Hd1) in Hin|].
  apply elem_of_app in Hev as [Hev|Hev].
  - by apply (neither_close host _ _ _ Hd1 Hev) in Hclose.
  - by eapply Hd2.
Qed.

Lemma G_bind_neither {A B} (m : M A) (k : A -> M B) h :
  Trace.emits_only Trace.neither m ->
  (forall d1 a, m h = (d1, Returns a) -> G (fst (k a (h ++ d1)))) ->
  G (fst (bind m k h)).
Proof.
  intros Hm Hk. rewrite fst_bind. specialize (Hm h).
  destruct (m h) as [d1 [a|e]] eqn:E; simpl in Hm.
  - apply G_neither_app; [done|]. by apply Hk.
  - by apply G_neither.
Qed.

Lemma failed_submission_never_closed w user post_url ids_url auth key server
    sql folder dm cfg rows :
  w_fetchall w [] sql = Returns rows ->
  NoDup (map workorder_number rows) ->
  G (fst (mainloop w user post_url ids_url auth key host server sql folder
            dm cfg [])).
Proof.
  intros Hrows Hnd. unfold mainloop.
  apply G_bind_neither; [emits_all|]. intros d1 out H1.
  assert (out = map_rows key rows) as ->.
  { unfold get_database_cursor, bind, call, ret in H1.
    rewrite Hrows in H1. by inversion H1. }
  apply G_bind_neither; [emits_all|]. intros d2 stamp _.
  apply G_bind_neither; [emits_all|]. intros d3 [] _.
  apply G_bind_neither; [emits_all|]. intros d4 ids _.
  cbv zeta.
  set (invalid := invalid_ids_of (map customfield_10411 (map_rows key rows)) ids).
  set (valid := valid_of (map_rows key rows) invalid).
  set (h5 := ((([] ++ d1) ++ d2) ++ d3) ++ d4).
  assert (Hvalid : NoDup (map customfield_10411 valid)).
  { apply NoDup_map_filter. by rewrite map_rows_ids. }
  rewrite fst_bind, for_each_if_nonempty.
  pose proof (migrate_loop_events w user post_url auth host server folder
                valid h5) as [Hmp Hmc].
  pose proof (migrate_loop_failed w user post_url auth host server folder
                valid h5 Hvalid) as Hmf.
  destruct (for_each _ valid h5) as [d5 [[]|e]]; simpl in Hmp, Hmc, Hmf;
    [|exact Hmf].
  assert (Hsweep : forall h, Forall (fun ev => Trace.neither ev = true)
                               (fst (duedate_sweep w auth key server dm cfg h))).
  { intros h.
    assert (Trace.emits_only Trace.neither
              (duedate_sweep w auth key server dm cfg)) as He by emits_all.
    apply He. }
  assert (Hstuck : forall h,
    let d := fst ((if 0 <? Z.of_nat (length invalid)
                   then bind (print ("Updating previously locked workorders: " +:+
                                     str_of_ids w invalid))
                             (fun _ => for_each (reconcile_one w user auth host server)
                                                invalid)
                   else ret tt) h) in
    (forall u data a r, EPost u data a r ∉ d) /\
    (forall ev id, ev ∈ d -> Trace.closes host id ev -> id ∈ invalid)).
  { intros h. destruct (0 <? Z.of_nat (length invalid)).
    - rewrite fst_bind. unfold print at 1, emit at 1. cbv iota.
      destruct (reconcile_loop_events w user auth host server invalid
                  (h ++ [EPrint ("Updating previously locked workorders: " +:+
                                 str_of_ids w invalid)])) as [Hrp Hrc].
      simpl. split.
      + intros u data a r. rewrite elem_of_cons.
        intros [Hin|Hin]; [done|by apply Hrp in Hin].
      + intros ev id. rewrite elem_of_cons.
        intros [->|Hin] Hc; [by destruct Hc as (? & ? & ? & ?)|eauto].
    - simpl. split; [intros; apply not_elem_of_nil|].
      intros ev id Hin. by apply elem_of_nil in Hin. }
  assert (Hrest : forall d6,
    (forall u data a r, EPost u data a r ∉ d6) ->
    (forall ev id, ev ∈ d6 -> Trace.closes host id ev -> id ∈ invalid) ->
    G (d5 ++ d6)).
  { intros d6 Hrp Hrc u data a res Hin Hres ev Hev Hclose.
    apply elem_of_app in Hin as [Hin|Hin]; [|by apply Hrp in Hin].
    apply elem_of_app in Hev as [Hev|Hev]; [by eapply Hmf|].
    apply Hmp in Hin. apply list_elem_of_filter in Hin as [Hnot _].
    apply Hnot. eauto. }
  walk d6 a6 H6; specialize (Hstuck (h5 ++ d5)); rewrite H6 in Hstuck;
    destruct Hstuck as [Hrp Hrc]; simpl in Hrp, Hrc.
  - by apply Hrest.
  - apply Hrest.
    + intros u data a r Hin. apply elem_of_app in Hin as [Hin|Hin].
      * by apply Hrp in Hin.
      * by apply (neither_post _ _ _ _ _ (Hsweep _)) in Hin.
    + intros ev id Hin Hc. apply elem_of_app in Hin as [Hin|Hin]; [eauto|].
      by apply (neither_close host _ _ _ (Hsweep _) Hin) in Hc.
Qed.

End WholeRun.

(** C2: in a run of [mainloop], every close request for a work order
    comes after the submission that created its issue in JIRA, or after
    the search that found its issue.  When the answer to the submission
    of a work order does not name a created issue, the steps for that
    work order contain no close request (nor a note or an upload); and,
    the ids of the fetched rows being distinct, no close request for
    that work order is made in the whole run. *)
Theorem close_only_after_creation (w : World)
    (trackit_api_username jira_rest_call_post jira_rest_call_get_trackit_id
     jira_authorization jira_key track_it_full_hostname jira_server_address
     sql attachment_folder : string)
    (duedate_map : gmap string Z) (config : gmap string json) :
  let run := fst (mainloop w trackit_api_username jira_rest_call_post
                    jira_rest_call_get_trackit_id jira_authorization jira_key
                    track_it_full_hostname jira_server_address sql
                    attachment_folder duedate_map config []) in
  (forall (pre post : list event) (ev : event) (id : Z),
     run = pre ++ ev :: post ->
     Trace.closes track_it_full_hostname id ev ->
     exists ev' : event,
       ev' ∈ pre /\
       (Trace.created id ev' \/ Trace.found jira_server_address id ev')) /\
  (forall (data : json_body) (h : history) (url auth : string)
          (data' : json_body) (res : outcome json),
     let d := fst (migrate_one w trackit_api_username jira_rest_call_post
                     jira_authorization track_it_full_hostname
                     jira_server_address attachment_folder data h) in
     EPost url data' auth res ∈ d ->
     Trace.submission_failed res = true ->
     Forall (fun ev => Trace.is_record_effect ev = false) d) /\
  (forall (rows : list row),
     w_fetchall w [] sql = Returns rows ->
     NoDup (map workorder_number rows) ->
     forall (url auth : string) (data : json_body) (res : outcome json),
       EPost url data auth res ∈ run ->
       Trace.submission_failed res = true ->
       forall ev : event,
         ev ∈ run ->
         ~ Trace.closes track_it_full_hostname (customfield_10411 data) ev).
Proof.
  intros run. split; [|split].
  - intros pre post ev id Hrun Hclose.
    eapply cj_split; [apply cj_mainloop|exact Hrun|exact Hclose].
  - intros data h url auth data' res. apply failed_submission_no_effects.
  - intros rows Hrows Hnd url auth data res.
    by apply (failed_submission_never_closed track_it_full_hostname w
                trackit_api_username jira_rest_call_post
                jira_rest_call_get_trackit_id jira_authorization jira_key
                jira_server_address sql attachment_folder duedate_map config
                rows).
Qed.

Lemma close_only_after_creation_witness :
  (exists ev' : event,
     ev' ∈ take 11 (fst (Sample.run Sample.migrating)) /\
     (Trace.created 52204 ev' \/ Trace.found "jira.example.org" 52204 ev')) /\
  Forall (fun ev => Trace.is_record_effect ev = false)
    (fst (Sample.migrate Sample.refusing
            (row_to_json_body "SUP" (Sample.work_order 52204 "High")))) /\
  (forall ev : event,
     ev ∈ fst (Sample.run Sample.http_failing) ->
     ~ Trace.closes "trackit.example.org" 52204 ev).
Proof.
  split; [|split].
  - apply (proj1 (close_only_after_creation Sample.migrating "mtam"
                    "http://jira.example.org/rest/api/2/issue/"
                    "http://jira.example.org/rest/api/2/search?jql=project%20%3D%20%22SUP%22&fields=customfield_10411&maxResults=1000"
                    "Basic abc" "SUP" "trackit.example.org" "jira.example.org"
                    "SELECT wo_num FROM tasks" "C:\attachments"
                    Sample.duedate_map Sample.config)
             (take 11 (fst (Sample.run Sample.migrating)))
             (drop 12 (fst (Sample.run Sample.migrating)))
             (EClose (close_url "trackit.example.org" 52204) (JStr "k1")
                     (moved_text "http://jira.example.org/browse/SUP-101")
                     (Returns Sample.close_answer))
             52204).
    + vm_compute. reflexivity.
    + eexists _, _, _. reflexivity.
  - apply (proj1 (proj2 (close_only_after_creation Sample.refusing "mtam"
                    "http://jira.example.org/rest/api/2/issue/" ""
                    "Basic abc" "" "trackit.example.org" "jira.example.org"
                    "" "C:\attachments" ∅ ∅))
             (row_to_json_body "SUP" (Sample.work_order 52204 "High")) []
             "http://jira.example.org/rest/api/2/issue/" "Basic abc"
             (row_to_json_body "SUP" (Sample.work_order 52204 "High"))
             (Returns Sample.refused_answer)).
    + apply (list_elem_of_lookup_2 _ 3%nat). vm_compute. reflexivity.
    + reflexivity.
  - apply (proj2 (proj2 (close_only_after_creation Sample.http_failing "mtam"
                    "http://jira.example.org/rest/api/2/issue/"
                    "http://jira.example.org/rest/api/2/search?jql=project%20%3D%20%22SUP%22&fields=customfield_10411&maxResults=1000"
                    "Basic abc" "SUP" "trackit.example.org" "jira.example.org"
                    "SELECT wo_num FROM tasks" "C:\attachments"
                    Sample.duedate_map Sample.config))
             [Sample.work_order 52204 "High"; Sample.work_order 52205 "High"]
             eq_refl)
      with (url := "http://jira.example.org/rest/api/2/issue/")
           (auth := "Basic abc")
           (data := row_to_json_body "SUP" (Sample.work_order 52204 "High"))
           (res := Raises (HTTPError "HTTP Error 400: Bad Request")).
    + simpl. repeat constructor; rewrite ?not_elem_of_cons;
        try apply not_elem_of_nil. split; [lia|apply not_elem_of_nil].
    + apply (list_elem_of_lookup_2 _ 6%nat). vm_compute. reflexivity.
    + reflexivity.
Defined.

(** * Further properties of the script *)

(** ** The field mapper *)

Lemma collapse_priority_not_collapsed (p : pystr) :
  collapse_priority p ∉ collapsed_priorities.
Proof.
  unfold collapse_priority, collapsed_priorities.
  destruct (py_eq p "Ongoing Support") eqn:E1; simpl.
  { rewrite !not_elem_of_cons. repeat split; try discriminate.
    apply not_elem_of_nil. }
  destruct (py_eq p "Change Request") eqn:E2; simpl.
  { rewrite !not_elem_of_cons. repeat split; try discriminate.
    apply not_elem_of_nil. }
  destruct (py_eq p "Project") eqn:E3; simpl.
  { rewrite !not_elem_of_cons. repeat split; try discriminate.
    apply not_elem_of_nil. }
  apply py_eq_false in E1, E2, E3.
  rewrite !not_elem_of_cons. repeat split; try done. apply not_elem_of_nil.
Qed.

(** X1: the priority of a payload is never "Ongoing Support", "Change
    Request" or "Project", and collapsing a priority twice changes
    nothing more. *)
Theorem payload_priority_never_collapsed (jira_key : string) (r : row) :
  (priority_name (row_to_json_body jira_key r) ∉ collapsed_priorities) /\
  (collapse_priority (collapse_priority (priority r))
   = collapse_priority (priority r)).
Proof.
  split; [apply collapse_priority_not_collapsed|].
  pose proof (collapse_priority_not_collapsed (priority r)) as H.
  unfold collapsed_priorities in H. rewrite !not_elem_of_cons in H.
  destruct H as (H1 & H2 & H3 & _).
  apply py_eq_false in H1, H2, H3.
  unfold collapse_priority at 1. by rewrite H1, H2, H3.
Qed.

(** X2: the issue type of a payload is one of the four known types; a
    payload whose type is not "Incident Management" has the priority
    "Routine"; and the type "Change Request" only occurs in the project
    "CRQ". *)
Theorem special_issue_types_are_routine (jira_key : string) (r : row) :
  let b := row_to_json_body jira_key r in
  issuetype_name b ∈ issue_types /\
  (issuetype_name b <> "Incident Management" ->
   priority_name b = Some "Routine") /\
  (issuetype_name b = "Change Request" -> jira_key = "CRQ").
Proof.
  simpl. unfold jira_issuetype_of, collapse_priority, issue_types.
  destruct (py_eq (priority r) "Project") eqn:E1.
  { rewrite orb_true_r. repeat split; try done. set_solver. }
  destruct (py_eq (priority r) "Ongoing Support") eqn:E2.
  { simpl. repeat split; try done. set_solver. }
  destruct (py_eq (priority r) "Change Request") eqn:E3; simpl.
  - destruct (PyStr.eqb jira_key "CRQ") eqn:E4.
    + repeat split; try done; [set_solver|]. intros _. by apply String.eqb_eq.
    + repeat split; try done. set_solver.
  - repeat split; try done. set_solver.
Qed.

Lemma special_issue_types_are_routine_witness :
  priority_name (row_to_json_body "CRQ" (Sample.work_order 7 "Change Request"))
  = Some "Routine" /\ "CRQ" = "CRQ".
Proof.
  pose proof (special_issue_types_are_routine "CRQ"
                (Sample.work_order 7 "Change Request")) as H.
  cbv zeta in H. destruct H as (_ & H1 & H2). split.
  - apply H1. discriminate.
  - apply H2. reflexivity.
Defined.

Lemma replace_space_no_space (s : string) :
  contains_space (PyStr.replace_space s) = false.
Proof.
  unfold PyStr.replace_space.
  induction s as [|c s IH]; simpl; [done|]. rewrite IH, orb_false_r.
  destruct (Ascii.eqb c " ") eqn:E; [reflexivity|exact E].
Qed.

Lemma replace_space_fixed (s : string) :
  contains_space s = false -> PyStr.replace_space s = s.
Proof.
  unfold PyStr.replace_space.
  induction s as [|c s IH]; simpl; [done|].
  intros H. apply orb_false_iff in H as [Hc Hs]. by rewrite Hc, IH.
Qed.

(** X3: the subtype, category and company of a payload contain no
    space, and normalising a value that has none leaves it as it is (the
    normalisation is idempotent). *)
Theorem underscored_fields_have_no_space (jira_key : string) (r : row) (s : string) :
  let b := row_to_json_body jira_key r in
  (customfield_11900 b !! 0%nat = Some (Some s) \/
   customfield_11900 b !! 1%nat = Some (Some s) \/
   customfield_11800 b = [Some s]) ->
  contains_space s = false /\ underscore (Some s) = Some s.
Proof.
  intros b H. subst b. unfold row_to_json_body in H.
  cbn [customfield_11900 customfield_11800 lookup list_lookup] in H.
  assert (Hs : exists t, s = PyStr.replace_space t).
  { destruct H as [H|[H|H]].
    - destruct (subtype r) as [t|]; [|done].
      rewrite underscore_Some in H. injection H as <-. eauto.
    - destruct (category r) as [t|].
      + rewrite underscore_Some in H. injection H as <-. eauto.
      + injection H as <-. by exists "".
    - destruct (company r) as [t|]; [|done].
      rewrite underscore_Some in H. injection H as <-. eauto. }
  destruct Hs as [t ->]. split; [apply replace_space_no_space|].
  rewrite underscore_Some. f_equal.
  apply replace_space_fixed, replace_space_no_space.
Qed.

Lemma underscored_fields_have_no_space_witness :
  contains_space "Laser_Printer" = false /\
  underscore (Some "Laser_Printer") = Some "Laser_Printer".
Proof.
  apply (underscored_fields_have_no_space "SUP" (Sample.work_order 7 "High")).
  right. left. reflexivity.
Defined.

(** ** The migration-state detector *)

Lemma filter_ext_in {A} (P Q : A -> Prop) `{!forall x, Decision (P x)}
    `{!forall x, Decision (Q x)} (l : list A) :
  (forall x, x ∈ l -> P x <-> Q x) -> filter P l = filter Q l.
Proof.
  induction l as [|x l IH]; intros Hext; [done|].
  rewrite !filter_cons.
  assert (P x <-> Q x) as Hx by (apply Hext; left).
  rewrite IH by (intros y Hy; apply Hext; by right).
  destruct (decide (P x)), (decide (Q x)); tauto.
Qed.

Lemma valid_of_direct (out : list json_body) (X : list Z) :
  valid_of out (invalid_ids_of (map customfield_10411 out) X)
  = filter (fun x => customfield_10411 x ∉ X) out.
Proof.
  unfold valid_of. apply filter_ext_in. intros x Hx.
  rewrite elem_of_invalid_ids, elem_of_map. split.
  - intros Hn HX. apply Hn. eauto.
  - intros Hn [_ HX]. done.
Qed.

Lemma filter_lengths (out : list json_body) (X : list Z) :
  (length (filter (fun x => customfield_10411 x ∉ X) out) +
   length (invalid_ids_of (map customfield_10411 out) X))%nat = length out.
Proof.
  unfold invalid_ids_of. induction out as [|x out IH]; [done|].
  simpl map. rewrite !filter_cons.
  destruct (decide (customfield_10411 x ∉ X)) as [Hn|Hn];
    destruct (decide (customfield_10411 x ∈ X)) as [Hi|Hi]; simpl; try tauto.
  - by rewrite IH.
  - rewrite Nat.add_succ_r. by rewrite IH.
Qed.

(** X4: the detector sends every fetched row to exactly one of the two
    loops and keeps the order of the rows: the rows to migrate are the
    rows whose id JIRA does not hold, the two lists are sublists of the
    rows and of their ids, and their lengths add up to the number of
    rows (also when ids repeat). *)
Theorem detector_keeps_every_row_once (database_full_output : list json_body)
    (trackit_ids_jira : list Z) :
  let trackit_ids_trackit := map customfield_10411 database_full_output in
  let invalid_ids := invalid_ids_of trackit_ids_trackit trackit_ids_jira in
  let database_full_output_valid := valid_of database_full_output invalid_ids in
  database_full_output_valid
  = filter (fun x => customfield_10411 x ∉ trackit_ids_jira) database_full_output /\
  (length database_full_output_valid + length invalid_ids)%nat
  = length database_full_output /\
  sublist database_full_output_valid database_full_output /\
  sublist invalid_ids trackit_ids_trackit.
Proof.
  intros ids invalid valid. unfold valid, invalid, ids.
  rewrite valid_of_direct. repeat apply conj.
  - reflexivity.
  - apply filter_lengths.
  - apply sublist_filter.
  - apply sublist_filter.
Qed.

(** X5: with nothing in JIRA every row is migrated and none is
    reconciled; with every id in JIRA no row is migrated and every id is
    reconciled (so a second run over an unchanged candidate list, after
    a run that created all its issues, submits nothing). *)
Theorem detector_edge_cases (database_full_output : list json_body)
    (trackit_ids_jira : list Z) :
  let trackit_ids_trackit := map customfield_10411 database_full_output in
  (invalid_ids_of trackit_ids_trackit [] = [] /\
   valid_of database_full_output (invalid_ids_of trackit_ids_trackit [])
   = database_full_output) /\
  ((forall id, id ∈ trackit_ids_trackit -> id ∈ trackit_ids_jira) ->
   invalid_ids_of trackit_ids_trackit trackit_ids_jira = trackit_ids_trackit /\
   valid_of database_full_output
     (invalid_ids_of trackit_ids_trackit trackit_ids_jira) = []).
Proof.
  intros ids. unfold ids. split.
  - assert (Hnil : invalid_ids_of (map customfield_10411 database_full_output) [] = []).
    { unfold invalid_ids_of.
      induction database_full_output as [|x out IH]; [done|].
      simpl map. rewrite filter_cons.
      destruct (decide (customfield_10411 x ∈ [])) as [H|H]; [|exact IH].
      by apply elem_of_nil in H. }
    split; [exact Hnil|]. rewrite Hnil. unfold valid_of.
    induction database_full_output as [|x out IH]; [done|].
    rewrite filter_cons.
    destruct (decide (customfield_10411 x ∉ [])) as [H|H].
    + f_equal. apply IH. unfold invalid_ids_of.
      clear. induction out as [|y out IH]; [done|].
      simpl map. rewrite filter_cons.
      destruct (decide (customfield_10411 y ∈ [])) as [H|H]; [|exact IH].
      by apply elem_of_nil in H.
    + exfalso. apply H, not_elem_of_nil.
  - intros Hall. split.
    + unfold invalid_ids_of.
      induction database_full_output as [|x out IH]; [done|].
      simpl map in *. rewrite filter_cons.
      destruct (decide (customfield_10411 x ∈ trackit_ids_jira)) as [H|H].
      * f_equal. apply IH. intros id Hid. apply Hall. by right.
      * exfalso. apply H, Hall. left.
    + rewrite valid_of_direct.
      induction database_full_output as [|x out IH]; [done|].
      simpl map in *. rewrite filter_cons.
      destruct (decide (customfield_10411 x ∉ trackit_ids_jira)) as [H|H].
      * exfalso. apply H, Hall. left.
      * apply IH. intros id Hid. apply Hall. by right.
Qed.

Lemma detector_edge_cases_witness :
  invalid_ids_of
    (map customfield_10411
       (map_rows "SUP" [Sample.work_order 52204 "High"; Sample.work_order 52205 "High"]))
    [52205; 7; 52204]
  = [52204; 52205] /\
  valid_of
    (map_rows "SUP" [Sample.work_order 52204 "High"; Sample.work_order 52205 "High"])
    (invalid_ids_of
       (map customfield_10411
          (map_rows "SUP" [Sample.work_order 52204 "High";
                           Sample.work_order 52205 "High"]))
       [52205; 7; 52204])
  = [].
Proof.
  apply (proj2 (detector_edge_cases
                  (map_rows "SUP" [Sample.work_order 52204 "High";
                                   Sample.work_order 52205 "High"])
                  [52205; 7; 52204])).
  intros id Hid. apply list_elem_of_In in Hid. apply list_elem_of_In.
  simpl in *. intuition auto.
Defined.

(** ** The inventory of JIRA *)

Lemma pretty_N_go_ne_None (x : N) (s : string) :
  s <> "None" -> pretty_N_go x s <> "None".
Proof.
  revert s. induction (N.lt_wf_0 x) as [x _ IH]. intros s Hs.
  destruct (decide (x = 0)%N) as [->|Hx].
  - by rewrite pretty_N_go_0.
  - rewrite pretty_N_go_step by lia. apply IH.
    + apply N.div_lt; lia.
    + unfold pretty_N_char. repeat case_match; discriminate.
Qed.

Lemma str_of_int_ne_None (n : Z) : PyStr.of_int n <> "None".
Proof.
  unfold PyStr.of_int, pretty, pretty_Z. destruct n as [|p|p].
  - discriminate.
  - unfold pretty, pretty_positive, pretty, pretty_N.
    destruct (decide (N.pos p = 0)%N); [discriminate|].
    by apply pretty_N_go_ne_None.
  - simpl. discriminate.
Qed.

Lemma trackit_id_of_reference w issue (o : option Z) :
  cross_reference issue (reference_value o) ->
  trackit_id_of_issue w issue = Returns o.
Proof.
  intros (fields & Hf & Hv). unfold trackit_id_of_issue.
  rewrite Hf. cbn [Outcome.bind]. rewrite Hv. cbn [Outcome.bind].
  destruct o as [n|]; simpl; [|done].
  destruct (String.eqb (PyStr.of_int n) "None") eqn:E; [|done].
  apply String.eqb_eq in E. by apply str_of_int_ne_None in E.
Qed.

(** X6: reading the ids out of the inventory, an issue whose
    cross-reference is [null] is left out and is no error; the ids of
    the other issues are returned in the order of the issues. *)
Theorem null_cross_references_are_skipped (w : World) (issues : list json)
    (refs : list (option Z)) :
  Forall2 (fun issue o => cross_reference issue (reference_value o)) issues refs ->
  Outcome.traverse_if (trackit_id_of_issue w) issues
  = Returns (omap (fun o => o) refs).
Proof.
  induction 1 as [|issue o issues refs Hi _ IH]; [done|].
  simpl. rewrite (trackit_id_of_reference w issue o Hi), IH. simpl.
  by destruct o.
Qed.

Lemma null_cross_references_are_skipped_witness :
  Outcome.traverse_if (trackit_id_of_issue Sample.quiet)
    [JObj [("key", JStr "SUP-1");
           ("fields", JObj [("customfield_10411", JNum 52204)])];
     JObj [("key", JStr "SUP-2");
           ("fields", JObj [("customfield_10411", JNull)])]]
  = Returns (omap (fun o => o) [Some 52204; None]).
Proof.
  apply (null_cross_references_are_skipped Sample.quiet).
  repeat constructor; eexists; split; reflexivity.
Defined.

Lemma traverse_if_first_failure {A B} (f : A -> outcome (option B))
    (pre post : list A) (bad : A) (ys : list B) (e : exn) :
  Outcome.traverse_if f pre = Returns ys -> f bad = Raises e ->
  Outcome.traverse_if f (pre ++ bad :: post) = Raises e.
Proof.
  revert ys. induction pre as [|x pre IH]; intros ys Hpre Hbad; simpl.
  - by rewrite Hbad.
  - simpl in Hpre. destruct (f x) as [y|e']; [|done]. simpl in *.
    destruct (Outcome.traverse_if f pre) as [ys'|e']; [|done].
    by rewrite (IH ys').
Qed.

Lemma fetch_trackit_ids_jira_run w url auth h :
  fetch_trackit_ids_jira w url auth h =
  ([EGet url auth (w_get w h url auth)],
   Outcome.bind (w_get w h url auth) (trackit_ids_jira_of w)).
Proof.
  unfold fetch_trackit_ids_jira, trackit_ids_jira_of, get_request.
  unfold bind at 1. unfold call at 1.
  destruct (w_get w h url auth) as [j|e]; [|done].
  cbn [Outcome.bind]. rewrite bind_lift.
  destruct (Json.dict j) as [d|e]; [|done].
  cbn [Outcome.bind]. rewrite bind_lift.
  destruct (Json.get "issues" d) as [issues|e]; [|done].
  cbn [Outcome.bind]. rewrite bind_lift.
  destruct (Json.iter issues) as [l|e]; [|done].
  reflexivity.
Qed.

(** X7: when the inventory that JIRA sends holds an issue without
    ["fields"] (or with any other shape that makes the reading of its
    id raise), [mainloop] ends with that exception right after the
    inventory search: no login, no submission, no note, no close and no
    due date update is made, whatever the rows are. *)
Theorem unreadable_inventory_ends_run (w : World)
    (trackit_api_username jira_rest_call_post jira_rest_call_get_trackit_id
     jira_authorization jira_key track_it_full_hostname jira_server_address
     sql attachment_folder : string)
    (duedate_map : gmap string Z) (config : gmap string json)
    (rows : list row) (j : json) (pre post : list json) (bad : json)
    (ids : list Z) (e : exn) :
  w_fetchall w [] sql = Returns rows ->
  (forall h, w_get w h jira_rest_call_get_trackit_id jira_authorization
             = Returns j) ->
  Json.get "issues" j = Returns (JArr (pre ++ bad :: post)) ->
  Outcome.traverse_if (trackit_id_of_issue w) pre = Returns ids ->
  trackit_id_of_issue w bad = Raises e ->
  mainloop w trackit_api_username jira_rest_call_post
    jira_rest_call_get_trackit_id jira_authorization jira_key
    track_it_full_hostname jira_server_address sql attachment_folder
    duedate_map config [] =
  ([EFetchAll sql (Returns rows);
    EPrint (w_now w [EFetchAll sql (Returns rows)] +:+
            " Amount of open workorders: " +:+
            PyStr.of_int (Z.of_nat (length rows)));
    EGet jira_rest_call_get_trackit_id jira_authorization (Returns j)],
   Raises e).
Proof.
  intros Hrows Hget Hissues Hpre Hbad. unfold mainloop.
  assert (Hids : trackit_ids_jira_of w j = Raises e).
  { unfold trackit_ids_jira_of. destruct j; try discriminate. simpl.
    simpl in Hissues. rewrite Hissues. simpl.
    by apply (traverse_if_first_failure _ pre post bad ids). }
  unfold bind at 1. unfold get_database_cursor, bind at 1, call, ret.
  rewrite Hrows. cbn [app]. unfold bind at 1, now. cbn [app].
  unfold bind at 1, print, emit. cbn [app].
  unfold bind at 1. rewrite fetch_trackit_ids_jira_run, Hget.
  cbn [Outcome.bind]. rewrite Hids. unfold map_rows. by rewrite length_map.
Qed.

Lemma unreadable_inventory_ends_run_witness :
  snd (mainloop
         (Sample.steady [Sample.work_order 52204 "High"]
            (JObj [("issues", JArr ([] ++ JObj [("key", JStr "SUP-1")] :: []))])
            (Returns Sample.created_answer) false [] (Returns ""))
         "mtam" "http://jira.example.org/rest/api/2/issue/"
         "http://jira.example.org/rest/api/2/search" "Basic abc" "SUP"
         "trackit.example.org" "jira.example.org" "SELECT wo_num FROM tasks"
         "C:\attachments" Sample.duedate_map Sample.config [])
  = Raises (KeyError "fields").
Proof.
  rewrite (unreadable_inventory_ends_run _ _ _ _ _ _ _ _ _ _ _ _
             [Sample.work_order 52204 "High"]
             (JObj [("issues", JArr ([] ++ JObj [("key", JStr "SUP-1")] :: []))])
             [] [] (JObj [("key", JStr "SUP-1")]) [] (KeyError "fields"));
    reflexivity.
Defined.

(** ** The transfer of attachments *)

Lemma upload_loop_answered w url auth dir (files : list string) h :
  (forall file, file ∈ files ->
     forall h, exists t,
       w_post_file w h url (dir +:+ "\" +:+ file) auth = Returns t) ->
  exists d,
    for_each (fun file =>
                bind (post_file_request w url (dir +:+ "\" +:+ file) auth)
                     (fun _ => ret tt)) files h = (d, Returns tt) /\
    More.uploads d = map (fun file => (url, dir +:+ "\" +:+ file, auth)) files /\
    More.listings d = [].
Proof.
  revert h. induction files as [|file files IH]; intros h Hup; simpl.
  - by eexists.
  - destruct (Hup file (list_elem_of_here _ _) h) as [t Ht].
    destruct (IH (h ++ [EPostFile url (dir +:+ "\" +:+ file) auth (Returns t)]))
      as (d2 & Hd2 & Hu & Hl).
    { intros f Hf. apply Hup. by right. }
    eexists. split; [|split].
    + eapply bind_Returns; [|exact Hd2].
      unfold bind, post_file_request, call, ret. by rewrite Ht.
    + simpl. by rewrite Hu.
    + simpl. exact Hl.
Qed.

Lemma upload_loop_failed w url auth dir (pre post : list string)
    (file : string) (e : exn) h :
  (forall f, f ∈ pre ->
     forall h, exists t,
       w_post_file w h url (dir +:+ "\" +:+ f) auth = Returns t) ->
  (forall h, w_post_file w h url (dir +:+ "\" +:+ file) auth = Raises e) ->
  exists d,
    for_each (fun file =>
                bind (post_file_request w url (dir +:+ "\" +:+ file) auth)
                     (fun _ => ret tt)) (pre ++ file :: post) h
    = (d, Raises e) /\
    More.uploads d
    = map (fun file => (url, dir +:+ "\" +:+ file, auth)) (pre ++ [file]) /\
    More.listings d = [].
Proof.
  intros Hpre Hfile.
  destruct (upload_loop_answered w url auth dir pre h Hpre)
    as (d1 & Hd1 & Hu & Hl).
  exists (d1 ++ [EPostFile url (dir +:+ "\" +:+ file) auth (Raises e)]).
  split; [|split].
  - rewrite for_each_app, Hd1. simpl.
    unfold bind at 1. unfold bind at 1, post_file_request, call.
    by rewrite Hfile.
  - unfold More.uploads in *. rewrite omap_app, Hu, map_app. reflexivity.
  - unfold More.listings in *. rewrite omap_app, Hl. reflexivity.
Qed.

(** X8: when the directory of a work order exists and every upload is
    answered, [import_attachments] uploads every file of the listing,
    one request per file, in the order of the listing, to the path of
    the file inside the directory; it then lists the directory a second
    time and returns that second listing. *)
Theorem attachments_uploaded_in_listing_order (w : World) (trackit_id : Z)
    (jira_rest_call jira_authorization attachment_folder : string)
    (h : history) (files : list string) :
  let trackit_dir := trackit_dir_of attachment_folder trackit_id in
  let run := import_attachments w trackit_id jira_rest_call jira_authorization
               attachment_folder h in
  w_isdir w h trackit_dir = true ->
  w_listdir w (h ++ [EIsDir trackit_dir true]) trackit_dir = Returns files ->
  (forall h u f a, exists t, w_post_file w h u f a = Returns t) ->
  (forall h, exists l, w_listdir w h trackit_dir = Returns l) ->
  More.uploads (fst run)
  = map (fun file => (jira_rest_call, trackit_dir +:+ "\" +:+ file,
                      jira_authorization)) files /\
  More.listings (fst run) = [trackit_dir; trackit_dir] /\
  exists files',
    snd run = Returns (Some (trackit_id, files')) /\
    last (fst run) = Some (EListDir trackit_dir (Returns files')).
Proof.
  intros dir run Hdir Hls Hup Hls2. unfold run, import_attachments.
  fold dir.
  destruct (upload_loop_answered w jira_rest_call jira_authorization dir files
              ((h ++ [EIsDir dir true]) ++ [EListDir dir (Returns files)]))
    as (d3 & Hd3 & Hu & Hl).
  { intros file _ h'. apply Hup. }
  destruct (Hls2 (((h ++ [EIsDir dir true]) ++ [EListDir dir (Returns files)]) ++ d3))
    as [files' Hfiles'].
  rewrite (bind_Returns _ _ h [EIsDir dir true] true
             ([EListDir dir (Returns files)] ++ d3 ++
              [EListDir dir (Returns files')] ++ [])
             (Returns (Some (trackit_id, files')))).
  - cbn [fst snd]. rewrite app_nil_r. split; [|split].
    + unfold More.uploads in *. rewrite !omap_app, Hu. simpl.
      by rewrite app_nil_r.
    + unfold More.listings in *. rewrite !omap_app, Hl. reflexivity.
    + exists files'. split; [done|].
      rewrite !app_assoc. apply last_snoc.
  - unfold isdir. by rewrite Hdir.
  - cbv beta iota.
    eapply bind_Returns; [unfold listdir, call; by rewrite Hls|].
    eapply bind_Returns; [exact Hd3|].
    eapply bind_Returns; [unfold listdir, call; by rewrite Hfiles'|].
    reflexivity.
Qed.

Lemma attachments_uploaded_in_listing_order_witness :
  More.uploads
    (fst (import_attachments Sample.upload_refused 52204
            "http://jira.example.org/rest/api/2/issue/SUP-101/attachments"
            "Basic abc" "C:\attachments" []))
  = map (fun file =>
           ("http://jira.example.org/rest/api/2/issue/SUP-101/attachments",
            trackit_dir_of "C:\attachments" 52204 +:+ "\" +:+ file, "Basic abc"))
        ["screenshot.png"].
Proof.
  apply (attachments_uploaded_in_listing_order Sample.upload_refused 52204
           "http://jira.example.org/rest/api/2/issue/SUP-101/attachments"
           "Basic abc" "C:\attachments" [] ["screenshot.png"]).
  - reflexivity.
  - reflexivity.
  - intros h u f a. eexists. reflexivity.
  - intros h. eexists. reflexivity.
Defined.

(** X9: an upload that raises ends [import_attachments] with that
    exception: the files before it in the listing have been uploaded,
    the files after it are not, and the directory is not listed again. *)
Theorem first_failed_upload_stops_transfer (w : World) (trackit_id : Z)
    (jira_rest_call jira_authorization attachment_folder : string)
    (h : history) (before after : list string) (file : string) (e : exn) :
  let trackit_dir := trackit_dir_of attachment_folder trackit_id in
  let run := import_attachments w trackit_id jira_rest_call jira_authorization
               attachment_folder h in
  w_isdir w h trackit_dir = true ->
  w_listdir w (h ++ [EIsDir trackit_dir true]) trackit_dir
  = Returns (before ++ file :: after) ->
  (forall f, f ∈ before ->
     forall h, exists t,
       w_post_file w h jira_rest_call (trackit_dir +:+ "\" +:+ f)
                   jira_authorization = Returns t) ->
  (forall h, w_post_file w h jira_rest_call (trackit_dir +:+ "\" +:+ file)
                         jira_authorization = Raises e) ->
  snd run = Raises e /\
  More.uploads (fst run)
  = map (fun file => (jira_rest_call, trackit_dir +:+ "\" +:+ file,
                      jira_authorization)) (before ++ [file]) /\
  More.listings (fst run) = [trackit_dir].
Proof.
  intros dir run Hdir Hls Hpre Hfile. unfold run, import_attachments.
  fold dir.
  destruct (upload_loop_failed w jira_rest_call jira_authorization dir
              before after file e
              ((h ++ [EIsDir dir true]) ++
               [EListDir dir (Returns (before ++ file :: after))]) Hpre Hfile)
    as (d3 & Hd3 & Hu & Hl).
  rewrite (bind_Returns _ _ h [EIsDir dir true] true
             ([EListDir dir (Returns (before ++ file :: after))] ++ d3)
             (Raises e)).
  - simpl. unfold More.uploads, More.listings in *. simpl.
    by rewrite Hu, Hl.
  - unfold isdir. by rewrite Hdir.
  - cbv beta iota.
    eapply bind_Returns; [unfold listdir, call; by rewrite Hls|].
    by apply bind_Raises.
Qed.

Lemma first_failed_upload_stops_transfer_witness :
  snd (import_attachments Sample.upload_failing 52204
         "http://jira.example.org/rest/api/2/issue/SUP-101/attachments"
         "Basic abc" "C:\attachments" [])
  = Raises (OtherError "ConnectionError").
Proof.
  apply (first_failed_upload_stops_transfer Sample.upload_failing 52204
           "http://jira.example.org/rest/api/2/issue/SUP-101/attachments"
           "Basic abc" "C:\attachments" [] [] [] "screenshot.png"
           (OtherError "ConnectionError")).
  - reflexivity.
  - reflexivity.
  - intros f Hf. by apply elem_of_nil in Hf.
  - intros h. reflexivity.
Defined.

(** ** Closing a work order *)

(** X10: what [post_close_request_trackit] does with the answer of
    Track-It!.  An answer whose ["success"] is the string ["false"] is
    logged as a warning that names the work order and the reason, and
    the function returns normally; every other value of ["success"]
    (the JSON value [false] included) is taken for a success and the
    message of the answer is logged; an answer without ["success"]
    raises [KeyError] after the request has been sent. *)
Theorem close_answer_handling (w : World) (trackit_key : json) (workorder_id : Z)
    (jira_link track_it_full_hostname : string) (h : history) (answer : json) :
  let url := close_url track_it_full_hostname workorder_id in
  let text := moved_text jira_link in
  let run := post_close_request_trackit w trackit_key workorder_id jira_link
               track_it_full_hostname h in
  w_close w h url trackit_key text = Returns answer ->
  (forall data reason,
     Json.get "success" answer = Returns (JStr "false") ->
     Json.get "data" answer = Returns data ->
     Json.get "Message" data = Returns (JStr reason) ->
     run = ([EClose url trackit_key text (Returns answer);
             ELog WARNING ("TrackIt workorder " +:+ PyStr.of_int workorder_id +:+
                           " failed to close because: " +:+ reason)],
            Returns tt)) /\
  (forall success data message,
     Json.get "success" answer = Returns success ->
     success <> JStr "false" ->
     Json.get "data" answer = Returns data ->
     Json.get "message" data = Returns message ->
     run = ([EClose url trackit_key text (Returns answer);
             ELog INFO (py_str w message)], Returns tt)) /\
  (forall e,
     Json.get "success" answer = Raises e ->
     run = ([EClose url trackit_key text (Returns answer)], Raises e)).
Proof.
  intros url text run Hclose. unfold run, post_close_request_trackit.
  fold url text. repeat apply conj.
  - intros data reason Hs Hd Hm.
    unfold bind at 1, call at 1. rewrite Hclose. cbv beta.
    rewrite bind_lift, Hs. cbn [Json.eq_str].
    change (String.eqb "false" "false") with true. cbv iota.
    rewrite bind_lift, Hd, bind_lift, Hm, bind_lift. reflexivity.
  - intros success data message Hs Hne Hd Hm.
    unfold bind at 1, call at 1. rewrite Hclose. cbv beta.
    rewrite bind_lift, Hs.
    assert (Json.eq_str success "false" = false) as ->.
    { destruct success as [| | |s| |]; try done. simpl.
      apply String.eqb_neq. congruence. }
    cbv iota. rewrite bind_lift, Hd, bind_lift, Hm. reflexivity.
  - intros e Hs. unfold bind at 1, call at 1. rewrite Hclose. cbv beta.
    rewrite bind_lift, Hs. reflexivity.
Qed.

Lemma close_answer_handling_witness :
  post_close_request_trackit
    (Sample.steady [] JNull (Returns JNull) false [] (Returns ""))
    (JStr "k1") 52204 "http://jira.example.org/browse/SUP-101"
    "trackit.example.org" []
  = ([EClose (close_url "trackit.example.org" 52204) (JStr "k1")
             (moved_text "http://jira.example.org/browse/SUP-101")
             (Returns Sample.close_answer);
      ELog INFO (py_str (Sample.steady [] JNull (Returns JNull) false []
                           (Returns ""))
                        (JStr "Work Order updated successfully"))],
     Returns tt).
Proof.
  apply (proj1 (proj2 (close_answer_handling
                  (Sample.steady [] JNull (Returns JNull) false [] (Returns ""))
                  (JStr "k1") 52204 "http://jira.example.org/browse/SUP-101"
                  "trackit.example.org" [] Sample.close_answer eq_refl))
           (JStr "true")
           (JObj [("message", JStr "Work Order updated successfully")])
           (JStr "Work Order updated successfully"));
    try reflexivity; discriminate.
Defined.

(** ** Submissions that raise [HTTPError] *)

Section HttpErrors.

Context (w : World) (user url auth host server folder : string).

Hypothesis logins_answered :
  forall h u, exists j key, w_login w h u = Returns j /\ More.key_of_login j key.
Hypothesis submissions_refused :
  forall h u data a, exists msg, w_post w h u data a = Raises (HTTPError msg).




End HttpErrors.



(** ** Requests of a work order and its login *)

Section AfterLogin.

Lemma al_app ctx d1 d2 :
  More.after_login ctx (d1 ++ d2)
  <-> More.after_login ctx d1 /\ More.after_login (ctx ++ d1) d2.
Proof.
  revert ctx. induction d1 as [|ev d1 IH]; intros ctx; simpl.
  - rewrite app_nil_r. tauto.
  - rewrite IH, <- app_assoc. simpl. tauto.
Qed.

Lemma al_quiet ctx d :
  Forall (fun ev => negb (More.needs_login ev) = true) d ->
  More.after_login ctx d.
Proof.
  revert ctx. induction d as [|ev d IH]; intros ctx Hd; simpl; [done|].
  apply Forall_cons in Hd as [Hev Hd]. split; [|by apply IH].
  intros Hn. rewrite Hn in Hev. discriminate Hev.
Qed.

Lemma al_emits {A} (m : M A) ctx h :
  Trace.emits_only (fun ev => negb (More.needs_login ev)) m ->
  More.after_login ctx (fst (m h)).
Proof. intros Hm. apply al_quiet, Hm. Qed.

Lemma al_bind {A B} (m : M A) (k : A -> M B) ctx h :
  More.after_login ctx (fst (m h)) ->
  (forall d1 a, m h = (d1, Returns a) ->
                More.after_login (ctx ++ d1) (fst (k a (h ++ d1)))) ->
  More.after_login ctx (fst (bind m k h)).
Proof.
  intros Hm Hk. rewrite fst_bind.
  destruct (m h) as [d1 [a|e]] eqn:E; simpl in *; [|done].
  apply al_app. split; [done|]. by apply Hk.
Qed.

Lemma al_split d pre ev post :
  More.after_login [] d -> d = pre ++ ev :: post ->
  More.needs_login ev = true ->
  exists ev' : event, ev' ∈ pre /\ More.logged_in ev ev'.
Proof.
  intros Hd -> Hn. apply al_app in Hd as [_ [Hev _]]. by apply Hev.
Qed.

(** What a login that returns has appended. *)
Lemma login_run w user host h d tk :
  create_trackit_key w user host h = (d, Returns tk) ->
  exists j, d = [ELogin (login_url user host) (Returns j)] /\
            More.key_of_login j tk.
Proof.
  unfold create_trackit_key, bind at 1, call at 1.
  destruct (w_login w h (login_url user host)) as [j|e]; cbv beta;
    [|intros H; inversion H].
  rewrite bind_lift. unfold lift.
  destruct (Json.get "data" j) as [data|e] eqn:Hd; [|intros H; inversion H].
  destruct (Json.get "apiKey" data) as [key|e] eqn:Hk; intros H; inversion H.
  subst. exists j. split; [reflexivity|]. by exists data.
Qed.

Ltac login_in_context Hk :=
  match type of Hk with
  | More.key_of_login ?j _ =>
      match goal with
      | |- context [ELogin ?u (Returns j)] =>
          exists u, j; split; [|exact Hk];
          rewrite !elem_of_app, !elem_of_cons; tauto
      end
  end.

Lemma al_post ctx url data auth r :
  (exists tk, More.has_login ctx tk) ->
  More.after_login ctx [EPost url data auth r].
Proof.
  intros (tk & u & j & Hin & Hk). simpl. split; [|done]. intros _.
  exists (ELogin u (Returns j)). split; [done|].
  exists u, j, tk. repeat split; try done; intros; discriminate.
Qed.

Lemma al_addnote w tk id link host ctx h :
  More.has_login ctx tk ->
  More.after_login ctx (fst (post_addnote_request_trackit w tk id link host h)).
Proof.
  intros (u & j & Hin & Hk). simpl. split; [|done]. intros _.
  exists (ELogin u (Returns j)). split; [done|].
  exists u, j, tk. repeat split; try done; intros; try discriminate.
  congruence.
Qed.

Lemma al_close w tk id link host ctx h :
  More.has_login ctx tk ->
  More.after_login ctx (fst (post_close_request_trackit w tk id link host h)).
Proof.
  intros (u & j & Hin & Hk). unfold post_close_request_trackit.
  apply al_bind.
  - simpl. split; [|done]. intros _.
    exists (ELogin u (Returns j)). split; [done|].
    exists u, j, tk. repeat split; try done; intros; try discriminate.
    congruence.
  - intros d1 response _. apply al_emits.
    apply eo_bind; [apply eo_lift|]. intros success.
    unfold logging.
    destruct (Json.eq_str success "false");
      repeat (apply eo_bind; [apply eo_lift|]; intros ?); by apply eo_emit.
Qed.

Lemma al_migrate_one w user url auth host server folder data h :
  More.after_login []
    (fst (migrate_one w user url auth host server folder data h)).
Proof.
  unfold migrate_one.
  apply al_bind; [apply al_emits; emits_all|]. intros d1 [] _.
  apply al_bind; [apply al_emits; emits_all|]. intros d2 [] _.
  apply al_bind; [by apply al_emits, eo_create_trackit_key|]. intros d3 tk H3.
  apply login_run in H3 as (j & -> & Hk).
  apply al_bind.
  { rewrite try_post_run.
    destruct (w_post w _ url data auth) as [response|[]]; simpl fst;
      try (apply (al_post _ url data auth); exists tk; login_in_context Hk).
    apply (al_app _ [_] [_]). split.
    - apply (al_post _ url data auth). exists tk. login_in_context Hk.
    - apply al_quiet. by repeat constructor. }
  intros d4 posted H4.
  destruct posted as [response|]; [|done].
  apply al_bind; [apply al_emits; emits_all|]. intros d5 key H5. run_inv H5.
  apply al_bind; [apply al_emits; emits_all|]. intros d6 [] _.
  apply al_bind; [apply al_emits; emits_all|]. intros d7 [] _.
  apply al_bind; [by apply al_emits, eo_import_attachments|]. intros d8 att _.
  apply al_bind; [apply al_addnote; login_in_context Hk|].
  intros d9 [] _.
  apply al_close. login_in_context Hk.
Qed.

Lemma al_reconcile_one w user auth host server keys h :
  More.after_login [] (fst (reconcile_one w user auth host server keys h)).
Proof.
  unfold reconcile_one.
  apply al_bind; [by apply al_emits, eo_create_trackit_key|]. intros d1 tk H1.
  apply login_run in H1 as (j & -> & Hk).
  apply al_bind; [apply al_emits; emits_all|]. intros d2 found H2.
  apply al_bind; [apply al_emits; emits_all|]. intros d3 issues H3.
  apply al_bind; [apply al_emits; emits_all|]. intros d4 issue H4.
  apply al_bind; [apply al_emits; emits_all|]. intros d5 key H5.
  apply al_bind; [apply al_emits; emits_all|]. intros d6 key' H6.
  apply al_bind; [apply al_addnote; login_in_context Hk|].
  intros d7 [] _.
  apply al_close. login_in_context Hk.
Qed.

End AfterLogin.

(** X12: a work order is handled with its own login.  Among the events
    of one work order, whether it is migrated or only closed, every
    submission to JIRA, every note and every close request comes after
    a login of that work order that returned an API key, and the note
    and the close request carry that key. *)
Theorem requests_follow_own_login (w : World)
    (trackit_api_username jira_rest_call_post jira_authorization
     track_it_full_hostname jira_server_address attachment_folder : string)
    (h : history) (pre post : list event) (ev : event) :
  More.needs_login ev = true ->
  (forall data,
     fst (migrate_one w trackit_api_username jira_rest_call_post
            jira_authorization track_it_full_hostname jira_server_address
            attachment_folder data h) = pre ++ ev :: post ->
     exists ev' : event, ev' ∈ pre /\ More.logged_in ev ev') /\
  (forall keys,
     fst (reconcile_one w trackit_api_username jira_authorization
            track_it_full_hostname jira_server_address keys h)
     = pre ++ ev :: post ->
     exists ev' : event, ev' ∈ pre /\ More.logged_in ev ev').
Proof.
  intros Hn. split.
  - intros data Hrun. eapply al_split; [apply al_migrate_one|exact Hrun|exact Hn].
  - intros keys Hrun.
    eapply al_split; [apply al_reconcile_one|exact Hrun|exact Hn].
Qed.

Lemma requests_follow_own_login_witness :
  exists ev' : event,
    ev' ∈ take 8 (fst (Sample.migrate Sample.migrating
                         (row_to_json_body "SUP" (Sample.work_order 52204 "High"))))
    /\ More.logged_in
         (EClose (close_url "trackit.example.org" 52204) (JStr "k1")
                 (moved_text "http://jira.example.org/browse/SUP-101")
                 (Returns Sample.close_answer)) ev'.
Proof.
  apply (proj1 (requests_follow_own_login Sample.migrating "mtam"
                  "http://jira.example.org/rest/api/2/issue/" "Basic abc"
                  "trackit.example.org" "jira.example.org" "C:\attachments" []
                  (take 8 (fst (Sample.migrate Sample.migrating
                     (row_to_json_body "SUP" (Sample.work_order 52204 "High")))))
                  (drop 9 (fst (Sample.migrate Sample.migrating
                     (row_to_json_body "SUP" (Sample.work_order 52204 "High")))))
                  (EClose (close_url "trackit.example.org" 52204) (JStr "k1")
                          (moved_text "http://jira.example.org/browse/SUP-101")
                          (Returns Sample.close_answer))
                  eq_refl)
          (row_to_json_body "SUP" (Sample.work_order 52204 "High"))).
  vm_compute. reflexivity.
Defined.

(** ** The place of the due date sweep in a run *)

Lemma scl_before {A B} url auth (m : M A) (k : A -> M B) h :
  Trace.emits_only More.not_put m ->
  (forall a h', More.sweep_comes_last url auth (fst (k a h'))) ->
  More.sweep_comes_last url auth (fst (bind m k h)).
Proof.
  intros Hm Hk. rewrite fst_bind. specialize (Hm h).
  destruct (m h) as [d1 [a|e]]; simpl in Hm.
  - destruct (Hk a (h ++ d1)) as (e1 & e2 & -> & H1 & H2).
    exists (d1 ++ e1), e2. split; [by rewrite app_assoc|].
    split; [|done]. apply Forall_app. by split.
  - exists d1, []. split; [by rewrite app_nil_r|]. split; [done|by left].
Qed.

Lemma sweep_events_of_sweep w auth key server dm cfg h :
  More.sweep_events (get_empty_duedates_url key server) auth
    (fst (duedate_sweep w auth key server dm cfg h)).
Proof.
  right.
  unfold duedate_sweep, get_request. rewrite fst_bind.
  unfold call at 1.
  destruct (w_get w h (get_empty_duedates_url key server) auth) as [j|e].
  - eexists _, _. split; [reflexivity|].
    assert (forall j',
      Trace.emits_only Trace.is_put
        (bind (lift (Json.get "issues" j')) (fun issues =>
         bind (lift (Json.iter issues)) (fun tickets =>
         bind (lift (Outcome.traverse (srq_of_ticket w) tickets))
              (fun srq_ids_empty =>
                 for_each (update_duedate w dm cfg) srq_ids_empty))))) as Hrest
      by (intros j'; emits_all).
    apply Hrest.
  - eexists _, []. split; [reflexivity|constructor].
Qed.

Lemma scl_sweep w auth key server dm cfg h :
  More.sweep_comes_last (get_empty_duedates_url key server) auth
    (fst (duedate_sweep w auth key server dm cfg h)).
Proof.
  exists [], (fst (duedate_sweep w auth key server dm cfg h)).
  split; [done|]. split; [constructor|]. apply sweep_events_of_sweep.
Qed.

Lemma eo_migrate_not_put w user url auth host server folder x :
  Trace.emits_only More.not_put
    (migrate_one w user url auth host server folder x).
Proof.
  unfold migrate_one.
  apply eo_bind; [emits_all|]. intros _.
  apply eo_bind; [emits_all|]. intros _.
  apply eo_bind; [by apply eo_create_trackit_key|]. intros tk.
  apply eo_bind; [emits_all|].
  intros [response|]; [|apply eo_ret].
  apply eo_bind; [emits_all|]. intros key.
  apply eo_bind; [emits_all|]. intros _.
  apply eo_bind; [emits_all|]. intros _.
  apply eo_bind; [by apply eo_import_attachments|]. intros _.
  apply eo_bind; [emits_all|]. intros _.
  by apply eo_post_close.
Qed.

Lemma eo_reconcile_not_put w user auth host server keys :
  Trace.emits_only More.not_put (reconcile_one w user auth host server keys).
Proof.
  unfold reconcile_one.
  apply eo_bind; [by apply eo_create_trackit_key|]. intros tk.
  do 5 (apply eo_bind; [emits_all|]; intros ?).
  apply eo_bind; [emits_all|]. intros _.
  by apply eo_post_close.
Qed.

(** X13: the due date sweep comes last.  The events of every run of
    [mainloop] are events without a due date update, followed by the
    events of one sweep: its search for the issues without a due date
    and, after it, due date updates only.  So once the first due date
    has been sent, the run makes no login, no submission, no upload, no
    note and no close request, and writes no log entry. *)
Theorem sweep_is_the_last_phase (w : World)
    (trackit_api_username jira_rest_call_post jira_rest_call_get_trackit_id
     jira_authorization jira_key track_it_full_hostname jira_server_address
     sql attachment_folder : string)
    (duedate_map : gmap string Z) (config : gmap string json) (h : history) :
  More.sweep_comes_last
    (get_empty_duedates_url jira_key jira_server_address) jira_authorization
    (fst (mainloop w trackit_api_username jira_rest_call_post
            jira_rest_call_get_trackit_id jira_authorization jira_key
            track_it_full_hostname jira_server_address sql attachment_folder
            duedate_map config h)).
Proof.
  unfold mainloop.
  apply scl_before; [emits_all|]. intros out h1.
  apply scl_before; [emits_all|]. intros stamp h2.
  apply scl_before; [emits_all|]. intros [] h3.
  apply scl_before; [emits_all|]. intros ids h4.
  apply scl_before.
  { destruct (0 <? _); [|apply eo_ret].
    apply eo_for_each. intros x. apply eo_migrate_not_put. }
  intros [] h5.
  apply scl_before.
  { destruct (0 <? _); [|apply eo_ret].
    apply eo_bind; [emits_all|]. intros _.
    apply eo_for_each. intros x. apply eo_reconcile_not_put. }
  intros [] h6. apply scl_sweep.
Qed.

(** ** The issues of the due date sweep *)

Lemma traverse_failure {A B} (f : A -> outcome B) (l : list A) (bad : A) e :
  bad ∈ l -> f bad = Raises e -> exists e', Outcome.traverse f l = Raises e'.
Proof.
  induction l as [|x l IH]; intros Hin Hbad.
  - by apply elem_of_nil in Hin.
  - simpl. apply elem_of_cons in Hin as [<-|Hin].
    + rewrite Hbad. by exists e.
    + destruct (f x) as [y|e1]; [|by exists e1]. simpl.
      destruct (IH Hin Hbad) as [e' ->]. by exists e'.
Qed.

(** X14: the issues are read before any update is sent.  When one issue
    of the search answer cannot be read (its key, priority name or
    creation day raises), the sweep ends with an exception right after
    the search: no due date is sent, not even for the issues before the
    unreadable one. *)
Theorem unreadable_issue_blocks_every_update (w : World)
    (jira_authorization jira_key jira_server_address : string)
    (duedate_map : gmap string Z) (config : gmap string json) (h : history)
    (duedates_response ticket : json) (tickets : list json) (e : exn) :
  w_get w h (get_empty_duedates_url jira_key jira_server_address)
        jira_authorization = Returns duedates_response ->
  Json.get "issues" duedates_response = Returns (JArr tickets) ->
  ticket ∈ tickets ->
  srq_of_ticket w ticket = Raises e ->
  exists e',
    duedate_sweep w jira_authorization jira_key jira_server_address
                  duedate_map config h
    = ([EGet (get_empty_duedates_url jira_key jira_server_address)
             jira_authorization (Returns duedates_response)],
       Raises e').
Proof.
  intros Hget Hissues Hin Hbad.
  destruct (traverse_failure (srq_of_ticket w) tickets ticket e Hin Hbad)
    as [e' He'].
  exists e'. rewrite duedate_sweep_run. cbv zeta. rewrite Hget.
  unfold srq_ids_empty_of. cbn [Outcome.bind]. rewrite Hissues.
  cbn [Outcome.bind Json.iter]. by rewrite He'.
Qed.

Lemma unreadable_issue_blocks_every_update_witness :
  exists e',
    More.sweep More.unprioritising
    = ([EGet (get_empty_duedates_url "SUP" "jira.example.org") "Basic abc"
             (Returns More.unprioritised)],
       Raises e').
Proof.
  apply (unreadable_issue_blocks_every_update More.unprioritising "Basic abc"
           "SUP" "jira.example.org" Sample.duedate_map Sample.config []
           More.unprioritised
           (JObj [("key", JStr "SUP-2");
                  ("fields",
                   JObj [("priority", JNull);
                         ("created", JStr "2024-01-06T11:00:00.000+0000")])])
           [Sample.ticket "SUP-1" "High" "2024-01-05T09:30:00.000+0000";
            JObj [("key", JStr "SUP-2");
                  ("fields",
                   JObj [("priority", JNull);
                         ("created", JStr "2024-01-06T11:00:00.000+0000")])]]
           TypeError).
  - reflexivity.
  - reflexivity.
  - apply (list_elem_of_lookup_2 _ 1%nat). reflexivity.
  - reflexivity.
Defined.

Lemma for_each_update_answered w dm cfg
    (l : list (json * json * Z)) (reqs : list (string * string)) h :
  (forall h u a d, w_put w h u a d = Returns tt) ->
  Outcome.traverse (duedate_request w dm cfg) l = Returns reqs ->
  for_each (update_duedate w dm cfg) l h
  = (map (fun req => EPut (fst req) "Basic YXBpOlBhc3N3b3Jk" (snd req)
                          (Returns tt)) reqs,
     Returns tt).
Proof.
  intros Hput. revert reqs h. induction l as [|v l IH]; intros reqs h Ht.
  - simpl in Ht. inversion Ht. reflexivity.
  - simpl in Ht.
    destruct (duedate_request w dm cfg v) as [[url duedate]|e] eqn:Hv; [|done].
    simpl in Ht.
    destruct (Outcome.traverse (duedate_request w dm cfg) l) as [reqs'|e] eqn:Hl;
      [|done].
    simpl in Ht. inversion Ht; subst. simpl.
    eapply (bind_Returns _ _ h [_] tt).
    + rewrite update_duedate_request, Hv. cbv zeta. by rewrite Hput.
    + by apply IH.
Qed.

(** X15: a sweep whose issues can all be read and all have a due date
    sends one update per issue, in the order of the search answer.
    When the search answers, every one of its issues yields a request
    and every update is answered, the sweep returns normally and its
    updates are exactly the requests of the issues, in order. *)
Theorem sweep_updates_every_issue_in_order (w : World)
    (jira_authorization jira_key jira_server_address : string)
    (duedate_map : gmap string Z) (config : gmap string json) (h : history)
    (srq_ids_empty : list (json * json * Z)) (reqs : list (string * string)) :
  srq_ids_empty_of w
    (w_get w h (get_empty_duedates_url jira_key jira_server_address)
           jira_authorization) = Returns srq_ids_empty ->
  Outcome.traverse (duedate_request w duedate_map config) srq_ids_empty
  = Returns reqs ->
  (forall h u a d, w_put w h u a d = Returns tt) ->
  let run := duedate_sweep w jira_authorization jira_key jira_server_address
                           duedate_map config h in
  snd run = Returns tt /\
  Trace.put_requests (fst run)
  = map (fun req => (fst req, "Basic YXBpOlBhc3N3b3Jk", snd req)) reqs /\
  length (fst run) = S (length srq_ids_empty).
Proof.
  intros Hsrq Hreqs Hput run. unfold run.
  rewrite duedate_sweep_run. cbv zeta. rewrite Hsrq.
  rewrite (for_each_update_answered w duedate_map config srq_ids_empty reqs _
             Hput Hreqs).
  cbn [fst snd]. split; [done|]. split.
  - simpl. clear. induction reqs as [|req reqs IH]; [done|]. simpl. by rewrite IH.
  - simpl. rewrite length_map. f_equal.
    clear -Hreqs. revert reqs Hreqs.
    induction srq_ids_empty as [|v l IH]; intros reqs Ht; simpl in Ht.
    + by inversion Ht.
    + destruct (duedate_request w duedate_map config v); [|done]. simpl in Ht.
      destruct (Outcome.traverse _ l) as [reqs'|]; [|done].
      simpl in Ht. inversion Ht. simpl. f_equal. by apply IH.
Qed.

Lemma sweep_updates_every_issue_in_order_witness :
  snd (More.sweep Sample.sweeping) = Returns tt /\
  Trace.put_requests (fst (More.sweep Sample.sweeping))
  = [("http://jira.example.org/rest/api/2/issue/SUP-1",
      "Basic YXBpOlBhc3N3b3Jk", "2024-01-08");
     ("http://jira.example.org/rest/api/2/issue/SUP-2",
      "Basic YXBpOlBhc3N3b3Jk", "2024-01-08")].
Proof.
  pose proof (sweep_updates_every_issue_in_order Sample.sweeping "Basic abc"
                "SUP" "jira.example.org" Sample.duedate_map Sample.config []
                [(JStr "SUP-1", JStr "High", 19727);
                 (JStr "SUP-2", JStr "High", 19728)]
                [("http://jira.example.org/rest/api/2/issue/SUP-1", "2024-01-08");
                 ("http://jira.example.org/rest/api/2/issue/SUP-2", "2024-01-08")]
                eq_refl eq_refl (fun _ _ _ _ => eq_refl)) as (H1 & H2 & _).
  split; [exact H1|exact H2].
Defined.

(** ** The due date *)

Lemma bday_shift_weekday z n : Date.weekday (Date.bday_shift z n) < 5.
Proof.
  rewrite DateFacts.bday_shift_delta, DateFacts.weekday_add.
  pose proof (DateFacts.weekday_range z) as Hw.
  generalize dependent (Date.weekday z). intros wd Hw.
  unfold delta, Date.adjust_ndays. split_tests; euclid.
Qed.

Lemma bday_shift_bounds z n :
  0 <= n ->
  z + n <= Date.bday_shift z n <= z + n + 2 * (n / 5) + 2.
Proof.
  intros Hn. rewrite DateFacts.bday_shift_delta.
  pose proof (DateFacts.weekday_range z) as Hw.
  generalize dependent (Date.weekday z). intros wd Hw.
  unfold delta, Date.adjust_ndays. split_tests; euclid.
Qed.

(** X16: a due date is a business day.  Whatever the mapping gives for
    the priority, also 0 or a negative number, the due date that is
    computed for an issue is a day from Monday to Friday within the
    range of a timestamp; for an offset [n] that is not negative it is
    at least [n] calendar days after the creation day of the issue and
    at most [n + 2 * (n / 5) + 2]. *)
Theorem due_date_is_a_business_day (w : World) (duedate_map : gmap string Z)
    (key name : json) (created : Z) (duedate : string) :
  duedate_of w duedate_map (key, name, created) = Returns duedate ->
  exists n t,
    duedate_map !! py_str w name = Some n /\
    duedate = Date.to_str10 t /\
    Date.is_business_day t = true /\
    Date.in_range t = true /\
    (0 <= n -> created + n <= t <= created + n + 2 * (n / 5) + 2).
Proof.
  unfold duedate_of, dict_get, Date.add_bday.
  destruct (duedate_map !! py_str w name) as [n|] eqn:Hn; [|done].
  cbn [Outcome.bind].
  destruct (Date.in_range (Date.bday_shift created n)) eqn:Hr; [|done].
  cbn [Outcome.bind]. intros [= <-].
  exists n, (Date.bday_shift created n). repeat split; try done.
  - unfold Date.is_business_day. apply Z.ltb_lt, bday_shift_weekday.
  - by apply bday_shift_bounds.
  - by apply bday_shift_bounds.
Qed.

Lemma due_date_is_a_business_day_witness :
  exists n t,
    Sample.duedate_map !! py_str Sample.sweeping (JStr "High") = Some n /\
    "2024-01-08" = Date.to_str10 t /\
    Date.is_business_day t = true /\
    Date.in_range t = true /\
    (0 <= n -> 19727 + n <= t <= 19727 + n + 2 * (n / 5) + 2).
Proof.
  apply (due_date_is_a_business_day Sample.sweeping Sample.duedate_map
           (JStr "SUP-1") (JStr "High") 19727 "2024-01-08").
  vm_compute. reflexivity.
Defined.

(** ** Addresses *)

(** X17: the addresses tell the work orders apart.  For two different
    ids, the close address, the note address, the search address of the
    reconciliation and the attachment directory all differ. *)
Theorem addresses_tell_work_orders_apart
    (track_it_full_hostname jira_server_address attachment_folder : string)
    (id id' : Z) :
  id <> id' ->
  close_url track_it_full_hostname id <> close_url track_it_full_hostname id' /\
  addnote_url track_it_full_hostname id
  <> addnote_url track_it_full_hostname id' /\
  jira_trackit_id_url jira_server_address id
  <> jira_trackit_id_url jira_server_address id' /\
  trackit_dir_of attachment_folder id <> trackit_dir_of attachment_folder id'.
Proof.
  intros Hne. unfold close_url, addnote_url, jira_trackit_id_url,
    trackit_dir_of, PyStr.of_int.
  repeat split; intros H; apply Hne;
    repeat apply string_app_inv_head in H; by apply (inj pretty) in H.
Qed.

Lemma addresses_tell_work_orders_apart_witness :
  close_url "trackit.example.org" 52204 <> close_url "trackit.example.org" 52205.
Proof.
  apply (addresses_tell_work_orders_apart "trackit.example.org"
           "jira.example.org" "C:\attachments" 52204 52205).
  lia.
Defined.

(** ** Work orders that JIRA already holds *)

(** X18: a search without a result ends the run.  When the search for
    the issue of a work order that JIRA is said to hold answers with an
    empty list of issues, the loop over these work orders ends with an
    [IndexError] right after the search: the work order gets no note and
    is not closed, and the work orders after it are not handled. *)
Theorem empty_search_ends_reconciliation (w : World)
    (trackit_api_username jira_authorization track_it_full_hostname
     jira_server_address : string)
    (keys : Z) (rest : list Z) (h : history) (j trackit_key found : json) :
  w_login w h (login_url trackit_api_username track_it_full_hostname)
  = Returns j ->
  More.key_of_login j trackit_key ->
  w_get w (h ++ [ELogin (login_url trackit_api_username track_it_full_hostname)
                        (Returns j)])
        (jira_trackit_id_url jira_server_address keys) jira_authorization
  = Returns found ->
  Json.get "issues" found = Returns (JArr []) ->
  for_each (reconcile_one w trackit_api_username jira_authorization
              track_it_full_hostname jira_server_address) (keys :: rest) h
  = ([ELogin (login_url trackit_api_username track_it_full_hostname)
             (Returns j);
      EGet (jira_trackit_id_url jira_server_address keys) jira_authorization
           (Returns found)],
     Raises IndexError).
Proof.
  intros Hlogin (data & Hd & Hk) Hget Hissues.
  cbn [for_each]. apply bind_Raises. unfold reconcile_one.
  eapply (bind_Returns _ _ h [_] trackit_key).
  { unfold create_trackit_key, bind at 1, call at 1. rewrite Hlogin. cbv beta.
    rewrite bind_lift, Hd. unfold lift. by rewrite Hk. }
  unfold get_request, bind at 1, call at 1. rewrite Hget. cbv beta.
  rewrite bind_lift, Hissues. cbn [Outcome.bind].
  reflexivity.
Qed.

Lemma empty_search_ends_reconciliation_witness :
  for_each (reconcile_one Sample.migrating "mtam" "Basic abc"
              "trackit.example.org" "jira.example.org") [52204; 52205] []
  = ([ELogin (login_url "mtam" "trackit.example.org")
             (Returns Sample.login_answer);
      EGet (jira_trackit_id_url "jira.example.org" 52204) "Basic abc"
           (Returns (JObj [("issues", JArr [])]))],
     Raises IndexError).
Proof.
  apply (empty_search_ends_reconciliation Sample.migrating "mtam" "Basic abc"
           "trackit.example.org" "jira.example.org" 52204 [52205] []
           Sample.login_answer (JStr "k1") (JObj [("issues", JArr [])])).
  - reflexivity.
  - exists (JObj [("apiKey", JStr "k1")]). split; reflexivity.
  - reflexivity.
  - reflexivity.
Defined.

(** ** Submissions over a run *)

Lemma posted_app d1 d2 :
  Trace.posted_ids (d1 ++ d2) = Trace.posted_ids d1 ++ Trace.posted_ids d2.
Proof. apply omap_app. Qed.

Lemma posted_quiet d :
  Forall (fun ev => Trace.not_post ev = true) d -> Trace.posted_ids d = [].
Proof.
  induction 1 as [|ev d Hev _ IH]; [done|].
  destruct ev; try discriminate Hev; exact IH.
Qed.

Lemma login_not_post w user host h d r :
  create_trackit_key w user host h = (d, r) ->
  Forall (fun ev => Trace.not_post ev = true) d.
Proof.
  intros H.
  pose proof (eo_create_trackit_key Trace.not_post w user host
                (fun _ _ => eq_refl) h) as Hp.
  by rewrite H in Hp.
Qed.

Lemma bind_inv_Returns {A B} (m : M A) (k : A -> M B) h d b :
  bind m k h = (d, Returns b) ->
  exists d1 a d2,
    m h = (d1, Returns a) /\ k a (h ++ d1) = (d2, Returns b) /\ d = d1 ++ d2.
Proof.
  unfold bind. destruct (m h) as [d1 [a|e]]; [|intros H; inversion H].
  destruct (k a (h ++ d1)) as [d2 r] eqn:Hk. intros H. inversion H; subst.
  by exists d1, a, d2.
Qed.

Lemma posted_ids_migrate_one w user url auth host server folder x h :
  Trace.posted_ids (fst (migrate_one w user url auth host server folder x h)) = []
  \/ Trace.posted_ids (fst (migrate_one w user url auth host server folder x h))
     = [customfield_10411 x].
Proof.
  unfold migrate_one.
  walk d1 a1 H1; [run_inv H1|]. run_inv H1.
  walk d2 a2 H2; [run_inv H2|]. run_inv H2.
  walk d3 tk H3; apply login_not_post, posted_quiet in H3 as Hd3.
  { left. by rewrite !posted_app, Hd3. }
  walk d4 posted H4; rewrite try_post_run in H4;
    destruct (w_post w _ url x auth) as [response|err] eqn:Hpost.
  - inversion H4.
  - right. destruct err; inversion H4; subst; rewrite !posted_app, Hd3; reflexivity.
  - inversion H4; subst. clear H4. right.
    rewrite !posted_app, Hd3.
    walk d5 key H5.
    + run_inv H5. reflexivity.
    + run_inv H5. rewrite !posted_app.
      rewrite (posted_quiet (fst _)); [reflexivity|].
      apply not_post_after_creation.
  - destruct err; inversion H4; subst. right.
    rewrite !posted_app, Hd3. reflexivity.
Qed.

Lemma migrate_one_returned_posted w user url auth host server folder x h d :
  migrate_one w user url auth host server folder x h = (d, Returns tt) ->
  Trace.posted_ids d = [customfield_10411 x].
Proof.
  intros Hrun.
  destruct (posted_ids_migrate_one w user url auth host server folder x h)
    as [Hnone|Hone]; rewrite Hrun in *; simpl in *; [|done].
  exfalso. unfold migrate_one in Hrun.
  apply bind_inv_Returns in Hrun as (d1 & [] & d1' & _ & Hrun & ->).
  apply bind_inv_Returns in Hrun as (d2 & [] & d2' & _ & Hrun & ->).
  apply bind_inv_Returns in Hrun as (d3 & tk & d3' & _ & Hrun & ->).
  apply bind_inv_Returns in Hrun as (d4 & posted & d4' & H4 & _ & ->).
  rewrite try_post_run in H4. rewrite !posted_app in Hnone.
  destruct (w_post w _ url x auth) as [response|[]]; inversion H4; subst;
    simpl in Hnone;
    repeat (apply app_eq_nil in Hnone as [? Hnone]); discriminate.
Qed.

Lemma posted_ids_migrate_loop w user url auth host server folder l h :
  Trace.posted_ids
    (fst (for_each (migrate_one w user url auth host server folder) l h))
  `prefix_of` map customfield_10411 l.
Proof.
  revert h. induction l as [|x l IH]; intros h; simpl.
  - by exists [].
  - rewrite fst_bind.
    pose proof (posted_ids_migrate_one w user url auth host server folder x h)
      as Hx.
    pose proof (migrate_one_returned_posted w user url auth host server folder
                  x h) as Hr.
    destruct (migrate_one _ _ _ _ _ _ _ x h) as [d1 [[]|e]]; simpl in Hx.
    + rewrite posted_app, (Hr d1 eq_refl). simpl.
      apply prefix_cons, IH.
    + destruct Hx as [->| ->].
      * apply prefix_nil.
      * apply prefix_cons, prefix_nil.
Qed.

Lemma eo_reconcile_not_post w user auth host server keys :
  Trace.emits_only Trace.not_post (reconcile_one w user auth host server keys).
Proof.
  unfold reconcile_one.
  apply eo_bind; [by apply eo_create_trackit_key|]. intros tk.
  do 5 (apply eo_bind; [emits_all|]; intros ?).
  apply eo_bind; [emits_all|]. intros _.
  by apply eo_post_close.
Qed.

Lemma posted_before {A B} (m : M A) (k : A -> M B) h (P : list Z -> Prop) :
  Trace.emits_only Trace.not_post m ->
  P [] ->
  (forall d1 a, m h = (d1, Returns a) ->
                P (Trace.posted_ids (fst (k a (h ++ d1))))) ->
  P (Trace.posted_ids (fst (bind m k h))).
Proof.
  intros Hm Hnil Hk. rewrite fst_bind. specialize (Hm h).
  destruct (m h) as [d1 [a|e]] eqn:E; simpl in Hm.
  - rewrite posted_app, (posted_quiet d1 Hm). by apply Hk.
  - by rewrite (posted_quiet d1 Hm).
Qed.

Lemma posted_after {A B} (m : M A) (k : A -> M B) h :
  (forall a, Trace.emits_only Trace.not_post (k a)) ->
  Trace.posted_ids (fst (bind m k h)) = Trace.posted_ids (fst (m h)).
Proof.
  intros Hk. rewrite fst_bind.
  destruct (m h) as [d1 [a|e]]; [|done]. simpl.
  by rewrite posted_app, (posted_quiet _ (Hk a (h ++ d1))), app_nil_r.
Qed.

Lemma get_database_cursor_run w sql key h :
  get_database_cursor w sql key h
  = ([EFetchAll sql (w_fetchall w h sql)],
     match w_fetchall w h sql with
     | Returns rows => Returns (map_rows key rows)
     | Raises e => Raises e
     end).
Proof.
  unfold get_database_cursor, bind, call, ret.
  by destruct (w_fetchall w h sql).
Qed.

(** X19: work orders are submitted in the order of the database, each at
    most once.  The ids submitted by the loop over the work orders to
    migrate are a prefix of the ids of its list: no work order is
    submitted twice or out of order, and none is submitted after one
    that was left out.  Over a whole run, the ids submitted to JIRA are
    a sublist of the work order numbers that the database returned. *)
Theorem submissions_follow_the_database (w : World)
    (trackit_api_username jira_rest_call_post jira_rest_call_get_trackit_id
     jira_authorization jira_key track_it_full_hostname jira_server_address
     sql attachment_folder : string)
    (duedate_map : gmap string Z) (config : gmap string json) (h : history)
    (rows : list row) :
  w_fetchall w h sql = Returns rows ->
  (forall l h',
     Trace.posted_ids
       (fst (for_each (migrate_one w trackit_api_username jira_rest_call_post
                         jira_authorization track_it_full_hostname
                         jira_server_address attachment_folder) l h'))
     `prefix_of` map customfield_10411 l) /\
  Trace.posted_ids
    (fst (mainloop w trackit_api_username jira_rest_call_post
            jira_rest_call_get_trackit_id jira_authorization jira_key
            track_it_full_hostname jira_server_address sql attachment_folder
            duedate_map config h))
  `sublist_of` map workorder_number rows.
Proof.
  intros Hfetch. split; [intros; apply posted_ids_migrate_loop|].
  unfold mainloop.
  apply (posted_before _ _ _ (fun l => l `sublist_of` _));
    [emits_all|apply sublist_nil_l|]. intros d1 out H1.
  rewrite get_database_cursor_run, Hfetch in H1. inversion H1; subst. clear H1.
  apply (posted_before _ _ _ (fun l => l `sublist_of` _));
    [emits_all|apply sublist_nil_l|]. intros d2 stamp _.
  apply (posted_before _ _ _ (fun l => l `sublist_of` _));
    [emits_all|apply sublist_nil_l|]. intros d3 [] _.
  apply (posted_before _ _ _ (fun l => l `sublist_of` _));
    [emits_all|apply sublist_nil_l|]. intros d4 ids _.
  rewrite posted_after.
  - destruct (0 <? _); [|apply sublist_nil_l].
    match goal with |- Trace.posted_ids (fst (for_each ?b ?l ?hh)) `sublist_of` _ =>
      destruct (posted_ids_migrate_loop w trackit_api_username
                  jira_rest_call_post jira_authorization track_it_full_hostname
                  jira_server_address attachment_folder l hh) as [k Hk]
    end.
    etrans; [apply (sublist_inserts_r k); reflexivity|]. rewrite <- Hk.
    rewrite <- (map_rows_ids jira_key rows).
    apply (fmap_sublist customfield_10411). unfold valid_of. apply sublist_filter.
  - intros []. apply eo_bind; [|intros; emits_all].
    destruct (0 <? _); [|apply eo_ret].
    apply eo_bind; [emits_all|]. intros _.
    apply eo_for_each. intros k. apply eo_reconcile_not_post.
Qed.

Lemma submissions_follow_the_database_witness :
  Trace.posted_ids (fst (Sample.run Sample.migrating))
  `sublist_of` map workorder_number [Sample.work_order 52204 "High"].
Proof.
  apply (proj2 (submissions_follow_the_database Sample.migrating "mtam"
                  "http://jira.example.org/rest/api/2/issue/"
                  "http://jira.example.org/rest/api/2/search?jql=project%20%3D%20%22SUP%22&fields=customfield_10411&maxResults=1000"
                  "Basic abc" "SUP" "trackit.example.org" "jira.example.org"
                  "SELECT wo_num FROM tasks" "C:\attachments"
                  Sample.duedate_map Sample.config []
                  [Sample.work_order 52204 "High"] eq_refl)).
Defined.


